(** * Windows identifier spoofer: controller, interception hooks and
      host binding of [src/native/windows-spoofer]

    The development embeds the C++ sources

    - [include/windows-spoofer.h]   (the two identifier structs, the class),
    - [src/identifier-manager.cc]   (the [WindowsSpoofer] controller),
    - [src/api-hooks.cc]            (the two hooked queries, install/remove),
    - [src/spoofer.cc]              (the NAN methods exposed to the host)

    as pure functions with explicit state passing.  Everything the code asks
    of the operating system (module handles, entry points, the Detours
    commit, process handles, the real identity queries) is read from a
    [World] record handed to each call; C++ exceptions are values of a
    result type. *)

From Stdlib Require Import ZArith List Bool String Ascii Lia.
From Stdlib Require Import Numbers.DecimalString.
Import ListNotations.

Local Open Scope string_scope.
Local Open Scope Z_scope.

(* ================================================================== *)
(** ** Win32 scalar types and constants *)

Module Win32.

(** [DWORD], [ULONG], [UINT] and [unsigned long] are all 32 bits wide on
    the only platform the sources compile for ([#ifdef _WIN32], LLP64). *)
Definition DWORD := Z.
Definition LONG := Z.
Definition BYTE := Z.
Definition HMODULE := Z.
Definition FARPROC := Z.
Definition HANDLE := Z.

Definition ULONG_MAX : Z := 2 ^ 32 - 1.
Definition NO_ERROR : Z := 0.
Definition ERROR_SUCCESS : Z := 0.
Definition STILL_ACTIVE : Z := 259.

(** [static_cast<DWORD>] / [static_cast<BYTE>] of an unsigned value. *)
Definition to_DWORD (v : Z) : DWORD := v mod 2 ^ 32.
Definition to_BYTE (v : Z) : BYTE := v mod 256.

End Win32.
Import Win32.

(* ================================================================== *)
(** ** The fragment of [std::string], [<cctype>] and [<string>] used *)

Module Cxx.

Definition code (c : ascii) : Z := Z.of_nat (nat_of_ascii c).
Definition chr (n : Z) : ascii := ascii_of_nat (Z.to_nat n).

(** [s.empty()], [s.length()]. *)
Definition empty (s : string) : bool :=
  match s with EmptyString => true | String _ _ => false end.

Definition length (s : string) : Z := Z.of_nat (String.length s).

(** [s.substr(pos, n)] for [pos <= s.length()]; every call site in the
    sources is guarded so that this holds. *)
Definition substr (s : string) (pos n : nat) : string :=
  String.substring pos n s.

(** [::toupper] in the C locale, and [std::transform] of it over a
    string. *)
Definition toupper (c : ascii) : ascii :=
  let n := code c in
  if (97 <=? n) && (n <=? 122) then chr (n - 32) else c.

Fixpoint transform_toupper (s : string) : string :=
  match s with
  | EmptyString => EmptyString
  | String c r => String (toupper c) (transform_toupper r)
  end.

(** [isspace] in the C locale: space, and [\t \n \v \f \r]. *)
Definition isspace (c : ascii) : bool :=
  let n := code c in (n =? 32) || ((9 <=? n) && (n <=? 13)).

(** Value of a character as a digit in bases up to 36. *)
Definition digit_value (c : ascii) : option Z :=
  let n := code c in
  if (48 <=? n) && (n <=? 57) then Some (n - 48)
  else if (97 <=? n) && (n <=? 122) then Some (n - 97 + 10)
  else if (65 <=? n) && (n <=? 90) then Some (n - 65 + 10)
  else None.

Definition digit_in (base : Z) (c : ascii) : option Z :=
  match digit_value c with
  | Some d => if d <? base then Some d else None
  | None => None
  end.

(** *** [std::stoul]

    [std::stoul(str, nullptr, base)] runs [strtoul] on the characters
    of [str]: leading white space is skipped, one sign is accepted, for
    base 16 a [0x]/[0X] prefix is accepted, and then the LONGEST run of
    digits is converted; whatever follows the digits is ignored.  It
    throws [std::invalid_argument] when no digit was converted and
    [std::out_of_range] when the value does not fit [unsigned long].  A
    leading minus negates the value in the unsigned type. *)

Inductive stoul_result : Type :=
| Converted (v : Z)
| invalid_argument
| out_of_range.

Fixpoint skip_space (s : string) : string :=
  match s with
  | String c r => if isspace c then skip_space r else s
  | EmptyString => s
  end.

(** Returns [(negative, rest)]. *)
Definition read_sign (s : string) : bool * string :=
  match s with
  | String "-"%char r => (true, r)
  | String "+"%char r => (false, r)
  | _ => (false, s)
  end.

(** Accumulates the digits at the head of [s]; returns the (unbounded)
    value and how many digits were read. *)
Fixpoint read_digits (base : Z) (s : string) (acc : Z) (n : nat) : Z * nat :=
  match s with
  | String c r =>
      match digit_in base c with
      | Some d => read_digits base r (acc * base + d) (S n)
      | None => (acc, n)
      end
  | EmptyString => (acc, n)
  end.

(** The [0x] prefix belongs to the number only when a hex digit follows
    it; otherwise the subject sequence is the single digit [0]. *)
Definition skip_hex_prefix (base : Z) (s : string) : string :=
  match s with
  | String "0"%char (String x r) =>
      if (base =? 16) && ((code x =? 120) || (code x =? 88)) then
        match r with
        | String d _ => match digit_in 16 d with Some _ => r | None => s end
        | EmptyString => s
        end
      else s
  | _ => s
  end.

Definition stoul (str : string) (base : Z) : stoul_result :=
  let (neg, body) := read_sign (skip_space str) in
  let (v, n) := read_digits base (skip_hex_prefix base body) 0 0 in
  match n with
  | O => invalid_argument
  | S _ =>
      if ULONG_MAX <? v then out_of_range
      else Converted (if neg then (- v) mod 2 ^ 32 else v)
  end.

(** *** Stream insertion of integers in hexadecimal *)

(** One hexadecimal digit, as [std::hex] prints it with or without
    [std::uppercase]. *)
Definition hex_digit (upper : bool) (d : Z) : ascii :=
  if d <? 10 then chr (48 + d)
  else if upper then chr (65 + (d - 10)) else chr (97 + (d - 10)).

Fixpoint hex_digits (fuel : nat) (upper : bool) (v : Z) (acc : string) : string :=
  match fuel with
  | O => acc
  | S f =>
      let acc' := String (hex_digit upper (v mod 16)) acc in
      if v / 16 =? 0 then acc' else hex_digits f upper (v / 16) acc'
  end.

(** [ss << std::hex << v] for a 32-bit [v]: at most eight digits, no
    leading zeros, a single [0] for zero. *)
Definition put_hex (upper : bool) (v : Z) : string :=
  hex_digits 8 upper (v mod 2 ^ 32) EmptyString.

Fixpoint fill (n : nat) (c : ascii) : string :=
  match n with O => EmptyString | S k => String c (fill k c) end.

(** [ss << std::setfill(c) << std::setw(w) << text]: right-aligned. *)
Definition setw (w : nat) (c : ascii) (text : string) : string :=
  fill (w - String.length text) c ++ text.

End Cxx.

(* ================================================================== *)
(** ** [windows-spoofer.h]: the identifier structs *)

Record SpoofedIdentifiers : Type := mkSpoofed {
  macAddress : string;
  diskSerial : string;
  volumeSerial : string;
  gpuId : string;
  biosSerial : string;
  motherboardSerial : string;
  active : bool;
  processId : DWORD
}.

Module Original.
Record OriginalIdentifiers : Type := mk {
  macAddress : string;
  diskSerial : string;
  volumeSerial : string;
  gpuId : string;
  biosSerial : string;
  motherboardSerial : string
}.
End Original.
Definition OriginalIdentifiers : Type := Original.OriginalIdentifiers.

(** Value initialisation [SpoofedIdentifiers x = {}] and
    [OriginalIdentifiers x = {}]. *)
Definition SpoofedIdentifiers_zero : SpoofedIdentifiers :=
  mkSpoofed EmptyString EmptyString EmptyString EmptyString
            EmptyString EmptyString false 0.

Definition OriginalIdentifiers_zero : OriginalIdentifiers :=
  Original.mk EmptyString EmptyString EmptyString EmptyString
              EmptyString EmptyString.

Definition set_macAddress (v : string) (x : SpoofedIdentifiers) :=
  mkSpoofed v (diskSerial x) (volumeSerial x) (gpuId x) (biosSerial x)
            (motherboardSerial x) (active x) (processId x).
Definition set_diskSerial (v : string) (x : SpoofedIdentifiers) :=
  mkSpoofed (macAddress x) v (volumeSerial x) (gpuId x) (biosSerial x)
            (motherboardSerial x) (active x) (processId x).
Definition set_volumeSerial (v : string) (x : SpoofedIdentifiers) :=
  mkSpoofed (macAddress x) (diskSerial x) v (gpuId x) (biosSerial x)
            (motherboardSerial x) (active x) (processId x).
Definition set_gpuId (v : string) (x : SpoofedIdentifiers) :=
  mkSpoofed (macAddress x) (diskSerial x) (volumeSerial x) v (biosSerial x)
            (motherboardSerial x) (active x) (processId x).
Definition set_biosSerial (v : string) (x : SpoofedIdentifiers) :=
  mkSpoofed (macAddress x) (diskSerial x) (volumeSerial x) (gpuId x) v
            (motherboardSerial x) (active x) (processId x).
Definition set_motherboardSerial (v : string) (x : SpoofedIdentifiers) :=
  mkSpoofed (macAddress x) (diskSerial x) (volumeSerial x) (gpuId x)
            (biosSerial x) v (active x) (processId x).
Definition set_active (v : bool) (x : SpoofedIdentifiers) :=
  mkSpoofed (macAddress x) (diskSerial x) (volumeSerial x) (gpuId x)
            (biosSerial x) (motherboardSerial x) v (processId x).
Definition set_processId (v : DWORD) (x : SpoofedIdentifiers) :=
  mkSpoofed (macAddress x) (diskSerial x) (volumeSerial x) (gpuId x)
            (biosSerial x) (motherboardSerial x) (active x) v.

(* ================================================================== *)
(** ** Records the two intercepted queries work on *)

(** One [IP_ADAPTER_INFO] node; only the two fields the sources read or
    write are kept.  [Address] is the [BYTE\[MAX_ADAPTER_ADDRESS_LENGTH\]]
    buffer.  The chain linked through [Next] is a Rocq list. *)
Record IP_ADAPTER_INFO : Type := mkAdapter {
  AddressLength : Z;
  Address : list BYTE
}.

(** Memory behind the pointer arguments of [GetAdaptersInfo]: [None] is a
    null [AdapterInfo]. *)
Record AdaptersCall : Type := mkAdaptersCall {
  AdapterInfo : option (list IP_ADAPTER_INFO);
  SizePointer : Z
}.

(** Arguments of [GetVolumeInformationA]; for each pointer argument the
    memory behind it, [None] being a null pointer. *)
Record VolumeCall : Type := mkVolumeCall {
  lpRootPathName : string;
  lpVolumeNameBuffer : option string;
  nVolumeNameSize : DWORD;
  lpVolumeSerialNumber : option DWORD;
  lpMaximumComponentLength : option DWORD;
  lpFileSystemFlags : option DWORD;
  lpFileSystemNameBuffer : option string;
  nFileSystemNameSize : DWORD
}.

Definition store_VolumeSerialNumber (v : DWORD) (c : VolumeCall) : VolumeCall :=
  mkVolumeCall (lpRootPathName c) (lpVolumeNameBuffer c) (nVolumeNameSize c)
               (Some v) (lpMaximumComponentLength c) (lpFileSystemFlags c)
               (lpFileSystemNameBuffer c) (nFileSystemNameSize c).

(** The function types of the header: a real (or trampolined) entry point
    returns its result code and the memory it left behind. *)
Definition GetVolumeInformationAFunc : Type := VolumeCall -> bool * VolumeCall.
Definition GetAdaptersInfoFunc : Type := AdaptersCall -> DWORD * AdaptersCall.

(* ================================================================== *)
(** ** The operating environment *)

Inductive HookTarget : Type := VolumeInformation | AdaptersInfo.

Inductive DetourOp : Type :=
| Attach (t : HookTarget)
| Detach (t : HookTarget).

(** What [GetCurrentMacAddress] finds after its direct call of
    [GetAdaptersInfo(adapterInfo, &bufLen)]: the status, the updated
    [bufLen] and the contents of [adapterInfo\[0\]]. *)
Record AdaptersProbe : Type := mkProbe {
  probe_status : DWORD;
  probe_bufLen : DWORD;
  probe_first : IP_ADAPTER_INFO
}.

Record World : Type := mkWorld {
  GetModuleHandleA : string -> option HMODULE;
  GetProcAddress : HMODULE -> string -> option FARPROC;
  (** Result of committing a Detours transaction holding the given
      operations. *)
  DetourTransactionCommit : list DetourOp -> LONG;
  OpenProcess : DWORD -> option HANDLE;
  (** [None]: the call returned [FALSE]; [Some c]: it stored exit code [c]. *)
  GetExitCodeProcess : HANDLE -> option DWORD;
  (** What the two direct calls made while capturing the original values
      hand back to their caller (redirected or not): the adapter probe,
      and for the volume query on [C:\] the serial it stored, [None] when
      it returned [FALSE]. *)
  GetAdaptersInfo_probe : AdaptersProbe;
  GetVolumeInformationA_C : option DWORD
}.

(* ================================================================== *)
(** ** [windows-spoofer.h]: the controller object *)

Definition ObjId := nat.

Record WindowsSpoofer : Type := mkSpoofer {
  m_currentSpoofed : SpoofedIdentifiers;
  m_originalValues : OriginalIdentifiers;
  m_initialized : bool;
  m_hooksInstalled : bool;
  m_targetProcessId : DWORD
}.

Definition set_currentSpoofed (v : SpoofedIdentifiers) (s : WindowsSpoofer) :=
  mkSpoofer v (m_originalValues s) (m_initialized s) (m_hooksInstalled s)
            (m_targetProcessId s).
Definition set_originalValues (v : OriginalIdentifiers) (s : WindowsSpoofer) :=
  mkSpoofer (m_currentSpoofed s) v (m_initialized s) (m_hooksInstalled s)
            (m_targetProcessId s).
Definition set_initialized (v : bool) (s : WindowsSpoofer) :=
  mkSpoofer (m_currentSpoofed s) (m_originalValues s) v (m_hooksInstalled s)
            (m_targetProcessId s).
Definition set_hooksInstalled (v : bool) (s : WindowsSpoofer) :=
  mkSpoofer (m_currentSpoofed s) (m_originalValues s) (m_initialized s) v
            (m_targetProcessId s).
Definition set_targetProcessId (v : DWORD) (s : WindowsSpoofer) :=
  mkSpoofer (m_currentSpoofed s) (m_originalValues s) (m_initialized s)
            (m_hooksInstalled s) v.

(* ================================================================== *)
(** ** [api-hooks.cc]: file-scope state and the Detours table *)

Inductive DetourCall : Type :=
| CallTransactionBegin
| CallUpdateProcessModules
| CallAttach (t : HookTarget)
| CallDetach (t : HookTarget)
| CallTransactionCommit (result : LONG).

(** The three [static] globals of [api-hooks.cc], the set of entry points
    currently redirected in the process, and the trace of Detours calls
    made so far (oldest first). *)
Record HookState : Type := mkHooks {
  g_spooferInstance : option ObjId;
  g_originalGetVolumeInformationA : option FARPROC;
  g_originalGetAdaptersInfo : option FARPROC;
  attached : list HookTarget;
  detours_trace : list DetourCall
}.

Definition HookState_init : HookState := mkHooks None None None [] [].

Definition set_spooferInstance (v : option ObjId) (h : HookState) :=
  mkHooks v (g_originalGetVolumeInformationA h) (g_originalGetAdaptersInfo h)
          (attached h) (detours_trace h).
Definition set_originalGetVolumeInformationA (v : option FARPROC) (h : HookState) :=
  mkHooks (g_spooferInstance h) v (g_originalGetAdaptersInfo h)
          (attached h) (detours_trace h).
Definition set_originalGetAdaptersInfo (v : option FARPROC) (h : HookState) :=
  mkHooks (g_spooferInstance h) (g_originalGetVolumeInformationA h) v
          (attached h) (detours_trace h).
Definition set_attached (v : list HookTarget) (h : HookState) :=
  mkHooks (g_spooferInstance h) (g_originalGetVolumeInformationA h)
          (g_originalGetAdaptersInfo h) v (detours_trace h).
Definition trace (c : list DetourCall) (h : HookState) :=
  mkHooks (g_spooferInstance h) (g_originalGetVolumeInformationA h)
          (g_originalGetAdaptersInfo h) (attached h)
          (detours_trace h ++ c)%list.

Definition HookTarget_eqb (a b : HookTarget) : bool :=
  match a, b with
  | VolumeInformation, VolumeInformation => true
  | AdaptersInfo, AdaptersInfo => true
  | _, _ => false
  end.

Definition is_attached (t : HookTarget) (l : list HookTarget) : bool :=
  existsb (HookTarget_eqb t) l.

(** Effect of a committed transaction on the redirection table. *)
Definition apply_op (l : list HookTarget) (op : DetourOp) : list HookTarget :=
  match op with
  | Attach t => if is_attached t l then l else (l ++ [t])%list
  | Detach t => filter (fun u => negb (HookTarget_eqb t u)) l
  end.

Definition op_call (op : DetourOp) : DetourCall :=
  match op with Attach t => CallAttach t | Detach t => CallDetach t end.

(** [DetourTransactionBegin(); DetourUpdateProcessModules(); <ops>;
    DetourTransactionCommit()].  The operations take effect together when
    the commit returns [NO_ERROR] and not at all otherwise. *)
Definition detour_transaction (w : World) (ops : list DetourOp) (h : HookState)
  : LONG * HookState :=
  let result := DetourTransactionCommit w ops in
  let h1 := trace ([CallTransactionBegin; CallUpdateProcessModules]
                   ++ map op_call ops ++ [CallTransactionCommit result])%list h in
  if result =? NO_ERROR
  then (result, set_attached (fold_left apply_op ops (attached h1)) h1)
  else (result, h1).

(* ================================================================== *)
(** ** [identifier-manager.cc] *)

(** [WindowsSpoofer::WindowsSpoofer()]. *)
Definition WindowsSpoofer_new : WindowsSpoofer :=
  mkSpoofer SpoofedIdentifiers_zero OriginalIdentifiers_zero false false 0.

(** [IsProcessAlive]: a handle must be obtained, the exit code query must
    succeed and report [STILL_ACTIVE]. *)
Definition IsProcessAlive (w : World) (pid : DWORD) : bool :=
  match OpenProcess w pid with
  | Some hProcess =>
      match GetExitCodeProcess w hProcess with
      | Some exitCode => exitCode =? STILL_ACTIVE
      | None => false
      end
  | None => false
  end.

Definition IsSpoofingActive (w : World) (s : WindowsSpoofer) : bool :=
  m_initialized s && active (m_currentSpoofed s)
  && IsProcessAlive w (m_targetProcessId s).

Definition GetCurrentSpoofedValues (s : WindowsSpoofer) : SpoofedIdentifiers :=
  m_currentSpoofed s.

Definition SetupProcessMonitoring (pid : DWORD) (s : WindowsSpoofer) :=
  set_targetProcessId pid s.

(** The loop of [GetCurrentMacAddress]: bytes [i, i+1, ...] of the
    address, two lower-case hex digits each, separated by colons. *)
Fixpoint mac_text (i : nat) (bytes : list BYTE) : string :=
  match bytes with
  | [] => EmptyString
  | b :: r =>
      ((match i with O => EmptyString | S _ => ":" end)
       ++ Cxx.setw 2 "0"%char (Cxx.put_hex false b)
       ++ mac_text (S i) r)%string
  end.

Definition GetCurrentMacAddress (w : World) : string :=
  let p := GetAdaptersInfo_probe w in
  if (probe_status p =? ERROR_SUCCESS) && (0 <? probe_bufLen p)
     && (AddressLength (probe_first p) =? 6)
  then Cxx.transform_toupper
         (mac_text 0 (firstn 6 (Address (probe_first p))))
  else "00:00:00:00:00:00".

Definition GetCurrentVolumeSerial (w : World) : string :=
  match GetVolumeInformationA_C w with
  | Some volumeSerial => Cxx.put_hex true volumeSerial
  | None => "00000000"
  end.

Definition GetCurrentDiskSerial : string := "DISK_SERIAL_123".

Definition GetOriginalIdentifiers (w : World) : OriginalIdentifiers :=
  Original.mk (GetCurrentMacAddress w) GetCurrentDiskSerial
              (GetCurrentVolumeSerial w)
              "ORIGINAL_GPU" "ORIGINAL_BIOS" "ORIGINAL_MB".

Definition InitializeForProcess (w : World) (pid : DWORD) (s : WindowsSpoofer)
  : bool * WindowsSpoofer :=
  if m_initialized s && (m_targetProcessId s =? pid) then (true, s)
  else
    let s1 := set_originalValues (GetOriginalIdentifiers w) s in
    let s2 := set_targetProcessId pid s1 in
    let s3 := set_initialized true s2 in
    (true, SetupProcessMonitoring pid s3).

(** The placeholders of the per-category spoofing. *)
Definition CanSafeMacSpoof : bool := true.
Definition ApplyMacSpoofing (newMac : string) : bool := true.
Definition SpoofVolumeSerial (newSerial : string) : bool := true.
Definition SpoofDiskSerial (newSerial : string) : bool := true.
Definition SpoofGpuId (newId : string) : bool := true.
Definition SpoofWmiData (bios motherboard : string) : bool := true.

(* ================================================================== *)
(** ** [api-hooks.cc]: installing and removing the redirections *)

(** The operations between [DetourTransactionBegin] and
    [DetourTransactionCommit]: one [DetourAttach] (resp. [DetourDetach])
    for each of the two [g_original...] pointers that is not null. *)
Definition attach_ops (h : HookState) : list DetourOp :=
  (match g_originalGetVolumeInformationA h with
   | Some _ => [Attach VolumeInformation]
   | None => []
   end
   ++ match g_originalGetAdaptersInfo h with
      | Some _ => [Attach AdaptersInfo]
      | None => []
      end)%list.

Definition detach_ops (h : HookState) : list DetourOp :=
  (match g_originalGetVolumeInformationA h with
   | Some _ => [Detach VolumeInformation]
   | None => []
   end
   ++ match g_originalGetAdaptersInfo h with
      | Some _ => [Detach AdaptersInfo]
      | None => []
      end)%list.

(** [InstallHooks], a member function: [this] is the address of the
    object, [s] its fields. *)
Definition InstallHooks (w : World) (this : ObjId) (s : WindowsSpoofer)
           (h : HookState) : bool * WindowsSpoofer * HookState :=
  if m_hooksInstalled s then (true, s, h)
  else
    let h1 := set_spooferInstance (Some this) h in
    let hKernel32 := GetModuleHandleA w "kernel32.dll" in
    let hIphlpapi := GetModuleHandleA w "iphlpapi.dll" in
    match hKernel32 with
    | None => (false, s, h1)
    | Some k =>
        let h2 := set_originalGetVolumeInformationA
                    (GetProcAddress w k "GetVolumeInformationA") h1 in
        let h3 := match hIphlpapi with
                  | Some m => set_originalGetAdaptersInfo
                                (GetProcAddress w m "GetAdaptersInfo") h2
                  | None => h2
                  end in
        match g_originalGetVolumeInformationA h3 with
        | None => (false, s, h3)
        | Some _ =>
            let (result, h4) := detour_transaction w (attach_ops h3) h3 in
            if result =? NO_ERROR
            then (true, set_hooksInstalled true s, h4)
            else (false, s, h4)
        end
    end.

Definition RemoveHooks (w : World) (s : WindowsSpoofer) (h : HookState)
  : bool * WindowsSpoofer * HookState :=
  if negb (m_hooksInstalled s) then (true, s, h)
  else
    let (result, h1) := detour_transaction w (detach_ops h) h in
    if result =? NO_ERROR
    then (true, set_hooksInstalled false s, set_spooferInstance None h1)
    else (false, s, h1).

(* ================================================================== *)
(** ** [identifier-manager.cc]: apply, restore, cleanup *)

Definition ApplySpoofing (w : World) (this : ObjId)
           (identifiers : SpoofedIdentifiers)
           (s : WindowsSpoofer) (h : HookState)
  : bool * WindowsSpoofer * HookState :=
  if negb (m_initialized s) then (false, s, h)
  else
    let s1 := set_currentSpoofed identifiers s in
    let s2 := set_currentSpoofed
                (set_processId (m_targetProcessId s1) (m_currentSpoofed s1)) s1 in
    let s3 := set_currentSpoofed (set_active true (m_currentSpoofed s2)) s2 in
    let '(installed, s4, h1) := InstallHooks w this s3 h in
    if negb installed
    then (false, set_currentSpoofed (set_active false (m_currentSpoofed s4)) s4, h1)
    else
      let success := true in
      let success :=
        if negb (Cxx.empty (macAddress identifiers)) && CanSafeMacSpoof
        then success && ApplyMacSpoofing (macAddress identifiers)
        else success in
      let success :=
        if negb (Cxx.empty (volumeSerial identifiers))
        then success && SpoofVolumeSerial (volumeSerial identifiers)
        else success in
      let success :=
        if negb (Cxx.empty (diskSerial identifiers))
        then success && SpoofDiskSerial (diskSerial identifiers)
        else success in
      let success :=
        if negb (Cxx.empty (gpuId identifiers))
        then success && SpoofGpuId (gpuId identifiers)
        else success in
      let success :=
        if negb (Cxx.empty (biosSerial identifiers))
           || negb (Cxx.empty (motherboardSerial identifiers))
        then success && SpoofWmiData (biosSerial identifiers)
                                     (motherboardSerial identifiers)
        else success in
      (success, s4, h1).

(** The result of [RemoveHooks()] is discarded. *)
Definition RestoreOriginalValues (w : World) (s : WindowsSpoofer) (h : HookState)
  : bool * WindowsSpoofer * HookState :=
  if negb (m_initialized s) || negb (active (m_currentSpoofed s))
  then (true, s, h)
  else
    let '(_, s1, h1) := RemoveHooks w s h in
    (true, set_currentSpoofed (set_active false (m_currentSpoofed s1)) s1, h1).

Definition Cleanup (w : World) (s : WindowsSpoofer) (h : HookState)
  : WindowsSpoofer * HookState :=
  if m_initialized s then
    let '(_, s1, h1) := RestoreOriginalValues w s h in
    (set_targetProcessId 0 (set_initialized false s1), h1)
  else (s, h).

(* ================================================================== *)
(** ** [api-hooks.cc]: the two hooked queries

    A hook runs with the real entry point ([g_original...], called
    through) and with the object [g_spooferInstance] points to, [None]
    for a null pointer.  The values thrown by [std::stoul] are caught by
    [catch (...)] inside the hooks and never leave them. *)

Definition HookedGetVolumeInformationA
           (g_original : GetVolumeInformationAFunc)
           (instance : option WindowsSpoofer) (w : World)
           (c : VolumeCall) : bool * VolumeCall :=
  let (result, out) := g_original c in
  match instance, lpVolumeSerialNumber c with
  | Some spoofer, Some _ =>
      if IsSpoofingActive w spoofer then
        let current := GetCurrentSpoofedValues spoofer in
        if negb (Cxx.empty (volumeSerial current)) then
          match Cxx.stoul (volumeSerial current) 16 with
          | Cxx.Converted spoofedSerial =>
              (result, store_VolumeSerialNumber (to_DWORD spoofedSerial) out)
          | _ => (result, out)
          end
        else (result, out)
      else (result, out)
  | _, _ => (result, out)
  end.

(** [pAdapter->Address\[i\] = b]. *)
Fixpoint store_byte (i : nat) (b : BYTE) (l : list BYTE) : list BYTE :=
  match l, i with
  | [], _ => []
  | _ :: r, O => b :: r
  | x :: r, S k => x :: store_byte k b r
  end.

Definition store_Address (i : nat) (b : BYTE) (a : IP_ADAPTER_INFO) :=
  mkAdapter (AddressLength a) (store_byte i b (Address a)).

(** The [for] loop over the bytes of one record, entered at index [i]
    with [n] iterations left before [i] reaches 6. *)
Fixpoint spoof_address (n i : nat) (mac : string) (a : IP_ADAPTER_INFO)
  : IP_ADAPTER_INFO :=
  match n with
  | O => a
  | S n' =>
      if (Z.of_nat i <? 6) && (Z.of_nat i <? AddressLength a) then
        let byteStr := Cxx.substr mac (i * 2) 2 in
        match Cxx.stoul byteStr 16 with
        | Cxx.Converted v =>
            spoof_address n' (S i) mac (store_Address i (to_BYTE v) a)
        | _ => a
        end
      else a
  end.

(** The [while (pAdapter)] loop along the [Next] chain. *)
Fixpoint spoof_adapters (mac : string) (chain : list IP_ADAPTER_INFO)
  : list IP_ADAPTER_INFO :=
  match chain with
  | [] => []
  | pAdapter :: next =>
      (if 12 <=? Cxx.length mac then spoof_address 6 0 mac pAdapter
       else pAdapter)
      :: spoof_adapters mac next
  end.

Definition HookedGetAdaptersInfo
           (g_original : GetAdaptersInfoFunc)
           (instance : option WindowsSpoofer) (w : World)
           (c : AdaptersCall) : DWORD * AdaptersCall :=
  let (result, out) := g_original c in
  match instance, AdapterInfo c, AdapterInfo out with
  | Some spoofer, Some _, Some chain =>
      if IsSpoofingActive w spoofer && (result =? NO_ERROR) then
        let current := GetCurrentSpoofedValues spoofer in
        if negb (Cxx.empty (macAddress current)) then
          (result,
           mkAdaptersCall (Some (spoof_adapters (macAddress current) chain))
                          (SizePointer out))
        else (result, out)
      else (result, out)
  | _, _, _ => (result, out)
  end.

(* ================================================================== *)
(** ** [identifier-manager.cc]: random identifiers

    [Rng] stands for the randomness of the process: what
    [std::random_device] still has to hand out and the engine seeded
    from it; [dis lo hi] takes one integer between [lo] and [hi] out of
    it, as a draw of [std::uniform_int_distribution<>(lo, hi)] does. *)

Section Random.

Variable Rng : Type.
Variable dis : Z -> Z -> Rng -> Z * Rng.

(** [std::random_device rd; std::mt19937 gen(rd());], the first two
    lines of both generators: every call takes a seed [rd()], a value
    between [random_device::min()] = 0 and [random_device::max()] =
    4294967295, whatever it goes on to produce, and the loop draws from
    the engine started with it. *)
Definition mt19937 (g : Rng) : Rng :=
  let (_, gen) := dis 0 4294967295 g in gen.

Fixpoint random_mac_loop (n i : nat) (g : Rng) : string * Rng :=
  match n with
  | O => (EmptyString, g)
  | S n' =>
      let (v, g1) := dis 0 255 g in
      let (rest, g2) := random_mac_loop n' (S i) g1 in
      (((match i with O => EmptyString | S _ => ":" end)
        ++ Cxx.setw 2 "0"%char (Cxx.put_hex false v) ++ rest)%string, g2)
  end.

Definition GenerateRandomMac (g : Rng) : string * Rng :=
  let gen := mt19937 g in
  let (mac, g1) := random_mac_loop 6 0 gen in
  (Cxx.transform_toupper mac, g1).

Fixpoint random_serial_loop (n : nat) (g : Rng) : string * Rng :=
  match n with
  | O => (EmptyString, g)
  | S n' =>
      let (v, g1) := dis 0 15 g in
      let (rest, g2) := random_serial_loop n' g1 in
      ((Cxx.put_hex true v ++ rest)%string, g2)
  end.

Definition GenerateRandomSerial (length : Z) (g : Rng) : string * Rng :=
  let gen := mt19937 g in
  random_serial_loop (Z.to_nat length) gen.

Definition GenerateRandomIdentifiers (g : Rng) : SpoofedIdentifiers * Rng :=
  let identifiers := SpoofedIdentifiers_zero in
  let (mac, g1) := GenerateRandomMac g in
  let identifiers := set_macAddress mac identifiers in
  let (disk, g2) := GenerateRandomSerial 16 g1 in
  let identifiers := set_diskSerial disk identifiers in
  let (volume, g3) := GenerateRandomSerial 8 g2 in
  let identifiers := set_volumeSerial volume identifiers in
  let (gpu, g4) := GenerateRandomSerial 12 g3 in
  let identifiers := set_gpuId gpu identifiers in
  let (bios, g5) := GenerateRandomSerial 10 g4 in
  let identifiers := set_biosSerial bios identifiers in
  let (mb, g6) := GenerateRandomSerial 14 g5 in
  let identifiers := set_motherboardSerial mb identifiers in
  let identifiers := set_active false identifiers in
  let identifiers := set_processId 0 identifiers in
  (identifiers, g6).

End Random.

(* ================================================================== *)
(** ** [spoofer.cc]: the methods exposed to the host *)

(** JavaScript values as far as the methods look at them.  Numbers are
    the integral ones (integers that are doubles); a string is given by
    its UTF-8 form; objects are plain ones, a list of own data properties
    over [Object.prototype], none of which hides one of its methods. *)
#[warnings="-register-all"]
Inductive JsValue : Type :=
| JsUndefined
| JsBoolean (b : bool)
| JsNumber (n : Z)
| JsString (s : string)
| JsObject (props : list (string * JsValue)).

Inductive ErrorKind : Type := Error | TypeError.

(** How a method ends: [info.GetReturnValue().Set(v)], or a pending
    JavaScript exception raised by [Nan::ThrowError] /
    [Nan::ThrowTypeError]. *)
Inductive Completion : Type :=
| Return (v : JsValue)
| Throw (k : ErrorKind) (message : string).

Definition IsNumber (v : JsValue) : bool :=
  match v with JsNumber _ => true | _ => false end.

Definition IsObject (v : JsValue) : bool :=
  match v with JsObject _ => true | _ => false end.

(** [Nan::To<uint32_t>]. *)
Definition ToUint32 (v : JsValue) : Z :=
  match v with
  | JsNumber n => n mod 2 ^ 32
  | JsBoolean true => 1
  | _ => 0
  end.

(** The decimal digits of a natural number. *)
Definition decimal (n : Z) : string := NilZero.string_of_int (Z.to_int n).

(** Does the decimal number [c] denote the double [x], for an integer
    [x] of at least 2^53?  The doubles next to [x] lie one unit in the
    last place above it and one below (half a unit below a power of
    two); [c] rounds to [x] when it is nearer to [x] than to either
    neighbour, the two midpoints included when the significand of [x]
    is even.  Everything is compared in quarters. *)
Definition reads_as (x c : Z) : bool :=
  let u := 2 ^ (Z.log2 x - 52) in
  let m := x / u in
  let below := if m =? 2 ^ 52 then u else 2 * u in
  if Z.even m
  then (4 * x - below <=? 4 * c) && (4 * c <=? 4 * x + 2 * u)
  else (4 * x - below <? 4 * c) && (4 * c <? 4 * x + 2 * u).

(** The decimal number with the fewest significant digits that denotes
    [x], nearest to [x] among those: the multiple of the highest power
    [10^p] that does, [p] counted down. *)
Fixpoint shortest (x : Z) (p : nat) : Z * nat :=
  match p with
  | O => (x, O)
  | S p' =>
      let t := 10 ^ Z.of_nat p in
      let c1 := x / t * t in
      let c2 := c1 + t in
      match (0 <? c1) && reads_as x c1, reads_as x c2 with
      | true, true => if x - c1 <=? c2 - x then (c1, p) else (c2, p)
      | true, false => (c1, p)
      | false, true => (c2, p)
      | false, false => shortest x p'
      end
  end.

(** [Number::toString] on an integral number: below 2^53 its decimal
    digits; above, the shortest digits that denote it, filled up with
    zeros while there are at most 21 digits and in exponent form
    beyond. *)
Definition Number_toString (n : Z) : string :=
  let x := Z.abs n in
  let sign := if n <? 0 then "-" else EmptyString in
  if x <? 2 ^ 53 then sign ++ decimal x
  else
    let (v, p) := shortest x (String.length (decimal x)) in
    let d := decimal v in
    let places := String.length d in
    if (places <=? 21)%nat then sign ++ d
    else
      let k := (places - p)%nat in
      sign ++ substring 0 1 d
           ++ (if (k =? 1)%nat then EmptyString
               else "." ++ substring 1 (k - 1) d)
           ++ "e+" ++ decimal (Z.of_nat (places - 1)).

(** The string conversion [v8::String::Utf8Value] starts with. *)
Definition ToString (v : JsValue) : string :=
  match v with
  | JsUndefined => "undefined"
  | JsBoolean true => "true"
  | JsBoolean false => "false"
  | JsNumber n => Number_toString n
  | JsString s => s
  | JsObject _ => "[object Object]"
  end.

(** A [std::string] built from a pointer to characters: those before
    the first NUL. *)
Fixpoint c_str (s : string) : string :=
  match s with
  | EmptyString => EmptyString
  | String c r =>
      if Ascii.eqb c Ascii.zero then EmptyString else String c (c_str r)
  end.

(** [v8::String::Utf8Value value(isolate, v)] as every field uses it:
    a [std::string] built from the pointer [value] dereferences to, so
    the conversion of the value cut at its first NUL. *)
Definition Utf8Value (v : JsValue) : string := c_str (ToString v).

Fixpoint Get (props : list (string * JsValue)) (key : string) : option JsValue :=
  match props with
  | [] => None
  | (k, v) :: r => if String.eqb k key then Some v else Get r key
  end.

(** [if (Nan::Has(obj, key)) field = std::string of Utf8Value(Nan::Get(obj, key))]. *)
Definition read_field (props : list (string * JsValue)) (key : string)
           (store : string -> SpoofedIdentifiers -> SpoofedIdentifiers)
           (identifiers : SpoofedIdentifiers) : SpoofedIdentifiers :=
  match Get props key with
  | Some v => store (Utf8Value v) identifiers
  | None => identifiers
  end.

Definition identifiers_of_object (props : list (string * JsValue))
  : SpoofedIdentifiers :=
  let identifiers := set_active true SpoofedIdentifiers_zero in
  let identifiers := read_field props "macAddress" set_macAddress identifiers in
  let identifiers := read_field props "diskSerial" set_diskSerial identifiers in
  let identifiers := read_field props "volumeSerial" set_volumeSerial identifiers in
  let identifiers := read_field props "gpuId" set_gpuId identifiers in
  let identifiers := read_field props "biosSerial" set_biosSerial identifiers in
  read_field props "motherboardSerial" set_motherboardSerial identifiers.

Definition object_of_identifiers (x : SpoofedIdentifiers) : JsValue :=
  JsObject [ ("macAddress", JsString (macAddress x));
             ("diskSerial", JsString (diskSerial x));
             ("volumeSerial", JsString (volumeSerial x));
             ("gpuId", JsString (gpuId x));
             ("biosSerial", JsString (biosSerial x));
             ("motherboardSerial", JsString (motherboardSerial x)) ].

(** The six keys [applySpoofing] looks up. *)
Definition identifier_keys : list string :=
  [ "macAddress"; "diskSerial"; "volumeSerial"; "gpuId"; "biosSerial";
    "motherboardSerial" ].

(** A string without a NUL in it. *)
Fixpoint no_nul (s : string) : bool :=
  match s with
  | EmptyString => true
  | String c r => negb (Ascii.eqb c Ascii.zero) && no_nul r
  end.

(** A key bound to a JavaScript string, or not bound at all. *)
Definition string_or_absent (props : list (string * JsValue)) (key : string)
  : bool :=
  match Get props key with
  | Some (JsString _) | None => true
  | Some _ => false
  end.

(** The text such a key stands for: the string up to its first NUL, and
    nothing when the key is absent. *)
Definition field_text (props : list (string * JsValue)) (key : string)
  : string :=
  match Get props key with
  | Some (JsString s) => c_str s
  | _ => EmptyString
  end.

(** The state of the add-on: [g_spoofer] of [spoofer.cc] (the owned
    object together with its address), the file-scope state of
    [api-hooks.cc], and the next address [std::make_unique] hands out. *)
Record Process : Type := mkProcess {
  g_spoofer : option (ObjId * WindowsSpoofer);
  hooks : HookState;
  next_object : ObjId
}.

Definition Process_start : Process := mkProcess None HookState_init O.

(** [if (!g_spoofer) g_spoofer = std::make_unique<WindowsSpoofer>()]. *)
Definition ensure_spoofer (p : Process) : ObjId * WindowsSpoofer * Process :=
  match g_spoofer p with
  | Some (this, s) => (this, s, p)
  | None =>
      let this := next_object p in
      (this, WindowsSpoofer_new,
       mkProcess (Some (this, WindowsSpoofer_new)) (hooks p) (S this))
  end.

Definition nan_InitializeForProcess (w : World) (info : list JsValue)
           (p : Process) : Completion * Process :=
  match info with
  | JsNumber n :: _ =>
      let processId := ToUint32 (JsNumber n) in
      let '(this, s, p1) := ensure_spoofer p in
      let (success, s1) := InitializeForProcess w processId s in
      (Return (JsBoolean success),
       mkProcess (Some (this, s1)) (hooks p1) (next_object p1))
  | _ => (Throw TypeError "Process ID required", p)
  end.

Definition nan_ApplySpoofing (w : World) (info : list JsValue)
           (p : Process) : Completion * Process :=
  match g_spoofer p with
  | None => (Throw Error "Spoofer not initialized", p)
  | Some (this, s) =>
      match info with
      | JsObject identifiersObj :: _ =>
          let identifiers := identifiers_of_object identifiersObj in
          let '(success, s1, h1) :=
            ApplySpoofing w this identifiers s (hooks p) in
          (Return (JsBoolean success),
           mkProcess (Some (this, s1)) h1 (next_object p))
      | _ => (Throw TypeError "Identifiers object required", p)
      end
  end.

Definition nan_GetSpoofingStatus (w : World) (p : Process)
  : Completion * Process :=
  match g_spoofer p with
  | None => (Return (JsObject [("active", JsBoolean false)]), p)
  | Some (_, s) =>
      let isActive := IsSpoofingActive w s in
      let current := GetCurrentSpoofedValues s in
      let result := [("active", JsBoolean isActive)] in
      let result :=
        if isActive
        then (result ++ [("identifiers", object_of_identifiers current)])%list
        else result in
      (Return (JsObject result), p)
  end.

Definition nan_RestoreOriginalIdentifiers (w : World) (p : Process)
  : Completion * Process :=
  match g_spoofer p with
  | None => (Throw Error "Spoofer not initialized", p)
  | Some (this, s) =>
      let '(success, s1, h1) := RestoreOriginalValues w s (hooks p) in
      (Return (JsBoolean success),
       mkProcess (Some (this, s1)) h1 (next_object p))
  end.

(** [g_spoofer.reset()]: the destructor runs [Cleanup()] once more, then
    the object is gone. *)
Definition reset (w : World) (p : Process) : Process :=
  match g_spoofer p with
  | None => p
  | Some (_, s) =>
      let (_, h1) := Cleanup w s (hooks p) in
      mkProcess None h1 (next_object p)
  end.

Definition nan_Cleanup (w : World) (p : Process) : Completion * Process :=
  match g_spoofer p with
  | None => (Return (JsBoolean true), p)
  | Some (this, s) =>
      let (s1, h1) := Cleanup w s (hooks p) in
      (Return (JsBoolean true),
       reset w (mkProcess (Some (this, s1)) h1 (next_object p)))
  end.

Definition nan_CanSafeMacSpoof (p : Process) : Completion * Process :=
  match g_spoofer p with
  | None => (Return (JsBoolean false), p)
  | Some _ => (Return (JsBoolean CanSafeMacSpoof), p)
  end.

Section RandomBinding.

Variable Rng : Type.
Variable dis : Z -> Z -> Rng -> Z * Rng.

Definition nan_GenerateRandomIdentifiers (p : Process) (g : Rng)
  : Completion * Process * Rng :=
  let '(_, _, p1) := ensure_spoofer p in
  let (identifiers, g1) := GenerateRandomIdentifiers Rng dis g in
  (Return (object_of_identifiers identifiers), p1, g1).

End RandomBinding.

(* ================================================================== *)
(** ** Sequences of controller operations *)

Inductive Op : Type :=
| OpInitializeForProcess (processId : DWORD)
| OpApplySpoofing (identifiers : SpoofedIdentifiers)
| OpRestoreOriginalValues
| OpCleanup.

(** A controller together with the state of [api-hooks.cc] and, as a
    ghost field, the process id of the most recent call of
    [InitializeForProcess] that returned [true]. *)
Record Controlled : Type := mkControlled {
  spoofer : WindowsSpoofer;
  hooked : HookState;
  last_initialized : option DWORD
}.

Definition Controlled_start : Controlled :=
  mkControlled WindowsSpoofer_new HookState_init None.

Definition run_op (this : ObjId) (w : World) (op : Op) (c : Controlled)
  : Controlled :=
  match op with
  | OpInitializeForProcess pid =>
      let (ok, s1) := InitializeForProcess w pid (spoofer c) in
      mkControlled s1 (hooked c)
                   (if ok then Some pid else last_initialized c)
  | OpApplySpoofing identifiers =>
      let '(_, s1, h1) :=
        ApplySpoofing w this identifiers (spoofer c) (hooked c) in
      mkControlled s1 h1 (last_initialized c)
  | OpRestoreOriginalValues =>
      let '(_, s1, h1) := RestoreOriginalValues w (spoofer c) (hooked c) in
      mkControlled s1 h1 (last_initialized c)
  | OpCleanup =>
      let (s1, h1) := Cleanup w (spoofer c) (hooked c) in
      mkControlled s1 h1 (last_initialized c)
  end.

(** Each operation runs in the environment it finds at the time. *)
Fixpoint run (this : ObjId) (ops : list (World * Op)) (c : Controlled)
  : Controlled :=
  match ops with
  | [] => c
  | (w, op) :: r => run this r (run_op this w op c)
  end.

(** The ownership invariant of the data model: a live Spoofed set belongs
    to the process of the most recent successful initialize. *)
Definition owner_matches (c : Controlled) : Prop :=
  active (m_currentSpoofed (spoofer c)) = true ->
  last_initialized c = Some (processId (m_currentSpoofed (spoofer c))).

(** What the controller maintains: an initialized controller targets the
    process of the last initialize, and an active spoof set belongs to an
    initialized controller and carries its target. *)
Definition owner_inv (c : Controlled) : Prop :=
  (m_initialized (spoofer c) = true ->
   last_initialized c = Some (m_targetProcessId (spoofer c)))
  /\ (active (m_currentSpoofed (spoofer c)) = true ->
      m_initialized (spoofer c) = true
      /\ processId (m_currentSpoofed (spoofer c))
         = m_targetProcessId (spoofer c)).

(** A string of hexadecimal digits only, and at least one. *)
Fixpoint all_hex_digits (s : string) : bool :=
  match s with
  | EmptyString => true
  | String c r =>
      match Cxx.digit_in 16 c with
      | Some _ => all_hex_digits r
      | None => false
      end
  end.

Definition valid_hex (s : string) : bool :=
  negb (Cxx.empty s) && all_hex_digits s.

(** The number a string of hexadecimal digits denotes. *)
Fixpoint base16_value (s : string) (acc : Z) : Z :=
  match s with
  | EmptyString => acc
  | String c r =>
      match Cxx.digit_in 16 c with
      | Some d => base16_value r (acc * 16 + d)
      | None => acc
      end
  end.

(** Does some initialize in the sequence re-target the controller while
    a spoof is active? *)
Fixpoint retargets (this : ObjId) (ops : list (World * Op)) (c : Controlled)
  : bool :=
  match ops with
  | [] => false
  | (w, op) :: r =>
      match op with
      | OpInitializeForProcess pid =>
          active (m_currentSpoofed (spoofer c))
          && negb (m_targetProcessId (spoofer c) =? pid)
      | _ => false
      end
      || retargets this r (run_op this w op c)
  end.

(** Upper-case hexadecimal digits [0-9A-F]. *)
Definition is_upper_hex (c : ascii) : bool :=
  let n := Cxx.code c in
  ((48 <=? n) && (n <=? 57)) || ((65 <=? n) && (n <=? 70)).

Fixpoint all_upper_hex (s : string) : bool :=
  match s with
  | EmptyString => true
  | String c r => is_upper_hex c && all_upper_hex r
  end.

(** The textual form [XX:XX:XX:XX:XX:XX]. *)
Definition mac_format (s : string) : bool :=
  match s with
  | String a1 (String a2 (String c1
    (String b1 (String b2 (String c2
    (String d1 (String d2 (String c3
    (String e1 (String e2 (String c4
    (String f1 (String f2 (String c5
    (String g1 (String g2 EmptyString)))))))))))))))) =>
      forallb is_upper_hex [a1; a2; b1; b2; d1; d2; e1; e2; f1; f2; g1; g2]
      && forallb (Ascii.eqb ":"%char) [c1; c2; c3; c4; c5]
  | _ => false
  end.

(** One byte of the address as [GenerateRandomMac] renders it: two
    upper-case hex digits. *)
Definition byte_text_ok (v : Z) : bool :=
  match Cxx.transform_toupper (Cxx.setw 2 "0"%char (Cxx.put_hex false v)) with
  | String a (String b EmptyString) => is_upper_hex a && is_upper_hex b
  | _ => false
  end.

(** One draw of [GenerateRandomSerial] as it is rendered: a single
    upper-case hex digit. *)
Definition digit_text_ok (v : Z) : bool :=
  match Cxx.put_hex true v with
  | String a EmptyString => is_upper_hex a
  | _ => false
  end.

(* ================================================================== *)
(** ** The adapter hook, as its description reads

    Byte [i] of a record comes from the characters at positions [2i] and
    [2i+1] of the spoof string; it is written when [i] is below both 6
    and the record's address length and every byte up to and including
    [i] decoded. *)

Definition decode_byte (mac : string) (i : nat) : Cxx.stoul_result :=
  Cxx.stoul (Cxx.substr mac (2 * i) 2) 16.

Definition decodes (mac : string) (i : nat) : bool :=
  match decode_byte mac i with Cxx.Converted _ => true | _ => false end.

Definition decoded (mac : string) (i : nat) : BYTE :=
  match decode_byte mac i with Cxx.Converted v => to_BYTE v | _ => 0 end.

Definition expected_byte (mac : string) (a : IP_ADAPTER_INFO) (i : nat) : BYTE :=
  if (Z.of_nat i <? Z.min 6 (AddressLength a))
     && forallb (decodes mac) (seq 0 (S i))
  then decoded mac i
  else nth i (Address a) 0.

(* ================================================================== *)
(** ** Sample environments and inputs *)

Module Sample.

Definition adapter : IP_ADAPTER_INFO :=
  mkAdapter 6 [0; 26; 43; 60; 77; 94; 0; 0].

Definition short_adapter : IP_ADAPTER_INFO :=
  mkAdapter 4 [1; 2; 3; 4; 5; 6; 7; 8].

(** Both modules loaded, every entry point found, Detours commits, the
    target process runs. *)
Definition world : World :=
  mkWorld (fun name => if String.eqb name "kernel32.dll" then Some 4096
                       else if String.eqb name "iphlpapi.dll" then Some 8192
                       else None)
          (fun m _ => Some (m + 16))
          (fun _ => NO_ERROR)
          (fun pid => Some (pid + 1000))
          (fun _ => Some STILL_ACTIVE)
          (mkProbe ERROR_SUCCESS 640 adapter)
          (Some 3405691582).

(** The same, after the target process has gone. *)
Definition world_process_gone : World :=
  mkWorld (GetModuleHandleA world) (GetProcAddress world)
          (DetourTransactionCommit world)
          (fun _ => None)
          (GetExitCodeProcess world)
          (GetAdaptersInfo_probe world) (GetVolumeInformationA_C world).

(** The same, except that Detours transactions fail to commit. *)
Definition world_commit_fails : World :=
  mkWorld (GetModuleHandleA world) (GetProcAddress world)
          (fun _ => 8)
          (OpenProcess world) (GetExitCodeProcess world)
          (GetAdaptersInfo_probe world) (GetVolumeInformationA_C world).

(** The same, with [iphlpapi.dll] not loaded. *)
Definition world_no_iphlpapi : World :=
  mkWorld (fun name => if String.eqb name "kernel32.dll" then Some 4096
                       else None)
          (GetProcAddress world) (DetourTransactionCommit world)
          (OpenProcess world) (GetExitCodeProcess world)
          (GetAdaptersInfo_probe world) (GetVolumeInformationA_C world).

(** [kernel32.dll] is there but does not export the volume query. *)
Definition world_no_volume_entry : World :=
  mkWorld (GetModuleHandleA world)
          (fun m name => if String.eqb name "GetVolumeInformationA"
                         then None else Some (m + 16))
          (DetourTransactionCommit world)
          (OpenProcess world) (GetExitCodeProcess world)
          (GetAdaptersInfo_probe world) (GetVolumeInformationA_C world).

(** Nothing can be queried: no process, no adapters, no volume. *)
Definition world_all_fail : World :=
  mkWorld (fun _ => None) (fun _ _ => None) (fun _ => 8)
          (fun _ => None) (fun _ => None)
          (mkProbe 232 0 (mkAdapter 0 [])) None.

(** A real volume query: succeeds and stores serial [0xCAFEBABE]
    through a non-null pointer. *)
Definition real_volume : GetVolumeInformationAFunc :=
  fun c =>
    (true,
     match lpVolumeSerialNumber c with
     | Some _ => store_VolumeSerialNumber 3405691582 c
     | None => c
     end).

(** A real adapter enumeration returning two records. *)
Definition real_adapters : GetAdaptersInfoFunc :=
  fun c =>
    match AdapterInfo c with
    | Some _ => (NO_ERROR,
                 mkAdaptersCall (Some [adapter; short_adapter]) 1280)
    | None => (111, mkAdaptersCall None 1280)
    end.

Definition volume_call : VolumeCall :=
  mkVolumeCall "C:\" None 0 (Some 0) None None None 0.

Definition adapters_call : AdaptersCall :=
  mkAdaptersCall (Some []) 1280.

Definition with_volume (v : string) : SpoofedIdentifiers :=
  set_volumeSerial v (set_active true SpoofedIdentifiers_zero).

Definition with_mac (v : string) : SpoofedIdentifiers :=
  set_macAddress v (set_active true SpoofedIdentifiers_zero).

(** The controller after [InitializeForProcess(pid)] and
    [ApplySpoofing(identifiers)] in [world]. *)
Definition applied (pid : DWORD) (identifiers : SpoofedIdentifiers)
  : Controlled :=
  run 7%nat [(world, OpInitializeForProcess pid);
             (world, OpApplySpoofing identifiers)] Controlled_start.

(** The add-on after [initializeForProcess(1)] and
    [applySpoofing({volumeSerial: "DEADBEEF"})] in [world]. *)
Definition host_applied : Process :=
  snd (nan_ApplySpoofing
         world [JsObject [("volumeSerial", JsString "DEADBEEF")]]
         (snd (nan_InitializeForProcess world [JsNumber 1] Process_start))).

(** The same add-on after a [restoreOriginalIdentifiers()] during which
    Detours refused to commit. *)
Definition host_restored_badly : Process :=
  snd (nan_RestoreOriginalIdentifiers world_commit_fails host_applied).

(** A generator for the random identifiers: a counter, each draw
    reduced into the requested range. *)
Definition draw (lo hi : Z) (g : Z) : Z * Z :=
  (lo + (g * 7 + 3) mod (hi - lo + 1), g + 1).

End Sample.

(* ================================================================== *)
(** ** [spoofer.cc]: module initialisation and dispatch by name *)

Inductive Method : Type :=
| MInitializeForProcess
| MApplySpoofing
| MGenerateRandomIdentifiers
| MGetSpoofingStatus
| MRestoreOriginalIdentifiers
| MCleanup
| MCanSafeMacSpoof
| MStubMethod.

(** [NAN_MODULE_INIT(InitModule)] under [_WIN32]: the seven exported
    names, in the order they are set on [target]. *)
Definition InitModule : list (string * Method) :=
  [ ("initializeForProcess", MInitializeForProcess);
    ("applySpoofing", MApplySpoofing);
    ("generateRandomIdentifiers", MGenerateRandomIdentifiers);
    ("getSpoofingStatus", MGetSpoofingStatus);
    ("restoreOriginalIdentifiers", MRestoreOriginalIdentifiers);
    ("cleanup", MCleanup);
    ("canSafeMacSpoof", MCanSafeMacSpoof) ].

(** The [#else] branch: the only export of a build for another
    platform. *)
Definition InitModule_stub : list (string * Method) :=
  [ ("initializeForProcess", MStubMethod) ].

Definition StubMethod (p : Process) : Completion * Process :=
  (Throw Error "Windows spoofing is only supported on Windows platforms", p).

Fixpoint export (exports : list (string * Method)) (name : string)
  : option Method :=
  match exports with
  | [] => None
  | (k, m) :: r => if String.eqb k name then Some m else export r name
  end.

Section Host.

Variable Rng : Type.
Variable dis : Z -> Z -> Rng -> Z * Rng.

(** One call of an exported method; the state of the add-on is the
    [Process] together with the entropy still to be drawn. *)
Definition run_method (w : World) (m : Method) (info : list JsValue)
           (st : Process * Rng) : Completion * (Process * Rng) :=
  let (p, g) := st in
  match m with
  | MInitializeForProcess =>
      let (r, p1) := nan_InitializeForProcess w info p in (r, (p1, g))
  | MApplySpoofing =>
      let (r, p1) := nan_ApplySpoofing w info p in (r, (p1, g))
  | MGenerateRandomIdentifiers =>
      let '(r, p1, g1) := nan_GenerateRandomIdentifiers Rng dis p g in
      (r, (p1, g1))
  | MGetSpoofingStatus =>
      let (r, p1) := nan_GetSpoofingStatus w p in (r, (p1, g))
  | MRestoreOriginalIdentifiers =>
      let (r, p1) := nan_RestoreOriginalIdentifiers w p in (r, (p1, g))
  | MCleanup =>
      let (r, p1) := nan_Cleanup w p in (r, (p1, g))
  | MCanSafeMacSpoof =>
      let (r, p1) := nan_CanSafeMacSpoof p in (r, (p1, g))
  | MStubMethod =>
      let (r, p1) := StubMethod p in (r, (p1, g))
  end.

(** A property of the module object is called by name; a name that is
    not exported reaches no native code. *)
Definition call (exports : list (string * Method)) (w : World)
           (name : string) (info : list JsValue) (st : Process * Rng)
  : option (Completion * (Process * Rng)) :=
  match export exports name with
  | Some m => Some (run_method w m info st)
  | None => None
  end.

(** A script: calls by name, each with the environment it runs in. *)
Fixpoint script (exports : list (string * Method))
         (calls : list (World * string * list JsValue)) (st : Process * Rng)
  : Process * Rng :=
  match calls with
  | [] => st
  | (w, name, info) :: r =>
      match call exports w name info st with
      | Some (_, st1) => script exports r st1
      | None => script exports r st
      end
  end.

End Host.

(* ================================================================== *)
(** ** What holds of the add-on between any two calls *)

(** Every byte of an address buffer is a byte. *)
Definition valid_bytes (l : list BYTE) : bool :=
  forallb (fun b => (0 <=? b) && (b <=? 255)) l.

(** The relation between a record before and after the adapter hook. *)
Definition same_shape (a a' : IP_ADAPTER_INFO) : Prop :=
  AddressLength a' = AddressLength a
  /\ List.length (Address a') = List.length (Address a)
  /\ (forall k, (6 <= k)%nat \/ AddressLength a <= Z.of_nat k ->
                nth k (Address a') 0 = nth k (Address a) 0)
  /\ (valid_bytes (Address a) = true -> valid_bytes (Address a') = true).

(** The hooks know nothing of the adapter enumeration: its entry point
    has not been resolved and it is not redirected. *)
Definition no_adapter_entry (h : HookState) : Prop :=
  g_originalGetAdaptersInfo h = None
  /\ is_attached AdaptersInfo (attached h) = false.

(** The hooks are in place for the controller at address [this]. *)
Definition hooks_bound (this : ObjId) (h : HookState) : Prop :=
  g_spooferInstance h = Some this
  /\ is_attached VolumeInformation (attached h) = true
  /\ g_originalGetVolumeInformationA h <> None.

(** A controller at address [this] and the file-scope state of the hooks
    fit together: an uninitialized controller has no active spoof; an
    active spoof has its hooks marked installed; hooks marked installed
    mean that the volume redirection is attached, that its original
    pointer is known and that [g_spooferInstance] is this controller; the
    target process id and the one stamped on the spoof set are 32-bit
    values. *)
Definition coherent (this : ObjId) (s : WindowsSpoofer) (h : HookState) : Prop :=
  (m_initialized s = false -> active (m_currentSpoofed s) = false)
  /\ (active (m_currentSpoofed s) = true -> m_hooksInstalled s = true)
  /\ (m_hooksInstalled s = true -> hooks_bound this h)
  /\ 0 <= m_targetProcessId s <= ULONG_MAX
  /\ 0 <= processId (m_currentSpoofed s) <= ULONG_MAX.

Definition coherent_process (p : Process) : Prop :=
  match g_spoofer p with
  | Some (this, s) => coherent this s (hooks p)
  | None => True
  end.

(* ================================================================== *)
(** ** Further sample inputs *)

Module Scenario.

(** The environment of [Sample.world] with other identity values: another
    adapter address and another volume serial. *)
Definition world_other_machine : World :=
  mkWorld (GetModuleHandleA Sample.world) (GetProcAddress Sample.world)
          (DetourTransactionCommit Sample.world)
          (OpenProcess Sample.world) (GetExitCodeProcess Sample.world)
          (mkProbe ERROR_SUCCESS 640
                   (mkAdapter 6 [222; 173; 190; 239; 0; 1; 0; 0]))
          (Some 305419896).

(** A real adapter enumeration that fails. *)
Definition failing_adapters : GetAdaptersInfoFunc :=
  fun c => (111, c).

(** A script over the exported names. *)
Definition session : list (World * string * list JsValue) :=
  [ (Sample.world, "generateRandomIdentifiers", []);
    (Sample.world, "initializeForProcess", [JsNumber 1]);
    (Sample.world, "applySpoofing",
     [JsObject [("volumeSerial", JsString "DEADBEEF");
                ("macAddress", JsString "AABBCCDDEEFF")]]);
    (Sample.world_commit_fails, "restoreOriginalIdentifiers", []);
    (Sample.world, "initializeForProcess", [JsNumber 2]);
    (Sample.world, "applySpoofing", [JsObject []]) ].

(** An argument of [applySpoofing] with a NUL inside one of its strings:
    [{ volumeSerial: "12\0ZZ", gpuId: "GPU-0" }]. *)
Definition cut_short : list (string * JsValue) :=
  [ ("volumeSerial",
     JsString (String "1" (String "2" (String Ascii.zero "ZZ"))));
    ("gpuId", JsString "GPU-0") ].

End Scenario.

(* ================================================================== *)
(** * Properties *)

(** ** Conversions and formatting *)

Example stoul_deadbeef : Cxx.stoul "DEADBEEF" 16 = Cxx.Converted 3735928559.
Proof. reflexivity. Qed.

Example stoul_no_digit : Cxx.stoul "ZZZZ" 16 = Cxx.invalid_argument.
Proof. reflexivity. Qed.

Example stoul_nine_digits : Cxx.stoul "123456789" 16 = Cxx.out_of_range.
Proof. reflexivity. Qed.

Example stoul_stops_at_first_non_digit : Cxx.stoul "12ZZ" 16 = Cxx.Converted 18.
Proof. reflexivity. Qed.

Example stoul_colon : Cxx.stoul ":B" 16 = Cxx.invalid_argument.
Proof. reflexivity. Qed.

Example stoul_minus_one : Cxx.stoul "-1" 16 = Cxx.Converted 4294967295.
Proof. reflexivity. Qed.

Example put_hex_upper : Cxx.put_hex true 3735928559 = "DEADBEEF".
Proof. reflexivity. Qed.

Example setw_pads : Cxx.setw 2 "0"%char (Cxx.put_hex false 10) = "0a".
Proof. reflexivity. Qed.

(** Boolean tests in the hypotheses, turned into propositions. *)
Ltac reflect_tests :=
  repeat match goal with
         | H : _ && _ = true |- _ => apply andb_true_iff in H; destruct H
         | H : _ || _ = false |- _ => apply orb_false_iff in H; destruct H
         | H : negb _ = true |- _ => apply negb_true_iff in H
         | H : negb _ = false |- _ => apply negb_false_iff in H
         | H : (_ <=? _) = true |- _ => apply Z.leb_le in H
         | H : (_ <=? _) = false |- _ => apply Z.leb_gt in H
         | H : (_ <? _) = true |- _ => apply Z.ltb_lt in H
         | H : (_ <? _) = false |- _ => apply Z.ltb_ge in H
         | H : (_ =? _) = true |- _ => apply Z.eqb_eq in H
         | H : (_ =? _) = false |- _ => apply Z.eqb_neq in H
         end.

Lemma digit_value_nonneg (c : ascii) (d : Z) :
  Cxx.digit_value c = Some d -> 0 <= d.
Proof.
  unfold Cxx.digit_value. cbv zeta.
  destruct ((48 <=? _) && _) eqn:E1; [intros [= <-]; reflect_tests; lia|].
  destruct ((97 <=? _) && _) eqn:E2; [intros [= <-]; reflect_tests; lia|].
  destruct ((65 <=? _) && _) eqn:E3; [intros [= <-]; reflect_tests; lia|].
  discriminate.
Qed.

Lemma digit_in_bounds (base : Z) (c : ascii) (d : Z) :
  Cxx.digit_in base c = Some d -> 0 <= d < base.
Proof.
  unfold Cxx.digit_in.
  destruct (Cxx.digit_value c) as [d'|] eqn:E; [|discriminate].
  destruct (d' <? base) eqn:L; [|discriminate].
  intros [= <-]. apply digit_value_nonneg in E. lia.
Qed.

Lemma read_digits_nonneg (base : Z) (s : string) :
  forall acc n, 0 <= base -> 0 <= acc ->
                0 <= fst (Cxx.read_digits base s acc n).
Proof.
  induction s as [|c r IH]; intros acc n Hb Ha; simpl; [exact Ha|].
  destruct (Cxx.digit_in base c) as [d|] eqn:E; simpl; [|exact Ha].
  apply IH; [exact Hb|]. apply digit_in_bounds in E. nia.
Qed.

(** A converted value always fits [unsigned long]. *)
Lemma stoul_range (s : string) (base v : Z) :
  0 <= base -> Cxx.stoul s base = Cxx.Converted v -> 0 <= v <= ULONG_MAX.
Proof.
  intros Hb. unfold Cxx.stoul.
  destruct (Cxx.read_sign (Cxx.skip_space s)) as [neg body].
  pose proof (read_digits_nonneg base (Cxx.skip_hex_prefix base body) 0 0
                                 Hb (Z.le_refl 0)) as Hnn.
  destruct (Cxx.read_digits base (Cxx.skip_hex_prefix base body) 0 0)
    as [x n]; simpl in Hnn.
  destruct n; [discriminate|].
  destruct (ULONG_MAX <? x) eqn:L; [discriminate|].
  apply Z.ltb_ge in L. intros [= <-].
  destruct neg; [|lia].
  unfold ULONG_MAX in *.
  pose proof (Z.mod_pos_bound (- x) (2 ^ 32) ltac:(lia)). lia.
Qed.

Lemma to_DWORD_stoul (s : string) (v : Z) :
  Cxx.stoul s 16 = Cxx.Converted v -> to_DWORD v = v.
Proof.
  intros H. apply stoul_range in H; [|lia].
  unfold to_DWORD, ULONG_MAX in *. apply Z.mod_small. lia.
Qed.

(** On a string of one to eight hex digits the conversion is the plain
    base-16 reading. *)
Lemma read_digits_all_hex (s : string) :
  forall acc n,
    all_hex_digits s = true ->
    Cxx.read_digits 16 s acc n = (base16_value s acc, (n + String.length s)%nat).
Proof.
  induction s as [|c r IH]; intros acc n H; simpl in *.
  - f_equal. lia.
  - destruct (Cxx.digit_in 16 c) as [d|]; [|discriminate].
    rewrite IH by exact H. f_equal. lia.
Qed.

Lemma base16_value_bound (s : string) :
  forall acc,
    all_hex_digits s = true -> 0 <= acc ->
    0 <= base16_value s acc < (acc + 1) * 16 ^ Z.of_nat (String.length s).
Proof.
  induction s as [|c r IH]; intros acc H Ha.
  - simpl. lia.
  - simpl in H. cbn [base16_value String.length].
    destruct (Cxx.digit_in 16 c) as [d|] eqn:E; [|discriminate].
    apply digit_in_bounds in E.
    specialize (IH (acc * 16 + d) H ltac:(nia)).
    rewrite Nat2Z.inj_succ, Z.pow_succ_r by lia.
    split; [lia|]. nia.
Qed.

Lemma digit_not_space (c : ascii) (d : Z) :
  Cxx.digit_in 16 c = Some d ->
  Cxx.isspace c = false /\ c <> "-"%char /\ c <> "+"%char
  /\ (Cxx.code c =? 120) || (Cxx.code c =? 88) = false.
Proof.
  unfold Cxx.digit_in, Cxx.digit_value, Cxx.isspace. cbv zeta.
  intros H.
  assert (Hc : 48 <= Cxx.code c <= 57 \/ 97 <= Cxx.code c <= 102
               \/ 65 <= Cxx.code c <= 70).
  { destruct ((48 <=? _) && _) eqn:E1; [reflect_tests; lia|].
    destruct ((97 <=? _) && _) eqn:E2.
    { destruct (Cxx.code c - 97 + 10 <? 16) eqn:L; [|discriminate].
      reflect_tests. lia. }
    destruct ((65 <=? _) && _) eqn:E3; [|discriminate].
    destruct (Cxx.code c - 65 + 10 <? 16) eqn:L; [|discriminate].
    reflect_tests. lia. }
  repeat split.
  - apply orb_false_iff. split; [apply Z.eqb_neq; lia|].
    apply andb_false_iff. right. apply Z.leb_gt. lia.
  - intros ->. change (Cxx.code "-"%char) with 45 in Hc. lia.
  - intros ->. change (Cxx.code "+"%char) with 43 in Hc. lia.
  - apply orb_false_iff. split; apply Z.eqb_neq; lia.
Qed.

Lemma stoul_valid_hex (s : string) :
  valid_hex s = true -> (String.length s <= 8)%nat ->
  Cxx.stoul s 16 = Cxx.Converted (base16_value s 0).
Proof.
  unfold valid_hex. intros H Hlen. reflect_tests.
  destruct s as [|c r]; [discriminate|].
  pose proof H0 as Hall. simpl in H0.
  destruct (Cxx.digit_in 16 c) as [d|] eqn:E; [|discriminate].
  destruct (digit_not_space c d E) as (Hsp & Hm & Hp & Hx).
  unfold Cxx.stoul. cbn [Cxx.skip_space]. rewrite Hsp.
  assert (Hsign : Cxx.read_sign (String c r) = (false, String c r)).
  { unfold Cxx.read_sign.
    destruct c as [[] [] [] [] [] [] [] []]; try reflexivity;
      congruence. }
  rewrite Hsign.
  assert (Hpre : Cxx.skip_hex_prefix 16 (String c r) = String c r).
  { unfold Cxx.skip_hex_prefix.
    destruct r as [|x r']; [destruct c as [[] [] [] [] [] [] [] []]; reflexivity|].
    simpl in H0. destruct (Cxx.digit_in 16 x) as [dx|] eqn:Ex; [|discriminate].
    destruct (digit_not_space x dx Ex) as (_ & _ & _ & Hxx).
    rewrite Hxx, andb_false_r.
    destruct c as [[] [] [] [] [] [] [] []]; reflexivity. }
  rewrite Hpre, read_digits_all_hex by exact Hall.
  cbn [String.length Nat.add].
  pose proof (base16_value_bound (String c r) 0 Hall ltac:(lia)) as Hb.
  assert (16 ^ Z.of_nat (String.length (String c r)) <= 16 ^ 8)
    by (apply Z.pow_le_mono_r; lia).
  replace (ULONG_MAX <? base16_value (String c r) 0) with false.
  - reflexivity.
  - symmetry. apply Z.ltb_ge. unfold ULONG_MAX.
    change (16 ^ 8) with (2 ^ 32) in H1. lia.
Qed.

(* ================================================================== *)
(** ** The volume-information hook *)

Lemma HookedGetVolumeInformationA_result
      (g_original : GetVolumeInformationAFunc)
      (instance : option WindowsSpoofer) (w : World) (c : VolumeCall) :
  fst (HookedGetVolumeInformationA g_original instance w c)
  = fst (g_original c).
Proof.
  unfold HookedGetVolumeInformationA.
  destruct (g_original c) as [result out].
  destruct instance as [sp|]; [|reflexivity].
  destruct (lpVolumeSerialNumber c); [|reflexivity].
  destruct (IsSpoofingActive w sp); [|reflexivity].
  destruct (negb _); [|reflexivity].
  destruct (Cxx.stoul _ _); reflexivity.
Qed.

(** C1, as stated, fails: the spoof string ["12ZZ"] is not valid hex, yet
    the hook does not leave the real serial [0xCAFEBABE] in place; it
    stores [0x12], the value of the digits in front of the first
    character that is not one. *)
Lemma volume_hook_accepts_hex_prefix :
  valid_hex "12ZZ" = false
  /\ IsSpoofingActive Sample.world
       (spoofer (Sample.applied 1 (Sample.with_volume "12ZZ"))) = true
  /\ lpVolumeSerialNumber (snd (Sample.real_volume Sample.volume_call))
     = Some 3405691582
  /\ lpVolumeSerialNumber
       (snd (HookedGetVolumeInformationA
               Sample.real_volume
               (Some (spoofer (Sample.applied 1 (Sample.with_volume "12ZZ"))))
               Sample.world Sample.volume_call))
     = Some 18.
Proof. repeat split; vm_compute; reflexivity. Qed.

(** C1, amended.  For every intercepted volume-information query the hook
    calls the real query first and returns its result code unchanged.
    Afterwards, if the spoofer instance exists, spoofing is active, the
    caller passed a serial out-parameter and the spoof set's volumeSerial
    is non-empty, then: when [std::stoul(volumeSerial, nullptr, 16)]
    converts (it reads the hex digits at the front of the string, after
    optional white space, sign and [0x], and ignores what follows them)
    the serial out-parameter is overwritten with the converted 32-bit
    value and nothing else changes; when it throws (no hex digit at the
    front, as for ["ZZZZ"], or a value beyond 32 bits) every out-parameter
    keeps what the real query stored.  In all other situations the real
    results are passed on untouched.  The hook never raises an error.  A
    string of one to eight hex digits always converts, to the number it
    denotes in base 16. *)
Theorem HookedGetVolumeInformationA_serial :
  forall (g_original : GetVolumeInformationAFunc)
         (instance : option WindowsSpoofer) (w : World) (c : VolumeCall),
    fst (HookedGetVolumeInformationA g_original instance w c)
    = fst (g_original c)
    /\ (forall sp p,
           instance = Some sp ->
           lpVolumeSerialNumber c = Some p ->
           IsSpoofingActive w sp = true ->
           Cxx.empty (volumeSerial (m_currentSpoofed sp)) = false ->
           match Cxx.stoul (volumeSerial (m_currentSpoofed sp)) 16 with
           | Cxx.Converted v =>
               0 <= v <= ULONG_MAX
               /\ snd (HookedGetVolumeInformationA g_original instance w c)
                  = store_VolumeSerialNumber v (snd (g_original c))
           | _ =>
               snd (HookedGetVolumeInformationA g_original instance w c)
               = snd (g_original c)
           end)
    /\ ((instance = None
         \/ lpVolumeSerialNumber c = None
         \/ exists sp, instance = Some sp
                       /\ (IsSpoofingActive w sp = false
                           \/ volumeSerial (m_currentSpoofed sp) = EmptyString)) ->
        HookedGetVolumeInformationA g_original instance w c = g_original c)
    /\ Cxx.stoul "ZZZZ" 16 = Cxx.invalid_argument
    /\ (forall s,
           valid_hex s = true -> (String.length s <= 8)%nat ->
           Cxx.stoul s 16 = Cxx.Converted (base16_value s 0)).
Proof.
  intros g_original instance w c.
  split; [apply HookedGetVolumeInformationA_result|].
  split; [|split; [|split; [reflexivity|exact stoul_valid_hex]]].
  - intros sp p -> Hp Hact Hne.
    unfold HookedGetVolumeInformationA, GetCurrentSpoofedValues.
    destruct (g_original c) as [result out].
    rewrite Hp, Hact, Hne. simpl negb. cbv iota.
    destruct (Cxx.stoul _ 16) as [v| |] eqn:E; try reflexivity.
    split; [apply (stoul_range _ 16 v ltac:(lia) E)|].
    simpl. now rewrite (to_DWORD_stoul _ _ E).
  - unfold HookedGetVolumeInformationA, GetCurrentSpoofedValues.
    destruct (g_original c) as [result out].
    intros [-> | [-> | (sp & -> & [Hoff | Hempty])]].
    + reflexivity.
    + destruct instance; reflexivity.
    + destruct (lpVolumeSerialNumber c); [|reflexivity].
      now rewrite Hoff.
    + destruct (lpVolumeSerialNumber c); [|reflexivity].
      rewrite Hempty. destruct (IsSpoofingActive w sp); reflexivity.
Qed.

(** The theorem at work: ["DEADBEEF"] replaces the real serial, ["ZZZZ"]
    leaves it alone. *)
Lemma HookedGetVolumeInformationA_serial_witness :
  lpVolumeSerialNumber
    (snd (HookedGetVolumeInformationA
            Sample.real_volume
            (Some (spoofer (Sample.applied 1 (Sample.with_volume "DEADBEEF"))))
            Sample.world Sample.volume_call))
  = Some 3735928559
  /\ snd (HookedGetVolumeInformationA
            Sample.real_volume
            (Some (spoofer (Sample.applied 1 (Sample.with_volume "ZZZZ"))))
            Sample.world Sample.volume_call)
     = snd (Sample.real_volume Sample.volume_call).
Proof.
  split.
  - pose proof (HookedGetVolumeInformationA_serial
                  Sample.real_volume
                  (Some (spoofer (Sample.applied 1 (Sample.with_volume "DEADBEEF"))))
                  Sample.world Sample.volume_call) as (_ & H & _).
    specialize (H _ 0 eq_refl eq_refl eq_refl eq_refl).
    change (Cxx.stoul _ 16) with (Cxx.Converted 3735928559) in H.
    destruct H as [_ ->]. reflexivity.
  - pose proof (HookedGetVolumeInformationA_serial
                  Sample.real_volume
                  (Some (spoofer (Sample.applied 1 (Sample.with_volume "ZZZZ"))))
                  Sample.world Sample.volume_call) as (_ & H & _).
    specialize (H _ 0 eq_refl eq_refl eq_refl eq_refl).
    exact H.
Defined.

(* ================================================================== *)
(** ** The adapter-enumeration hook *)

Lemma HookedGetAdaptersInfo_result
      (g_original : GetAdaptersInfoFunc)
      (instance : option WindowsSpoofer) (w : World) (c : AdaptersCall) :
  fst (HookedGetAdaptersInfo g_original instance w c) = fst (g_original c).
Proof.
  unfold HookedGetAdaptersInfo.
  destruct (g_original c) as [result out].
  destruct instance as [sp|]; [|reflexivity].
  destruct (AdapterInfo c); [|reflexivity].
  destruct (AdapterInfo out); [|reflexivity].
  destruct (_ && _); [|reflexivity].
  destruct (negb _); reflexivity.
Qed.

Lemma store_byte_length (i : nat) (b : BYTE) (l : list BYTE) :
  List.length (store_byte i b l) = List.length l.
Proof.
  revert i; induction l as [|x r IH]; intros [|k]; simpl; auto.
Qed.

Lemma nth_store_byte (l : list BYTE) :
  forall i k b,
    (i < List.length l)%nat ->
    nth k (store_byte i b l) 0 = if Nat.eqb k i then b else nth k l 0.
Proof.
  induction l as [|x r IH]; intros i k b Hi; simpl in Hi; [lia|].
  destruct i as [|i], k as [|k]; simpl; try reflexivity.
  apply IH. lia.
Qed.

Lemma spoof_address_AddressLength (mac : string) :
  forall n i a, AddressLength (spoof_address n i mac a) = AddressLength a.
Proof.
  induction n as [|n IH]; intros i a; simpl; [reflexivity|].
  destruct (_ && _); [|reflexivity].
  destruct (Cxx.stoul _ 16); try reflexivity.
  now rewrite IH.
Qed.

Lemma spoof_address_buffer (mac : string) :
  forall n i a,
    List.length (Address (spoof_address n i mac a)) = List.length (Address a).
Proof.
  induction n as [|n IH]; intros i a; simpl; [reflexivity|].
  destruct (_ && _); [|reflexivity].
  destruct (Cxx.stoul _ 16); try reflexivity.
  rewrite IH. apply store_byte_length.
Qed.

(** The loop entered at index [i] writes byte [k >= i] exactly when [k]
    is within the bounds and the bytes [i..k] all decode. *)
Lemma spoof_address_nth (mac : string) :
  forall n i a k,
    (n + i = 6)%nat ->
    List.length (Address a) = 8%nat ->
    nth k (Address (spoof_address n i mac a)) 0
    = if (i <=? k)%nat
         && (Z.of_nat k <? Z.min 6 (AddressLength a))
         && forallb (decodes mac) (seq i (S k - i))
      then decoded mac k
      else nth k (Address a) 0.
Proof.
  induction n as [|n IH]; intros i a k Hn Hlen.
  - simpl. assert (i = 6%nat) as -> by lia.
    destruct (6 <=? k)%nat eqn:E; [|reflexivity].
    apply Nat.leb_le in E.
    replace (Z.of_nat k <? Z.min 6 (AddressLength a)) with false
      by (symmetry; apply Z.ltb_ge; lia).
    reflexivity.
  - simpl spoof_address.
    destruct ((Z.of_nat i <? 6) && (Z.of_nat i <? AddressLength a)) eqn:T.
    + reflect_tests.
      assert (Hsub : Cxx.substr mac (i * 2) 2 = Cxx.substr mac (2 * i) 2)
        by (f_equal; lia).
      destruct (Cxx.stoul (Cxx.substr mac (i * 2) 2) 16) as [v| |] eqn:E.
      * rewrite IH; [|lia|simpl; now rewrite store_byte_length].
        simpl AddressLength. simpl Address.
        rewrite nth_store_byte by lia.
        assert (Hi : decodes mac i = true)
          by (unfold decodes, decode_byte; now rewrite <- Hsub, E).
        assert (Hv : decoded mac i = to_BYTE v)
          by (unfold decoded, decode_byte; now rewrite <- Hsub, E).
        destruct (Nat.eqb k i) eqn:K.
        -- apply Nat.eqb_eq in K. subst k.
           replace (S i <=? i)%nat with false
             by (symmetry; apply Nat.leb_gt; lia).
           rewrite Nat.leb_refl.
           replace (Z.of_nat i <? Z.min 6 (AddressLength a)) with true
             by (symmetry; apply Z.ltb_lt; lia).
           replace (S i - i)%nat with 1%nat by lia.
           simpl. rewrite Hi. simpl. now rewrite Hv.
        -- apply Nat.eqb_neq in K.
           destruct (S i <=? k)%nat eqn:L.
           ++ apply Nat.leb_le in L.
              replace (i <=? k)%nat with true
                by (symmetry; apply Nat.leb_le; lia).
              replace (S k - i)%nat with (S (S k - S i)) by lia.
              simpl forallb. rewrite Hi. reflexivity.
           ++ apply Nat.leb_gt in L.
              replace (i <=? k)%nat with false
                by (symmetry; apply Nat.leb_gt; lia).
              reflexivity.
      * destruct (i <=? k)%nat eqn:L; [|reflexivity].
        apply Nat.leb_le in L.
        replace (S k - i)%nat with (S (k - i)) by lia.
        simpl forallb.
        unfold decodes at 1, decode_byte. rewrite <- Hsub, E.
        now rewrite andb_false_r.
      * destruct (i <=? k)%nat eqn:L; [|reflexivity].
        apply Nat.leb_le in L.
        replace (S k - i)%nat with (S (k - i)) by lia.
        simpl forallb.
        unfold decodes at 1, decode_byte. rewrite <- Hsub, E.
        now rewrite andb_false_r.
    + assert (AddressLength a <= Z.of_nat i).
      { apply andb_false_iff in T. destruct T as [T|T]; reflect_tests; lia. }
      destruct (i <=? k)%nat eqn:L; [|reflexivity].
      apply Nat.leb_le in L.
      replace (Z.of_nat k <? Z.min 6 (AddressLength a)) with false
        by (symmetry; apply Z.ltb_ge; lia).
      reflexivity.
Qed.

Lemma spoof_address_expected (mac : string) (a : IP_ADAPTER_INFO) (k : nat) :
  List.length (Address a) = 8%nat ->
  nth k (Address (spoof_address 6 0 mac a)) 0 = expected_byte mac a k.
Proof.
  intros Hlen. rewrite spoof_address_nth by (auto; lia).
  unfold expected_byte. simpl Nat.leb. now rewrite Nat.sub_0_r.
Qed.

Lemma spoof_adapters_long (mac : string) (chain : list IP_ADAPTER_INFO) :
  12 <= Cxx.length mac ->
  spoof_adapters mac chain = map (spoof_address 6 0 mac) chain.
Proof.
  intros H. apply Z.leb_le in H.
  induction chain as [|a r IH]; simpl; [reflexivity|].
  now rewrite H, IH.
Qed.

Lemma spoof_adapters_short (mac : string) (chain : list IP_ADAPTER_INFO) :
  Cxx.length mac < 12 -> spoof_adapters mac chain = chain.
Proof.
  intros H. apply Z.leb_gt in H.
  induction chain as [|a r IH]; simpl; [reflexivity|].
  now rewrite H, IH.
Qed.

(** C2, as stated, fails: with the non-empty spoof string ["AABB"] the
    real query succeeded, spoofing is active and byte 0 decodes to [0xAA],
    yet the hook overwrites nothing: the first record (address length 6)
    still starts with its real byte [0x00]. *)
Lemma adapter_hook_ignores_short_string :
  Cxx.empty "AABB" = false
  /\ IsSpoofingActive Sample.world
       (spoofer (Sample.applied 1 (Sample.with_mac "AABB"))) = true
  /\ fst (Sample.real_adapters Sample.adapters_call) = NO_ERROR
  /\ decode_byte "AABB" 0 = Cxx.Converted 170
  /\ AdapterInfo (snd (Sample.real_adapters Sample.adapters_call))
     = Some [mkAdapter 6 [0; 26; 43; 60; 77; 94; 0; 0];
             mkAdapter 4 [1; 2; 3; 4; 5; 6; 7; 8]]
  /\ AdapterInfo
       (snd (HookedGetAdaptersInfo
               Sample.real_adapters
               (Some (spoofer (Sample.applied 1 (Sample.with_mac "AABB"))))
               Sample.world Sample.adapters_call))
     = Some [mkAdapter 6 [0; 26; 43; 60; 77; 94; 0; 0];
             mkAdapter 4 [1; 2; 3; 4; 5; 6; 7; 8]].
Proof. repeat split; vm_compute; reflexivity. Qed.

(** C2, amended.  For every intercepted adapter-enumeration query the
    hook calls the real query first and returns its result code.  If that
    call succeeded, spoofing is active and the spoof set's macAddress is
    non-empty, then: when the string has fewer than 12 characters nothing
    is overwritten; when it has at least 12, every record of the returned
    chain is processed, keeps its address length, and byte [i] of its
    address buffer is overwritten with the value decoded from characters
    [2i] and [2i+1] exactly when [i < min(6, AddressLength)] and all of
    bytes [0..i] decode; from the first byte that fails to decode on, the
    record keeps its real bytes, and the walk goes on with the next
    record.  In particular, with macAddress ["AABBCCDDEEFF"] the first
    [min(6, AddressLength)] bytes of every returned adapter are
    [AA BB CC DD EE FF]. *)
Theorem HookedGetAdaptersInfo_records
        (g_original : GetAdaptersInfoFunc) (sp : WindowsSpoofer) (w : World)
        (c : AdaptersCall) (buffer chain : list IP_ADAPTER_INFO) (size : Z)
        (Hbuffer : AdapterInfo c = Some buffer)
        (Hreal : g_original c = (NO_ERROR, mkAdaptersCall (Some chain) size))
        (Hactive : IsSpoofingActive w sp = true)
        (Hmac : Cxx.empty (macAddress (m_currentSpoofed sp)) = false) :
  fst (HookedGetAdaptersInfo g_original (Some sp) w c) = NO_ERROR
  /\ (Cxx.length (macAddress (m_currentSpoofed sp)) < 12 ->
      snd (HookedGetAdaptersInfo g_original (Some sp) w c)
      = mkAdaptersCall (Some chain) size)
  /\ (12 <= Cxx.length (macAddress (m_currentSpoofed sp)) ->
      snd (HookedGetAdaptersInfo g_original (Some sp) w c)
      = mkAdaptersCall
          (Some (map (spoof_address 6 0 (macAddress (m_currentSpoofed sp)))
                     chain))
          size
      /\ forall a,
          In a chain ->
          AddressLength
            (spoof_address 6 0 (macAddress (m_currentSpoofed sp)) a)
          = AddressLength a
          /\ (List.length (Address a) = 8%nat ->
              forall i,
                nth i (Address (spoof_address
                                  6 0 (macAddress (m_currentSpoofed sp)) a)) 0
                = expected_byte (macAddress (m_currentSpoofed sp)) a i))
  /\ (macAddress (m_currentSpoofed sp) = "AABBCCDDEEFF" ->
      forall a i,
        In a chain ->
        List.length (Address a) = 8%nat ->
        (i < 6)%nat -> Z.of_nat i < AddressLength a ->
        nth i (Address (spoof_address 6 0 "AABBCCDDEEFF" a)) 0
        = nth i [170; 187; 204; 221; 238; 255] 0).
Proof.
  assert (Hhook : HookedGetAdaptersInfo g_original (Some sp) w c
                  = (NO_ERROR,
                     mkAdaptersCall
                       (Some (spoof_adapters (macAddress (m_currentSpoofed sp))
                                             chain)) size)).
  { unfold HookedGetAdaptersInfo, GetCurrentSpoofedValues.
    rewrite Hreal, Hbuffer. simpl AdapterInfo. cbv iota.
    rewrite Hactive, Hmac. reflexivity. }
  rewrite Hhook. simpl fst. simpl snd.
  split; [reflexivity|]. split; [|split].
  - intros Hshort. now rewrite spoof_adapters_short.
  - intros Hlong. rewrite spoof_adapters_long by exact Hlong.
    split; [reflexivity|].
    intros a _. split; [apply spoof_address_AddressLength|].
    intros Hlen i. now apply spoof_address_expected.
  - intros _ a i _ Hlen Hi HiL.
    rewrite spoof_address_expected by exact Hlen.
    unfold expected_byte.
    replace (Z.of_nat i <? Z.min 6 (AddressLength a)) with true
      by (symmetry; apply Z.ltb_lt; lia).
    do 6 (destruct i as [|i]; [reflexivity|]). lia.
Qed.

(** The theorem at work on two adapters, one of them reporting an address
    of four bytes only. *)
Lemma HookedGetAdaptersInfo_records_witness :
  snd (HookedGetAdaptersInfo
         Sample.real_adapters
         (Some (spoofer (Sample.applied 1 (Sample.with_mac "AABBCCDDEEFF"))))
         Sample.world Sample.adapters_call)
  = mkAdaptersCall
      (Some [mkAdapter 6 [170; 187; 204; 221; 238; 255; 0; 0];
             mkAdapter 4 [170; 187; 204; 221; 5; 6; 7; 8]])
      1280.
Proof.
  pose proof (HookedGetAdaptersInfo_records
                Sample.real_adapters
                (spoofer (Sample.applied 1 (Sample.with_mac "AABBCCDDEEFF")))
                Sample.world Sample.adapters_call []
                [Sample.adapter; Sample.short_adapter] 1280
                eq_refl eq_refl eq_refl eq_refl) as (_ & _ & H & _).
  destruct (H ltac:(vm_compute; discriminate)) as [-> _].
  reflexivity.
Defined.

(* ================================================================== *)
(** ** The controller: what each operation leaves behind *)

(** Installing or removing hooks touches no field of the controller
    other than [m_hooksInstalled]. *)
Lemma InstallHooks_fields (w : World) (this : ObjId) (s s' : WindowsSpoofer)
      (h h' : HookState) (r : bool) :
  InstallHooks w this s h = (r, s', h') ->
  m_currentSpoofed s' = m_currentSpoofed s
  /\ m_originalValues s' = m_originalValues s
  /\ m_initialized s' = m_initialized s
  /\ m_targetProcessId s' = m_targetProcessId s
  /\ (r = true -> m_hooksInstalled s' = true)
  /\ (r = false -> m_hooksInstalled s' = false).
Proof.
  unfold InstallHooks.
  destruct (m_hooksInstalled s) eqn:Hi.
  { intros [= <- <- <-]. repeat split; auto; discriminate. }
  destruct (GetModuleHandleA w "kernel32.dll") as [k|].
  2:{ intros [= <- <- <-]. repeat split; auto; discriminate. }
  destruct (g_originalGetVolumeInformationA _) as [f|].
  2:{ intros [= <- <- <-]. repeat split; auto; discriminate. }
  destruct (detour_transaction w _ _) as [result h4].
  destruct (result =? NO_ERROR);
    intros [= <- <- <-]; repeat split; auto; discriminate.
Qed.

Lemma RemoveHooks_fields (w : World) (s s' : WindowsSpoofer)
      (h h' : HookState) (r : bool) :
  RemoveHooks w s h = (r, s', h') ->
  m_currentSpoofed s' = m_currentSpoofed s
  /\ m_originalValues s' = m_originalValues s
  /\ m_initialized s' = m_initialized s
  /\ m_targetProcessId s' = m_targetProcessId s.
Proof.
  unfold RemoveHooks.
  destruct (negb (m_hooksInstalled s)).
  { intros [= <- <- <-]. repeat split; auto. }
  destruct (detour_transaction w _ _) as [result h1].
  destruct (result =? NO_ERROR); intros [= <- <- <-]; repeat split; auto.
Qed.

(** The placeholders all succeed, so once the hooks are in the combined
    flag is [true]. *)
Lemma ApplySpoofing_cases (w : World) (this : ObjId)
      (identifiers : SpoofedIdentifiers) (s s' : WindowsSpoofer)
      (h h' : HookState) (r : bool) :
  ApplySpoofing w this identifiers s h = (r, s', h') ->
  (m_initialized s = false /\ r = false /\ s' = s /\ h' = h)
  \/ (m_initialized s = true
      /\ m_initialized s' = true
      /\ m_targetProcessId s' = m_targetProcessId s
      /\ m_originalValues s' = m_originalValues s
      /\ m_currentSpoofed s'
         = set_active r (set_processId (m_targetProcessId s) identifiers)
      /\ m_hooksInstalled s' = r).
Proof.
  unfold ApplySpoofing.
  destruct (m_initialized s) eqn:Hi; simpl negb; cbv iota.
  2:{ intros [= <- <- <-]. left. auto. }
  destruct (InstallHooks w this _ h) as [[installed s4] h1] eqn:E.
  apply InstallHooks_fields in E.
  destruct E as (Hc & Ho & Hin & Ht & Hy & Hn). simpl in Hc, Ho, Hin, Ht.
  destruct installed; simpl negb; cbv iota.
  - unfold CanSafeMacSpoof, ApplyMacSpoofing, SpoofVolumeSerial,
      SpoofDiskSerial, SpoofGpuId, SpoofWmiData.
    repeat match goal with
           | |- context [if ?b then _ else _] => destruct b
           end;
      simpl; intros [= <- <- <-]; right;
        rewrite Hc, Ho, Hin, Ht, Hi; repeat split; auto.
  - intros [= <- <- <-]. right. simpl.
    rewrite Hc, Ho, Hin, Ht, Hi. repeat split; auto.
Qed.

(* ================================================================== *)
(** ** Liveness of the target process *)

(** C3.  [IsSpoofingActive] returns true if and only if the controller is
    initialized, the active flag of the current spoof set is true and the
    target process is alive according to the liveness query made at the
    moment of the call.  Consequently, after a successful ApplySpoofing
    the same, unchanged controller reads active while the target process
    runs and inactive once it has terminated, no restore call being
    involved. *)
Theorem IsSpoofingActive_iff :
  forall (w : World) (s : WindowsSpoofer),
    (IsSpoofingActive w s = true
     <-> m_initialized s = true
         /\ active (m_currentSpoofed s) = true
         /\ IsProcessAlive w (m_targetProcessId s) = true)
    /\ (forall (w0 : World) (this : ObjId) (identifiers : SpoofedIdentifiers)
               (s0 : WindowsSpoofer) (h0 h : HookState) (w_after : World),
           ApplySpoofing w0 this identifiers s0 h0 = (true, s, h) ->
           IsProcessAlive w (m_targetProcessId s) = true ->
           IsProcessAlive w_after (m_targetProcessId s) = false ->
           IsSpoofingActive w s = true
           /\ IsSpoofingActive w_after s = false).
Proof.
  intros w s. split.
  - unfold IsSpoofingActive. rewrite !andb_true_iff. tauto.
  - intros w0 this identifiers s0 h0 h w_after Happly Halive Hgone.
    apply ApplySpoofing_cases in Happly.
    destruct Happly as [(_ & Hr & _) | (_ & Hi & _ & _ & Hc & _)];
      [discriminate|].
    unfold IsSpoofingActive. rewrite Hi, Hc, Halive, Hgone.
    split; reflexivity.
Qed.

(** The theorem at work: process 1 runs, then is gone. *)
Lemma IsSpoofingActive_iff_witness :
  IsSpoofingActive Sample.world
    (spoofer (Sample.applied 1 (Sample.with_volume "DEADBEEF"))) = true
  /\ IsSpoofingActive Sample.world_process_gone
       (spoofer (Sample.applied 1 (Sample.with_volume "DEADBEEF"))) = false.
Proof.
  pose proof (IsSpoofingActive_iff
                Sample.world
                (spoofer (Sample.applied 1 (Sample.with_volume "DEADBEEF"))))
    as [_ H].
  apply (H Sample.world 7%nat (Sample.with_volume "DEADBEEF")
           (snd (InitializeForProcess Sample.world 1 WindowsSpoofer_new))
           HookState_init
           (hooked (Sample.applied 1 (Sample.with_volume "DEADBEEF")))
           Sample.world_process_gone);
    reflexivity.
Defined.

(* ================================================================== *)
(** ** Operations called before initialize *)

(** C4, as stated, fails twice.  At the host binding, before any
    initialize no controller object exists and both applySpoofing and
    restoreOriginalIdentifiers end by throwing a JavaScript error rather
    than by returning a boolean; and on a controller that exists but was
    never initialized, RestoreOriginalValues reports success, not
    failure. *)
Lemma sequence_error_throws_or_succeeds :
  fst (nan_ApplySpoofing Sample.world [JsObject []] Process_start)
  = Throw Error "Spoofer not initialized"
  /\ fst (nan_RestoreOriginalIdentifiers Sample.world Process_start)
     = Throw Error "Spoofer not initialized"
  /\ m_initialized WindowsSpoofer_new = false
  /\ RestoreOriginalValues Sample.world WindowsSpoofer_new HookState_init
     = (true, WindowsSpoofer_new, HookState_init).
Proof. repeat split. Qed.

(** C4, amended.  For every identifier set, ApplySpoofing on a controller
    that has not been initialized returns false with no state change;
    RestoreOriginalValues on such a controller returns true, a successful
    no-op, also with no state change.  At the host binding, as long as no
    controller object exists (it is created by initializeForProcess or
    generateRandomIdentifiers and destroyed by cleanup), applySpoofing and
    restoreOriginalIdentifiers throw the error "Spoofer not initialized"
    and change nothing; once an object exists but is uninitialized they
    return the booleans false and true respectively. *)
Theorem operations_before_initialize :
  forall (w : World),
    (forall this identifiers s h,
        m_initialized s = false ->
        ApplySpoofing w this identifiers s h = (false, s, h)
        /\ RestoreOriginalValues w s h = (true, s, h))
    /\ (forall info p,
           g_spoofer p = None ->
           nan_ApplySpoofing w info p
           = (Throw Error "Spoofer not initialized", p)
           /\ nan_RestoreOriginalIdentifiers w p
              = (Throw Error "Spoofer not initialized", p))
    /\ (forall props rest p this s,
           g_spoofer p = Some (this, s) ->
           m_initialized s = false ->
           nan_ApplySpoofing w (JsObject props :: rest) p
           = (Return (JsBoolean false), p)
           /\ nan_RestoreOriginalIdentifiers w p
              = (Return (JsBoolean true), p)).
Proof.
  intros w. split; [|split].
  - intros this identifiers s h Hi.
    unfold ApplySpoofing, RestoreOriginalValues. now rewrite Hi.
  - intros info p Hp.
    unfold nan_ApplySpoofing, nan_RestoreOriginalIdentifiers.
    now rewrite Hp.
  - intros props rest [g hk nx] this s Hp Hi. simpl in Hp. subst g.
    unfold nan_ApplySpoofing, nan_RestoreOriginalIdentifiers,
      ApplySpoofing, RestoreOriginalValues.
    simpl. now rewrite Hi.
Qed.

(** The theorem at work on a freshly constructed controller and on the
    add-on before and after generateRandomIdentifiers created one. *)
Lemma operations_before_initialize_witness :
  ApplySpoofing Sample.world 0%nat (Sample.with_volume "DEADBEEF")
                WindowsSpoofer_new HookState_init
  = (false, WindowsSpoofer_new, HookState_init)
  /\ nan_ApplySpoofing Sample.world [JsObject []] Process_start
     = (Throw Error "Spoofer not initialized", Process_start)
  /\ nan_ApplySpoofing Sample.world [JsObject []]
                       (snd (ensure_spoofer Process_start))
     = (Return (JsBoolean false), snd (ensure_spoofer Process_start)).
Proof.
  pose proof (operations_before_initialize Sample.world) as (H1 & H2 & H3).
  split; [|split].
  - apply (H1 0%nat (Sample.with_volume "DEADBEEF") WindowsSpoofer_new
              HookState_init eq_refl).
  - apply (H2 [JsObject []] Process_start eq_refl).
  - apply (H3 [] [] (snd (ensure_spoofer Process_start)) 0%nat
              WindowsSpoofer_new eq_refl eq_refl).
Defined.

(* ================================================================== *)
(** ** Restore and the result of hook removal *)

Lemma RemoveHooks_commit_fails (w : World) (s : WindowsSpoofer) (h : HookState) :
  m_hooksInstalled s = true ->
  DetourTransactionCommit w (detach_ops h) <> NO_ERROR ->
  exists h',
    RemoveHooks w s h = (false, s, h')
    /\ attached h' = attached h
    /\ g_spooferInstance h' = g_spooferInstance h
    /\ g_originalGetVolumeInformationA h' = g_originalGetVolumeInformationA h
    /\ g_originalGetAdaptersInfo h' = g_originalGetAdaptersInfo h.
Proof.
  intros Hh Hc. apply Z.eqb_neq in Hc.
  unfold RemoveHooks, detour_transaction. rewrite Hh, Hc. simpl negb.
  cbv iota. rewrite Hc.
  eexists. split; [reflexivity|]. repeat split.
Qed.

Lemma RemoveHooks_commit_succeeds (w : World) (s : WindowsSpoofer) (h : HookState) :
  m_hooksInstalled s = true ->
  DetourTransactionCommit w (detach_ops h) = NO_ERROR ->
  exists h',
    RemoveHooks w s h = (true, set_hooksInstalled false s, h')
    /\ attached h' = fold_left apply_op (detach_ops h) (attached h)
    /\ g_spooferInstance h' = None.
Proof.
  intros Hh Hc.
  unfold RemoveHooks, detour_transaction. rewrite Hh, Hc. simpl negb.
  cbv iota. simpl (NO_ERROR =? NO_ERROR). cbv iota.
  eexists. split; [reflexivity|]. split; reflexivity.
Qed.

(** C10.  RestoreOriginalValues, called on an initialized controller with
    an active spoof, discards the result of RemoveHooks: when the detach
    transaction fails to commit, RemoveHooks returns false, the
    redirections stay attached and the hooks stay marked installed, yet
    the spoof set is marked inactive and the operation returns true, so
    that the status reads inactive while the interceptions are still in
    place. *)
Theorem RestoreOriginalValues_ignores_RemoveHooks
        (w : World) (s : WindowsSpoofer) (h : HookState)
        (Hinit : m_initialized s = true)
        (Hactive : active (m_currentSpoofed s) = true)
        (Hhooks : m_hooksInstalled s = true)
        (Hcommit : DetourTransactionCommit w (detach_ops h) <> NO_ERROR) :
  fst (fst (RemoveHooks w s h)) = false
  /\ exists s' h',
      RestoreOriginalValues w s h = (true, s', h')
      /\ s' = set_currentSpoofed (set_active false (m_currentSpoofed s)) s
      /\ m_hooksInstalled s' = true
      /\ attached h' = attached h
      /\ g_spooferInstance h' = g_spooferInstance h
      /\ active (m_currentSpoofed s') = false
      /\ forall w', IsSpoofingActive w' s' = false.
Proof.
  destruct (RemoveHooks_commit_fails w s h Hhooks Hcommit)
    as (h' & Hrm & Hat & Hinst & _).
  split; [now rewrite Hrm|].
  exists (set_currentSpoofed (set_active false (m_currentSpoofed s)) s), h'.
  unfold RestoreOriginalValues. rewrite Hinit, Hactive, Hrm. simpl.
  repeat split; auto.
  intros w'. unfold IsSpoofingActive. simpl. now rewrite andb_false_r.
Qed.

(** The theorem at work: an active spoof for process 1 with both
    redirections attached, restored while Detours refuses to commit. *)
Lemma RestoreOriginalValues_ignores_RemoveHooks_witness :
  fst (fst (RestoreOriginalValues
              Sample.world_commit_fails
              (spoofer (Sample.applied 1 (Sample.with_volume "DEADBEEF")))
              (hooked (Sample.applied 1 (Sample.with_volume "DEADBEEF")))))
  = true
  /\ attached
       (snd (RestoreOriginalValues
               Sample.world_commit_fails
               (spoofer (Sample.applied 1 (Sample.with_volume "DEADBEEF")))
               (hooked (Sample.applied 1 (Sample.with_volume "DEADBEEF")))))
     = [VolumeInformation; AdaptersInfo].
Proof.
  destruct (RestoreOriginalValues_ignores_RemoveHooks
              Sample.world_commit_fails
              (spoofer (Sample.applied 1 (Sample.with_volume "DEADBEEF")))
              (hooked (Sample.applied 1 (Sample.with_volume "DEADBEEF")))
              eq_refl eq_refl eq_refl ltac:(vm_compute; discriminate))
    as (_ & s' & h' & Hrestore & _ & _ & Hattached & _).
  rewrite Hrestore. simpl. rewrite Hattached. split; reflexivity.
Defined.

(* ================================================================== *)
(** ** Cleanup *)

Lemma is_attached_after_detach (t : HookTarget) (l : list HookTarget) :
  is_attached t (apply_op l (Detach t)) = false.
Proof.
  unfold is_attached. simpl.
  induction l as [|u r IH]; simpl; [reflexivity|].
  destruct (HookTarget_eqb t u) eqn:E; simpl; [exact IH|].
  now rewrite E.
Qed.

Lemma is_attached_detach_other (t u : HookTarget) (l : list HookTarget) :
  is_attached t l = false -> is_attached t (apply_op l (Detach u)) = false.
Proof.
  unfold is_attached. simpl.
  induction l as [|x r IH]; simpl; [reflexivity|].
  intros H. apply orb_false_iff in H. destruct H as [Hx Hr].
  destruct (negb (HookTarget_eqb u x)); simpl; [rewrite Hx|]; auto.
Qed.

(** A committed removal leaves no entry point redirected whose original
    pointer was known. *)
Lemma detach_ops_remove (h : HookState) (l : list HookTarget) :
  (g_originalGetVolumeInformationA h <> None ->
   is_attached VolumeInformation (fold_left apply_op (detach_ops h) l) = false)
  /\ (g_originalGetAdaptersInfo h <> None ->
      is_attached AdaptersInfo (fold_left apply_op (detach_ops h) l) = false).
Proof.
  unfold detach_ops.
  destruct (g_originalGetVolumeInformationA h),
           (g_originalGetAdaptersInfo h); cbn [app fold_left];
    split; intros H; try congruence.
  - apply is_attached_detach_other, is_attached_after_detach.
  - apply is_attached_after_detach.
  - apply is_attached_after_detach.
  - apply is_attached_after_detach.
Qed.

Lemma RestoreOriginalValues_fields (w : World) (s s' : WindowsSpoofer)
      (h h' : HookState) (r : bool) :
  RestoreOriginalValues w s h = (r, s', h') ->
  r = true
  /\ m_originalValues s' = m_originalValues s
  /\ m_initialized s' = m_initialized s
  /\ m_targetProcessId s' = m_targetProcessId s
  /\ (m_initialized s = true ->
      m_currentSpoofed s' = set_active false (m_currentSpoofed s)).
Proof.
  unfold RestoreOriginalValues.
  destruct (m_initialized s) eqn:Hi; simpl negb; simpl orb.
  2:{ intros [= <- <- <-]. repeat split; auto. discriminate. }
  destruct (active (m_currentSpoofed s)) eqn:Ha; simpl negb; cbv iota.
  2:{ intros [= <- <- <-]. repeat split; auto. intros _.
      destruct (m_currentSpoofed s); simpl in *. now subst. }
  destruct (RemoveHooks w s h) as [[r0 s1] h1] eqn:E.
  apply RemoveHooks_fields in E. destruct E as (Hc & Ho & Hin & Ht).
  rewrite Hi in Hin.
  intros [= <- <- <-]. simpl. repeat split; auto.
  intros _. now rewrite Hc.
Qed.

Lemma Cleanup_leaves_uninitialized (w : World) (s : WindowsSpoofer) (h : HookState) :
  m_initialized (fst (Cleanup w s h)) = false.
Proof.
  unfold Cleanup. destruct (m_initialized s) eqn:Hi; [|exact Hi].
  destruct (RestoreOriginalValues w s h) as [[r s1] h1]. reflexivity.
Qed.

Lemma Cleanup_uninitialized (w : World) (s : WindowsSpoofer) (h : HookState) :
  m_initialized s = false -> Cleanup w s h = (s, h).
Proof. intros Hi. unfold Cleanup. now rewrite Hi. Qed.

(** C5, as stated, fails.  First, the controller's Cleanup keeps the
    identifier strings of both sets: after initialize(1), apply with
    volumeSerial ["DEADBEEF"] and Cleanup, the controller is uninitialized
    but still holds the spoofed serial and the captured original values.
    Second, at the host binding cleanup returns true and destroys the
    controller, but when the detach transaction does not commit the two
    interceptions are still attached afterwards, and [g_spooferInstance]
    still holds the address of the destroyed object.  Third, after a
    restore whose detach did not commit (it returned true all the same),
    cleanup leaves the interceptions attached even though Detours would
    commit by now: the spoof is no longer active, so the restore step
    does not try again. *)
Lemma Cleanup_keeps_strings_and_may_keep_hooks :
  m_initialized
    (fst (Cleanup Sample.world
                  (spoofer (Sample.applied 1 (Sample.with_volume "DEADBEEF")))
                  (hooked (Sample.applied 1 (Sample.with_volume "DEADBEEF")))))
  = false
  /\ volumeSerial
       (m_currentSpoofed
          (fst (Cleanup Sample.world
                  (spoofer (Sample.applied 1 (Sample.with_volume "DEADBEEF")))
                  (hooked (Sample.applied 1 (Sample.with_volume "DEADBEEF"))))))
     = "DEADBEEF"
  /\ m_originalValues
       (fst (Cleanup Sample.world
               (spoofer (Sample.applied 1 (Sample.with_volume "DEADBEEF")))
               (hooked (Sample.applied 1 (Sample.with_volume "DEADBEEF")))))
     = Original.mk "00:1A:2B:3C:4D:5E" "DISK_SERIAL_123" "CAFEBABE"
                   "ORIGINAL_GPU" "ORIGINAL_BIOS" "ORIGINAL_MB"
  /\ fst (nan_Cleanup Sample.world_commit_fails Sample.host_applied)
     = Return (JsBoolean true)
  /\ g_spoofer (snd (nan_Cleanup Sample.world_commit_fails Sample.host_applied))
     = None
  /\ attached
       (hooks (snd (nan_Cleanup Sample.world_commit_fails Sample.host_applied)))
     = [VolumeInformation; AdaptersInfo]
  /\ g_spooferInstance
       (hooks (snd (nan_Cleanup Sample.world_commit_fails Sample.host_applied)))
     = Some 0%nat
  /\ fst (nan_RestoreOriginalIdentifiers Sample.world_commit_fails
                                         Sample.host_applied)
     = Return (JsBoolean true)
  /\ fst (nan_Cleanup Sample.world Sample.host_restored_badly)
     = Return (JsBoolean true)
  /\ g_spoofer (snd (nan_Cleanup Sample.world Sample.host_restored_badly))
     = None
  /\ attached
       (hooks (snd (nan_Cleanup Sample.world Sample.host_restored_badly)))
     = [VolumeInformation; AdaptersInfo].
Proof. repeat split; vm_compute; reflexivity. Qed.

(** C5, amended.  The controller's Cleanup does nothing on an
    uninitialized controller.  On an initialized one it first performs the
    restore step and then clears the initialized flag and the target
    process id: afterwards the controller is uninitialized and its spoof
    set inactive, while the Original set and the identifier strings of the
    Spoofed set are still stored in it.  If the spoof was active and the
    hooks installed, the interceptions are removed provided the detach
    transaction commits.  The host-level cleanup, from any state, runs
    that Cleanup, then destroys the controller object, which is what
    discards both identifier sets, and returns true. *)
Theorem Cleanup_effect :
  forall (w : World),
    (forall s h, m_initialized s = false -> Cleanup w s h = (s, h))
    /\ (forall s h,
           m_initialized s = true ->
           Cleanup w s h
           = (set_targetProcessId
                0 (set_initialized
                     false (snd (fst (RestoreOriginalValues w s h)))),
              snd (RestoreOriginalValues w s h))
           /\ m_initialized (fst (Cleanup w s h)) = false
           /\ m_targetProcessId (fst (Cleanup w s h)) = 0
           /\ m_currentSpoofed (fst (Cleanup w s h))
              = set_active false (m_currentSpoofed s)
           /\ m_originalValues (fst (Cleanup w s h)) = m_originalValues s)
    /\ (forall s h,
           m_initialized s = true ->
           active (m_currentSpoofed s) = true ->
           m_hooksInstalled s = true ->
           DetourTransactionCommit w (detach_ops h) = NO_ERROR ->
           m_hooksInstalled (fst (Cleanup w s h)) = false
           /\ g_spooferInstance (snd (Cleanup w s h)) = None
           /\ (g_originalGetVolumeInformationA h <> None ->
               is_attached VolumeInformation
                           (attached (snd (Cleanup w s h))) = false)
           /\ (g_originalGetAdaptersInfo h <> None ->
               is_attached AdaptersInfo
                           (attached (snd (Cleanup w s h))) = false))
    /\ (forall p,
           fst (nan_Cleanup w p) = Return (JsBoolean true)
           /\ g_spoofer (snd (nan_Cleanup w p)) = None
           /\ forall this s,
               g_spoofer p = Some (this, s) ->
               hooks (snd (nan_Cleanup w p)) = snd (Cleanup w s (hooks p))).
Proof.
  intros w. split; [|split; [|split]].
  - intros s h. apply Cleanup_uninitialized.
  - intros s h Hi. unfold Cleanup. rewrite Hi.
    destruct (RestoreOriginalValues w s h) as [[r s1] h1] eqn:E.
    apply RestoreOriginalValues_fields in E.
    destruct E as (_ & Ho & _ & _ & Hc). simpl.
    rewrite (Hc Hi), Ho. repeat split.
  - intros s h Hi Ha Hh Hc.
    destruct (RemoveHooks_commit_succeeds w s h Hh Hc) as (h' & Hrm & Hat & Hin).
    unfold Cleanup, RestoreOriginalValues. rewrite Hi, Ha, Hrm. simpl.
    rewrite Hat. split; [reflexivity|]. split; [exact Hin|].
    apply detach_ops_remove.
  - intros [g hk nx]. unfold nan_Cleanup. simpl g_spoofer. simpl hooks.
    destruct g as [[this s]|]; [|repeat split; intros; discriminate].
    destruct (Cleanup w s hk) as [s1 h1] eqn:E.
    assert (Hu : m_initialized s1 = false).
    { pose proof (Cleanup_leaves_uninitialized w s hk) as H.
      now rewrite E in H. }
    unfold reset. simpl g_spoofer. simpl hooks.
    rewrite (Cleanup_uninitialized w s1 h1 Hu). simpl.
    repeat split. intros this' s' [= <- <-]. now rewrite E.
Qed.

(** The theorem at work on the add-on after initialize(1) and an apply:
    with Detours committing, cleanup leaves no controller and no
    redirection. *)
Lemma Cleanup_effect_witness :
  fst (nan_Cleanup Sample.world Sample.host_applied) = Return (JsBoolean true)
  /\ g_spoofer (snd (nan_Cleanup Sample.world Sample.host_applied)) = None
  /\ attached (hooks (snd (nan_Cleanup Sample.world Sample.host_applied))) = [].
Proof.
  pose proof (Cleanup_effect Sample.world) as (_ & _ & _ & H).
  destruct (H Sample.host_applied) as (Hret & Hnone & Hhooks).
  split; [exact Hret|]. split; [exact Hnone|].
  rewrite (Hhooks 0%nat
                  (spoofer (Sample.applied 1 (Sample.with_volume "DEADBEEF")))
                  eq_refl).
  reflexivity.
Defined.

(* ================================================================== *)
(** ** Initialize *)

(** C9.  For every process id and in every environment
    InitializeForProcess returns true and leaves the controller
    initialized for that id.  Process liveness plays no part: the outcome
    depends on the environment through the two identity queries only, so
    it is the same whether or not the target process exists.  When the
    original values are captured and a real identity query fails, the
    Original set holds the fixed fallback string for it
    (["00:00:00:00:00:00"], ["00000000"]); the disk, GPU, BIOS and
    motherboard entries are fixed strings in any case. *)
Theorem InitializeForProcess_always_succeeds :
  forall (w : World) (pid : DWORD) (s : WindowsSpoofer),
    fst (InitializeForProcess w pid s) = true
    /\ m_initialized (snd (InitializeForProcess w pid s)) = true
    /\ m_targetProcessId (snd (InitializeForProcess w pid s)) = pid
    /\ (forall w',
           GetAdaptersInfo_probe w' = GetAdaptersInfo_probe w ->
           GetVolumeInformationA_C w' = GetVolumeInformationA_C w ->
           InitializeForProcess w' pid s = InitializeForProcess w pid s)
    /\ (m_initialized s && (m_targetProcessId s =? pid) = false ->
        (probe_status (GetAdaptersInfo_probe w) <> ERROR_SUCCESS ->
         Original.macAddress
           (m_originalValues (snd (InitializeForProcess w pid s)))
         = "00:00:00:00:00:00")
        /\ (GetVolumeInformationA_C w = None ->
            Original.volumeSerial
              (m_originalValues (snd (InitializeForProcess w pid s)))
            = "00000000")
        /\ Original.diskSerial
             (m_originalValues (snd (InitializeForProcess w pid s)))
           = "DISK_SERIAL_123"
        /\ Original.gpuId
             (m_originalValues (snd (InitializeForProcess w pid s)))
           = "ORIGINAL_GPU"
        /\ Original.biosSerial
             (m_originalValues (snd (InitializeForProcess w pid s)))
           = "ORIGINAL_BIOS"
        /\ Original.motherboardSerial
             (m_originalValues (snd (InitializeForProcess w pid s)))
           = "ORIGINAL_MB").
Proof.
  intros w pid s. unfold InitializeForProcess.
  destruct (m_initialized s && (m_targetProcessId s =? pid)) eqn:E.
  - reflect_tests. simpl. repeat split; auto; try discriminate.
  - simpl. repeat split; auto.
    + intros w' Hp Hv.
      unfold GetOriginalIdentifiers, GetCurrentMacAddress,
        GetCurrentVolumeSerial.
      now rewrite Hp, Hv.
    + intros Hs. unfold GetCurrentMacAddress.
      apply Z.eqb_neq in Hs. now rewrite Hs.
    + intros Hv. unfold GetCurrentVolumeSerial. now rewrite Hv.
Qed.

(** The theorem at work where nothing can be queried and process 4242
    does not exist. *)
Lemma InitializeForProcess_always_succeeds_witness :
  IsProcessAlive Sample.world_all_fail 4242 = false
  /\ fst (InitializeForProcess Sample.world_all_fail 4242 WindowsSpoofer_new)
     = true
  /\ m_originalValues
       (snd (InitializeForProcess Sample.world_all_fail 4242 WindowsSpoofer_new))
     = Original.mk "00:00:00:00:00:00" "DISK_SERIAL_123" "00000000"
                   "ORIGINAL_GPU" "ORIGINAL_BIOS" "ORIGINAL_MB".
Proof.
  destruct (InitializeForProcess_always_succeeds
              Sample.world_all_fail 4242 WindowsSpoofer_new)
    as (Hok & _ & _ & _ & Hfallback).
  split; [reflexivity|]. split; [exact Hok|].
  destruct (Hfallback eq_refl) as (Hmac & Hvol & Hdisk & Hgpu & Hbios & Hmb).
  specialize (Hmac ltac:(vm_compute; discriminate)).
  specialize (Hvol eq_refl).
  destruct (m_originalValues _) as [a b c d e f]. simpl in *.
  now subst.
Defined.

(* ================================================================== *)
(** ** Ownership of the live Spoofed set *)

Lemma owner_inv_matches (c : Controlled) : owner_inv c -> owner_matches c.
Proof.
  intros [H1 H2] Ha. destruct (H2 Ha) as [Hi ->]. auto.
Qed.

Lemma owner_inv_start : owner_inv Controlled_start.
Proof. split; simpl; discriminate. Qed.

Lemma RestoreOriginalValues_uninitialized (w : World) (s : WindowsSpoofer)
      (h : HookState) :
  m_initialized s = false -> RestoreOriginalValues w s h = (true, s, h).
Proof. intros Hi. unfold RestoreOriginalValues. now rewrite Hi. Qed.

(** Apply, restore and cleanup keep the ownership invariant; so does
    initialize as long as it does not re-target a controller whose spoof
    is active. *)
Lemma run_op_owner_inv (this : ObjId) (w : World) (op : Op) (c : Controlled) :
  owner_inv c ->
  (forall pid, op = OpInitializeForProcess pid ->
               active (m_currentSpoofed (spoofer c)) = false
               \/ m_targetProcessId (spoofer c) = pid) ->
  owner_inv (run_op this w op c).
Proof.
  intros [H1 H2] Hop. destruct c as [s h last]. simpl in *.
  unfold owner_inv. destruct op as [pid|identifiers| |]; simpl.
  - unfold InitializeForProcess.
    destruct (m_initialized s && (m_targetProcessId s =? pid)) eqn:E; simpl.
    + reflect_tests. subst pid. split; auto.
    + split; [reflexivity|]. intros Ha.
      unfold SetupProcessMonitoring in Ha. simpl in Ha.
      destruct (Hop pid eq_refl) as [Hoff | Hsame]; [congruence|].
      destruct (H2 Ha) as [Hi _]. subst pid.
      rewrite Hi, Z.eqb_refl in E. discriminate.
  - destruct (ApplySpoofing w this identifiers s h) as [[r s1] h1] eqn:E.
    apply ApplySpoofing_cases in E. simpl.
    destruct E as [(_ & _ & -> & _) | (Hi & Hi' & Ht & _ & Hc & _)];
      [split; auto|].
    rewrite Hi', Ht, Hc. simpl. split; auto.
  - destruct (m_initialized s) eqn:Hs.
    + destruct (RestoreOriginalValues w s h) as [[r s1] h1] eqn:E.
      apply RestoreOriginalValues_fields in E. simpl.
      destruct E as (_ & _ & Hi & Ht & Hc).
      rewrite Hi, Ht, (Hc Hs). simpl. split; [auto|discriminate].
    + rewrite (RestoreOriginalValues_uninitialized w s h Hs). simpl.
      rewrite Hs. split; auto.
  - unfold Cleanup. destruct (m_initialized s) eqn:Hs.
    + destruct (RestoreOriginalValues w s h) as [[r s1] h1] eqn:E.
      apply RestoreOriginalValues_fields in E. simpl.
      destruct E as (_ & _ & _ & _ & Hc).
      rewrite (Hc Hs). simpl. split; discriminate.
    + simpl. rewrite Hs. split; auto.
Qed.

Lemma run_owner_inv (this : ObjId) (ops : list (World * Op)) :
  forall c,
    owner_inv c -> retargets this ops c = false ->
    owner_inv (run this ops c).
Proof.
  induction ops as [|[w op] r IH]; intros c Hc Hr; simpl in *; [exact Hc|].
  apply orb_false_iff in Hr. destruct Hr as [Hop Hr].
  apply IH; [|exact Hr].
  apply run_op_owner_inv; [exact Hc|].
  intros pid ->. apply andb_false_iff in Hop.
  destruct Hop as [Hop|Hop]; [now left|right].
  reflect_tests. exact Hop.
Qed.

(** From a fresh controller, any sequence of operations that never
    re-targets an active spoof keeps the Spoofed set with its owner. *)
Lemma owner_matches_without_retargeting (this : ObjId)
      (ops : list (World * Op)) :
  retargets this ops Controlled_start = false ->
  owner_matches (run this ops Controlled_start).
Proof.
  intros H. apply owner_inv_matches, run_owner_inv; [|exact H].
  apply owner_inv_start.
Qed.

(** C7, on the code: the ownership invariant is not preserved by
    initialize.  After InitializeForProcess(1), a successful
    ApplySpoofing and InitializeForProcess(2), the Spoofed set is still
    active and still stamped with process 1, while the most recent
    successful initialize (and the controller's target) is process 2. *)
Theorem reinitialize_breaks_ownership :
  active
    (m_currentSpoofed
       (spoofer (run 7%nat
                     [(Sample.world, OpInitializeForProcess 1);
                      (Sample.world, OpApplySpoofing (Sample.with_volume "DEADBEEF"));
                      (Sample.world, OpInitializeForProcess 2)]
                     Controlled_start)))
  = true
  /\ processId
       (m_currentSpoofed
          (spoofer (run 7%nat
                        [(Sample.world, OpInitializeForProcess 1);
                         (Sample.world, OpApplySpoofing (Sample.with_volume "DEADBEEF"));
                         (Sample.world, OpInitializeForProcess 2)]
                        Controlled_start)))
     = 1
  /\ last_initialized
       (run 7%nat
            [(Sample.world, OpInitializeForProcess 1);
             (Sample.world, OpApplySpoofing (Sample.with_volume "DEADBEEF"));
             (Sample.world, OpInitializeForProcess 2)]
            Controlled_start)
     = Some 2
  /\ ~ owner_matches
       (run 7%nat
            [(Sample.world, OpInitializeForProcess 1);
             (Sample.world, OpApplySpoofing (Sample.with_volume "DEADBEEF"));
             (Sample.world, OpInitializeForProcess 2)]
            Controlled_start).
Proof.
  repeat split; try reflexivity.
  intros H. specialize (H eq_refl). discriminate H.
Qed.

(* ================================================================== *)
(** ** Installing the hooks *)

(** Without the volume-information entry point (its module missing, or
    the export not found) installation fails before any Detours call. *)
Lemma InstallHooks_needs_volume_entry (w : World) (this : ObjId)
      (s : WindowsSpoofer) (h : HookState) :
  m_hooksInstalled s = false ->
  match GetModuleHandleA w "kernel32.dll" with
  | Some k => GetProcAddress w k "GetVolumeInformationA" = None
  | None => True
  end ->
  fst (fst (InstallHooks w this s h)) = false
  /\ snd (fst (InstallHooks w this s h)) = s
  /\ attached (snd (InstallHooks w this s h)) = attached h
  /\ detours_trace (snd (InstallHooks w this s h)) = detours_trace h.
Proof.
  intros Hh Hv. unfold InstallHooks. rewrite Hh.
  destruct (GetModuleHandleA w "kernel32.dll") as [k|]; [|repeat split].
  rewrite Hv.
  destruct (GetModuleHandleA w "iphlpapi.dll") as [m|]; repeat split.
Qed.

(** With the adapter module absent and no adapter entry point left over
    from an earlier installation, a single transaction attaches the
    volume redirection alone, and installation succeeds exactly when
    that transaction commits. *)
Lemma InstallHooks_without_adapter_module (w : World) (this : ObjId)
      (s : WindowsSpoofer) (h : HookState) (k : HMODULE) (f : FARPROC) :
  m_hooksInstalled s = false ->
  GetModuleHandleA w "kernel32.dll" = Some k ->
  GetProcAddress w k "GetVolumeInformationA" = Some f ->
  GetModuleHandleA w "iphlpapi.dll" = None ->
  g_originalGetAdaptersInfo h = None ->
  fst (fst (InstallHooks w this s h))
  = (DetourTransactionCommit w [Attach VolumeInformation] =? NO_ERROR)
  /\ m_hooksInstalled (snd (fst (InstallHooks w this s h)))
     = (DetourTransactionCommit w [Attach VolumeInformation] =? NO_ERROR)
  /\ detours_trace (snd (InstallHooks w this s h))
     = (detours_trace h
        ++ [CallTransactionBegin; CallUpdateProcessModules;
            CallAttach VolumeInformation;
            CallTransactionCommit
              (DetourTransactionCommit w [Attach VolumeInformation])])%list
  /\ attached (snd (InstallHooks w this s h))
     = (if DetourTransactionCommit w [Attach VolumeInformation] =? NO_ERROR
        then apply_op (attached h) (Attach VolumeInformation)
        else attached h)
  /\ g_originalGetAdaptersInfo (snd (InstallHooks w this s h)) = None.
Proof.
  intros Hh Hk Hf Hm Ha.
  unfold InstallHooks. rewrite Hh, Hk, Hf, Hm. simpl.
  unfold detour_transaction, attach_ops. simpl. rewrite Ha. simpl.
  destruct (DetourTransactionCommit w [Attach VolumeInformation] =? NO_ERROR)
    eqn:E; simpl; rewrite ?E; simpl; repeat split; auto.
Qed.

(** *** The adapter module absent throughout

    [g_originalGetAdaptersInfo] is assigned in one place only, under
    [if (hIphlpapi)]; as long as [iphlpapi.dll] is not loaded, nothing
    the add-on does resolves or redirects the adapter enumeration. *)

Lemma is_attached_app (t : HookTarget) (l r : list HookTarget) :
  is_attached t (l ++ r) = is_attached t l || is_attached t r.
Proof. unfold is_attached. apply existsb_app. Qed.

Lemma is_attached_filter (t : HookTarget) (f : HookTarget -> bool)
      (l : list HookTarget) :
  is_attached t l = false -> is_attached t (filter f l) = false.
Proof.
  unfold is_attached. induction l as [|u l IH]; simpl; [reflexivity|].
  intros H. apply orb_false_iff in H. destruct H as [Hu Hl].
  destruct (f u); simpl; [rewrite Hu|]; auto.
Qed.

Lemma InstallHooks_no_adapter_entry (w : World) (this : ObjId)
      (s : WindowsSpoofer) (h : HookState) :
  GetModuleHandleA w "iphlpapi.dll" = None ->
  no_adapter_entry h ->
  no_adapter_entry (snd (InstallHooks w this s h)).
Proof.
  intros Hm [Ha Hn]. unfold InstallHooks.
  destruct (m_hooksInstalled s); [split; assumption|].
  rewrite Hm.
  destruct (GetModuleHandleA w "kernel32.dll") as [k|]; [|split; assumption].
  simpl.
  destruct (GetProcAddress w k "GetVolumeInformationA") as [f|];
    [|split; assumption].
  unfold detour_transaction, attach_ops, no_adapter_entry. simpl.
  rewrite Ha. simpl.
  destruct (DetourTransactionCommit w [Attach VolumeInformation] =? NO_ERROR)
    eqn:E; simpl; rewrite ?E; simpl; (split; [assumption|]);
    [|assumption].
  destruct (is_attached VolumeInformation (attached h)); [assumption|].
  rewrite is_attached_app, Hn. reflexivity.
Qed.

Lemma RemoveHooks_no_adapter_entry (w : World) (s : WindowsSpoofer)
      (h : HookState) :
  no_adapter_entry h -> no_adapter_entry (snd (RemoveHooks w s h)).
Proof.
  intros [Ha Hn]. unfold RemoveHooks.
  destruct (negb (m_hooksInstalled s)); [split; assumption|].
  unfold detour_transaction, no_adapter_entry.
  destruct (DetourTransactionCommit w (detach_ops h) =? NO_ERROR)
    eqn:E; simpl; rewrite ?E; simpl; (split; [assumption|]);
    [|assumption].
  unfold detach_ops. rewrite Ha.
  destruct (g_originalGetVolumeInformationA h); simpl; [|assumption].
  now apply is_attached_filter.
Qed.

Lemma ApplySpoofing_no_adapter_entry (w : World) (this : ObjId)
      (identifiers : SpoofedIdentifiers) (s : WindowsSpoofer) (h : HookState) :
  GetModuleHandleA w "iphlpapi.dll" = None ->
  no_adapter_entry h ->
  no_adapter_entry (snd (ApplySpoofing w this identifiers s h)).
Proof.
  intros Hm Hh. unfold ApplySpoofing.
  destruct (negb (m_initialized s)); [exact Hh|].
  match goal with
  | |- context [InstallHooks w this ?s3 h] =>
      pose proof (InstallHooks_no_adapter_entry w this s3 h Hm Hh) as H;
      destruct (InstallHooks w this s3 h) as [[installed s4] h1]
  end.
  simpl in H. destruct (negb installed); exact H.
Qed.

Lemma RestoreOriginalValues_no_adapter_entry (w : World) (s : WindowsSpoofer)
      (h : HookState) :
  no_adapter_entry h ->
  no_adapter_entry (snd (RestoreOriginalValues w s h)).
Proof.
  intros Hh. unfold RestoreOriginalValues.
  destruct (negb (m_initialized s) || negb (active (m_currentSpoofed s)));
    [exact Hh|].
  pose proof (RemoveHooks_no_adapter_entry w s h Hh) as H.
  destruct (RemoveHooks w s h) as [[r s1] h1]. exact H.
Qed.

Lemma Cleanup_no_adapter_entry (w : World) (s : WindowsSpoofer)
      (h : HookState) :
  no_adapter_entry h -> no_adapter_entry (snd (Cleanup w s h)).
Proof.
  intros Hh. unfold Cleanup. destruct (m_initialized s); [|exact Hh].
  pose proof (RestoreOriginalValues_no_adapter_entry w s h Hh) as H.
  destruct (RestoreOriginalValues w s h) as [[r s1] h1]. exact H.
Qed.

Lemma run_method_no_adapter_entry
      (Rng : Type) (dis : Z -> Z -> Rng -> Z * Rng)
      (w : World) (m : Method) (info : list JsValue) (st : Process * Rng) :
  GetModuleHandleA w "iphlpapi.dll" = None ->
  no_adapter_entry (hooks (fst st)) ->
  no_adapter_entry (hooks (fst (snd (run_method Rng dis w m info st)))).
Proof.
  intros Hm Hh. destruct st as [p g]. simpl in Hh.
  destruct m; simpl.
  - unfold nan_InitializeForProcess.
    destruct info as [|[| | n | |] rest]; try exact Hh.
    unfold ensure_spoofer.
    destruct (g_spoofer p) as [[this s]|];
      destruct (InitializeForProcess w (ToUint32 (JsNumber n)) _);
      exact Hh.
  - unfold nan_ApplySpoofing.
    destruct (g_spoofer p) as [[this s]|]; [|exact Hh].
    destruct info as [|[| | | | props] rest]; try exact Hh.
    pose proof (ApplySpoofing_no_adapter_entry
                  w this (identifiers_of_object props) s (hooks p) Hm Hh) as H.
    destruct (ApplySpoofing w this (identifiers_of_object props) s (hooks p))
      as [[r s1] h1].
    exact H.
  - unfold nan_GenerateRandomIdentifiers, ensure_spoofer.
    destruct (g_spoofer p) as [[this s]|];
      destruct (GenerateRandomIdentifiers Rng dis g); exact Hh.
  - unfold nan_GetSpoofingStatus.
    destruct (g_spoofer p) as [[this s]|]; exact Hh.
  - unfold nan_RestoreOriginalIdentifiers.
    destruct (g_spoofer p) as [[this s]|]; [|exact Hh].
    pose proof (RestoreOriginalValues_no_adapter_entry w s (hooks p) Hh) as H.
    destruct (RestoreOriginalValues w s (hooks p)) as [[r s1] h1].
    exact H.
  - unfold nan_Cleanup.
    destruct (g_spoofer p) as [[this s]|]; [|exact Hh].
    pose proof (Cleanup_no_adapter_entry w s (hooks p) Hh) as H.
    destruct (Cleanup w s (hooks p)) as [s1 h1]. simpl in H.
    unfold reset. simpl.
    pose proof (Cleanup_no_adapter_entry w s1 h1 H) as H'.
    destruct (Cleanup w s1 h1) as [s2 h2]. exact H'.
  - unfold nan_CanSafeMacSpoof. destruct (g_spoofer p); exact Hh.
  - exact Hh.
Qed.

Lemma script_no_adapter_entry
      (Rng : Type) (dis : Z -> Z -> Rng -> Z * Rng)
      (exports : list (string * Method))
      (calls : list (World * string * list JsValue)) :
  Forall (fun c => GetModuleHandleA (fst (fst c)) "iphlpapi.dll" = None)
         calls ->
  forall st,
    no_adapter_entry (hooks (fst st)) ->
    no_adapter_entry (hooks (fst (script Rng dis exports calls st))).
Proof.
  induction 1 as [|[[w name] info] rest Hw _ IH]; intros st Hst;
    [exact Hst|].
  cbn [script]. unfold call.
  destruct (export exports name) as [m|]; [|now apply IH].
  pose proof (run_method_no_adapter_entry Rng dis w m info st Hw Hst) as H.
  destruct (run_method Rng dis w m info st) as [r st1].
  now apply IH.
Qed.

(** With both modules loaded and both exports found, the two pointers
    hold what [GetProcAddress] returned and one transaction attaches both
    redirections. *)
Lemma InstallHooks_with_both_entries (w : World) (this : ObjId)
      (s : WindowsSpoofer) (h : HookState) (k m : HMODULE) (f a : FARPROC) :
  m_hooksInstalled s = false ->
  GetModuleHandleA w "kernel32.dll" = Some k ->
  GetProcAddress w k "GetVolumeInformationA" = Some f ->
  GetModuleHandleA w "iphlpapi.dll" = Some m ->
  GetProcAddress w m "GetAdaptersInfo" = Some a ->
  fst (fst (InstallHooks w this s h))
  = (DetourTransactionCommit w [Attach VolumeInformation; Attach AdaptersInfo]
     =? NO_ERROR)
  /\ g_originalGetVolumeInformationA (snd (InstallHooks w this s h)) = Some f
  /\ g_originalGetAdaptersInfo (snd (InstallHooks w this s h)) = Some a
  /\ detours_trace (snd (InstallHooks w this s h))
     = (detours_trace h
        ++ [CallTransactionBegin; CallUpdateProcessModules;
            CallAttach VolumeInformation; CallAttach AdaptersInfo;
            CallTransactionCommit
              (DetourTransactionCommit
                 w [Attach VolumeInformation; Attach AdaptersInfo])])%list.
Proof.
  intros Hh Hk Hf Hm Ha.
  unfold InstallHooks. rewrite Hh, Hk, Hf, Hm, Ha. simpl.
  unfold detour_transaction, attach_ops. simpl.
  destruct (DetourTransactionCommit
              w [Attach VolumeInformation; Attach AdaptersInfo] =? NO_ERROR)
    eqn:E; simpl; rewrite ?E; simpl; repeat split; auto.
Qed.

(** C6.  Hook installation resolves the two entry points by name from
    their modules: for a controller whose hooks are not installed, with
    both modules loaded and both exports found, the two pointers hold
    the addresses found and a single transaction attaches both
    redirections.  Whenever the volume-information entry point cannot
    be resolved ([kernel32.dll] not found, or the export missing from
    it), installation returns false, leaves the hooks not marked
    installed and makes no Detours call.  With the adapter module
    absent, as it then has been all along, in whatever state a sequence
    of calls of the exported methods has left the add-on, installation
    skips the adapter interception: one transaction attaches the volume
    redirection alone, installation succeeds (returns true, hooks marked
    installed) as soon as that transaction commits, and the adapter
    enumeration is not redirected afterwards. *)
Theorem InstallHooks_entry_points
        (Rng : Type) (dis : Z -> Z -> Rng -> Z * Rng) :
  (forall (w : World) (this : ObjId) (s : WindowsSpoofer) (h : HookState)
          (k m : HMODULE) (f a : FARPROC),
      m_hooksInstalled s = false ->
      GetModuleHandleA w "kernel32.dll" = Some k ->
      GetProcAddress w k "GetVolumeInformationA" = Some f ->
      GetModuleHandleA w "iphlpapi.dll" = Some m ->
      GetProcAddress w m "GetAdaptersInfo" = Some a ->
      let commit :=
        DetourTransactionCommit
          w [Attach VolumeInformation; Attach AdaptersInfo] in
      fst (fst (InstallHooks w this s h)) = (commit =? NO_ERROR)
      /\ g_originalGetVolumeInformationA (snd (InstallHooks w this s h))
         = Some f
      /\ g_originalGetAdaptersInfo (snd (InstallHooks w this s h)) = Some a
      /\ detours_trace (snd (InstallHooks w this s h))
         = (detours_trace h
            ++ [CallTransactionBegin; CallUpdateProcessModules;
                CallAttach VolumeInformation; CallAttach AdaptersInfo;
                CallTransactionCommit commit])%list)
  /\ (forall (w : World) (this : ObjId) (s : WindowsSpoofer) (h : HookState),
         m_hooksInstalled s = false ->
         match GetModuleHandleA w "kernel32.dll" with
         | Some k => GetProcAddress w k "GetVolumeInformationA" = None
         | None => True
         end ->
         fst (fst (InstallHooks w this s h)) = false
         /\ m_hooksInstalled (snd (fst (InstallHooks w this s h))) = false
         /\ attached (snd (InstallHooks w this s h)) = attached h
         /\ detours_trace (snd (InstallHooks w this s h)) = detours_trace h)
  /\ (forall (exports : list (string * Method))
             (calls : list (World * string * list JsValue)) (g : Rng)
             (w : World) (this : ObjId) (s : WindowsSpoofer)
             (k : HMODULE) (f : FARPROC),
         Forall (fun c => GetModuleHandleA (fst (fst c)) "iphlpapi.dll" = None)
                calls ->
         g_spoofer (fst (script Rng dis exports calls (Process_start, g)))
         = Some (this, s) ->
         m_hooksInstalled s = false ->
         GetModuleHandleA w "iphlpapi.dll" = None ->
         GetModuleHandleA w "kernel32.dll" = Some k ->
         GetProcAddress w k "GetVolumeInformationA" = Some f ->
         let h := hooks (fst (script Rng dis exports calls (Process_start, g))) in
         let commit := DetourTransactionCommit w [Attach VolumeInformation] in
         fst (fst (InstallHooks w this s h)) = (commit =? NO_ERROR)
         /\ m_hooksInstalled (snd (fst (InstallHooks w this s h)))
            = (commit =? NO_ERROR)
         /\ detours_trace (snd (InstallHooks w this s h))
            = (detours_trace h
               ++ [CallTransactionBegin; CallUpdateProcessModules;
                   CallAttach VolumeInformation;
                   CallTransactionCommit commit])%list
         /\ (commit = NO_ERROR ->
             is_attached VolumeInformation
                         (attached (snd (InstallHooks w this s h))) = true)
         /\ is_attached AdaptersInfo
                        (attached (snd (InstallHooks w this s h))) = false).
Proof.
  split; [|split].
  - intros w this s h k m f a Hh Hk Hf Hm Ha commit.
    exact (InstallHooks_with_both_entries w this s h k m f a Hh Hk Hf Hm Ha).
  - intros w this s h Hh Hv.
    destruct (InstallHooks_needs_volume_entry w this s h Hh Hv)
      as (Hr & Hs & Ha & Ht).
    rewrite Hs. auto.
  - intros exports calls g w this s k f Hcalls Hctl Hh Hm Hk Hf h commit.
    assert (Hinv : no_adapter_entry h).
    { apply (script_no_adapter_entry Rng dis exports calls Hcalls
                                     (Process_start, g)).
      split; reflexivity. }
    destruct (InstallHooks_without_adapter_module
                w this s h k f Hh Hk Hf Hm (proj1 Hinv))
      as (Hr & Hs & Ht & Ha & _).
    pose proof (InstallHooks_no_adapter_entry w this s h Hm Hinv) as [_ Hn].
    refine (conj Hr (conj Hs (conj Ht (conj _ Hn)))).
    intros Hc. rewrite Ha. fold commit. rewrite Hc. simpl.
    destruct (is_attached VolumeInformation (attached h)) eqn:E;
      [exact E|].
    rewrite is_attached_app, E. reflexivity.
Qed.

(** The theorem at work: [initializeForProcess(1)] on a machine where
    [iphlpapi.dll] is not loaded, then installation for the controller
    that call created. *)
Lemma InstallHooks_entry_points_witness :
  fst (fst (InstallHooks
              Sample.world_no_iphlpapi 0%nat
              (snd (InitializeForProcess Sample.world_no_iphlpapi 1
                                         WindowsSpoofer_new))
              HookState_init))
  = true
  /\ is_attached
       AdaptersInfo
       (attached
          (snd (InstallHooks
                  Sample.world_no_iphlpapi 0%nat
                  (snd (InitializeForProcess Sample.world_no_iphlpapi 1
                                             WindowsSpoofer_new))
                  HookState_init)))
     = false
  /\ fst (fst (InstallHooks Sample.world_no_volume_entry 0%nat
                            WindowsSpoofer_new HookState_init))
     = false.
Proof.
  destruct (InstallHooks_entry_points Z Sample.draw)
    as (_ & Hvolume & Hadapter).
  destruct (Hadapter
              InitModule
              [(Sample.world_no_iphlpapi, "initializeForProcess",
                [JsNumber 1])]
              5 Sample.world_no_iphlpapi 0%nat
              (snd (InitializeForProcess Sample.world_no_iphlpapi 1
                                         WindowsSpoofer_new))
              4096 4112
              ltac:(repeat constructor) eq_refl eq_refl eq_refl eq_refl
              eq_refl)
    as (Hr & _ & _ & _ & Hn).
  destruct (Hvolume Sample.world_no_volume_entry 0%nat WindowsSpoofer_new
                    HookState_init eq_refl eq_refl) as (Hf & _).
  split; [exact Hr|]. split; [exact Hn|exact Hf].
Defined.


(** Installation where [iphlpapi.dll] is not loaded, and where
    [kernel32.dll] lacks the volume query. *)
Example InstallHooks_first_time_without_adapter_module :
  InstallHooks Sample.world_no_iphlpapi 7%nat
               (snd (InitializeForProcess Sample.world 1 WindowsSpoofer_new))
               HookState_init
  = (true,
     set_hooksInstalled
       true (snd (InitializeForProcess Sample.world 1 WindowsSpoofer_new)),
     mkHooks (Some 7%nat) (Some 4112) None [VolumeInformation]
             [CallTransactionBegin; CallUpdateProcessModules;
              CallAttach VolumeInformation; CallTransactionCommit NO_ERROR]).
Proof. reflexivity. Qed.

Example InstallHooks_without_volume_entry :
  InstallHooks Sample.world_no_volume_entry 7%nat
               (snd (InitializeForProcess Sample.world 1 WindowsSpoofer_new))
               HookState_init
  = (false,
     snd (InitializeForProcess Sample.world 1 WindowsSpoofer_new),
     mkHooks (Some 7%nat) None (Some 8208) [] []).
Proof. reflexivity. Qed.

(* ================================================================== *)
(** ** Random identifiers *)

Lemma byte_text_ok_all (v : Z) : 0 <= v <= 255 -> byte_text_ok v = true.
Proof.
  intros Hv.
  assert (H : forallb (fun n => byte_text_ok (Z.of_nat n)) (seq 0 256) = true)
    by (vm_compute; reflexivity).
  rewrite forallb_forall in H.
  specialize (H (Z.to_nat v)). rewrite Z2Nat.id in H by lia.
  apply H. apply in_seq. lia.
Qed.

Lemma digit_text_ok_all (v : Z) : 0 <= v <= 15 -> digit_text_ok v = true.
Proof.
  intros Hv.
  assert (H : forallb (fun n => digit_text_ok (Z.of_nat n)) (seq 0 16) = true)
    by (vm_compute; reflexivity).
  rewrite forallb_forall in H.
  specialize (H (Z.to_nat v)). rewrite Z2Nat.id in H by lia.
  apply H. apply in_seq. lia.
Qed.

Lemma transform_toupper_app (a b : string) :
  Cxx.transform_toupper (a ++ b)
  = (Cxx.transform_toupper a ++ Cxx.transform_toupper b)%string.
Proof.
  induction a as [|c r IH]; simpl; [reflexivity|]. now rewrite IH.
Qed.

Lemma byte_text_shape (v : Z) :
  0 <= v <= 255 ->
  exists a b,
    Cxx.transform_toupper (Cxx.setw 2 "0"%char (Cxx.put_hex false v))
    = String a (String b EmptyString)
    /\ is_upper_hex a = true /\ is_upper_hex b = true.
Proof.
  intros Hv. pose proof (byte_text_ok_all v Hv) as H.
  unfold byte_text_ok in H.
  destruct (Cxx.transform_toupper _) as [|a [|b [|c r]]]; try discriminate.
  apply andb_true_iff in H. exists a, b. tauto.
Qed.

Section RandomProperties.

Variable Rng : Type.
Variable dis : Z -> Z -> Rng -> Z * Rng.

(** The contract of [std::uniform_int_distribution<>(lo, hi)]. *)
Hypothesis dis_range :
  forall lo hi g, lo <= hi -> lo <= fst (dis lo hi g) <= hi.

Lemma random_serial_loop_shape (n : nat) :
  forall g,
    String.length (fst (random_serial_loop Rng dis n g)) = n
    /\ all_upper_hex (fst (random_serial_loop Rng dis n g)) = true.
Proof.
  induction n as [|n IH]; intros g; simpl; [split; reflexivity|].
  pose proof (dis_range 0 15 g ltac:(lia)) as Hv.
  destruct (dis 0 15 g) as [v g1]. simpl in Hv.
  specialize (IH g1).
  destruct (random_serial_loop Rng dis n g1) as [rest g2]. simpl in *.
  pose proof (digit_text_ok_all v Hv) as Hd. unfold digit_text_ok in Hd.
  destruct (Cxx.put_hex true v) as [|a [|b r]]; try discriminate.
  simpl. rewrite Hd. destruct IH as [-> ->]. split; reflexivity.
Qed.

Lemma GenerateRandomSerial_shape (len : Z) (g : Rng) :
  0 <= len ->
  Cxx.length (fst (GenerateRandomSerial Rng dis len g)) = len
  /\ all_upper_hex (fst (GenerateRandomSerial Rng dis len g)) = true.
Proof.
  intros Hl. unfold GenerateRandomSerial, Cxx.length.
  destruct (random_serial_loop_shape (Z.to_nat len) (mt19937 Rng dis g))
    as [-> ->].
  split; [lia|reflexivity].
Qed.

Lemma GenerateRandomMac_format (g : Rng) :
  mac_format (fst (GenerateRandomMac Rng dis g)) = true.
Proof.
  unfold GenerateRandomMac, random_mac_loop.
  generalize (mt19937 Rng dis g). clear g. intros g.
  pose proof (dis_range 0 255 g ltac:(lia)) as H0.
  destruct (dis 0 255 g) as [v0 g0]. simpl in H0.
  pose proof (dis_range 0 255 g0 ltac:(lia)) as H1.
  destruct (dis 0 255 g0) as [v1 g1]. simpl in H1.
  pose proof (dis_range 0 255 g1 ltac:(lia)) as H2.
  destruct (dis 0 255 g1) as [v2 g2]. simpl in H2.
  pose proof (dis_range 0 255 g2 ltac:(lia)) as H3.
  destruct (dis 0 255 g2) as [v3 g3]. simpl in H3.
  pose proof (dis_range 0 255 g3 ltac:(lia)) as H4.
  destruct (dis 0 255 g3) as [v4 g4]. simpl in H4.
  pose proof (dis_range 0 255 g4 ltac:(lia)) as H5.
  destruct (dis 0 255 g4) as [v5 g5]. simpl in H5.
  cbn [fst].
  destruct (byte_text_shape v0 H0) as (a0 & b0 & E0 & A0 & B0).
  destruct (byte_text_shape v1 H1) as (a1 & b1 & E1 & A1 & B1).
  destruct (byte_text_shape v2 H2) as (a2 & b2 & E2 & A2 & B2).
  destruct (byte_text_shape v3 H3) as (a3 & b3 & E3 & A3 & B3).
  destruct (byte_text_shape v4 H4) as (a4 & b4 & E4 & A4 & B4).
  destruct (byte_text_shape v5 H5) as (a5 & b5 & E5 & A5 & B5).
  repeat (rewrite transform_toupper_app
          || rewrite E0 || rewrite E1 || rewrite E2
          || rewrite E3 || rewrite E4 || rewrite E5).
  cbn [Cxx.transform_toupper String.append].
  change (Cxx.toupper ":"%char) with ":"%char.
  cbn [mac_format forallb].
  rewrite A0, B0, A1, B1, A2, B2, A3, B3, A4, B4, A5, B5.
  reflexivity.
Qed.

End RandomProperties.

(** C8.  Whatever the random draws are, as long as each lies in the range
    of its distribution, the set returned by GenerateRandomIdentifiers has
    active = false and processId = 0; its macAddress has the form
    [XX:XX:XX:XX:XX:XX] with upper-case hex digits; and its diskSerial,
    volumeSerial, gpuId, biosSerial and motherboardSerial are strings of
    exactly 16, 8, 12, 10 and 14 upper-case hex digits. *)
Theorem GenerateRandomIdentifiers_shape
        (Rng : Type) (dis : Z -> Z -> Rng -> Z * Rng)
        (dis_range : forall lo hi g, lo <= hi -> lo <= fst (dis lo hi g) <= hi)
        (g : Rng) :
  active (fst (GenerateRandomIdentifiers Rng dis g)) = false
  /\ processId (fst (GenerateRandomIdentifiers Rng dis g)) = 0
  /\ mac_format (macAddress (fst (GenerateRandomIdentifiers Rng dis g))) = true
  /\ (Cxx.length (diskSerial (fst (GenerateRandomIdentifiers Rng dis g))) = 16
      /\ all_upper_hex
           (diskSerial (fst (GenerateRandomIdentifiers Rng dis g))) = true)
  /\ (Cxx.length (volumeSerial (fst (GenerateRandomIdentifiers Rng dis g))) = 8
      /\ all_upper_hex
           (volumeSerial (fst (GenerateRandomIdentifiers Rng dis g))) = true)
  /\ (Cxx.length (gpuId (fst (GenerateRandomIdentifiers Rng dis g))) = 12
      /\ all_upper_hex
           (gpuId (fst (GenerateRandomIdentifiers Rng dis g))) = true)
  /\ (Cxx.length (biosSerial (fst (GenerateRandomIdentifiers Rng dis g))) = 10
      /\ all_upper_hex
           (biosSerial (fst (GenerateRandomIdentifiers Rng dis g))) = true)
  /\ (Cxx.length
        (motherboardSerial (fst (GenerateRandomIdentifiers Rng dis g))) = 14
      /\ all_upper_hex
           (motherboardSerial (fst (GenerateRandomIdentifiers Rng dis g)))
         = true).
Proof.
  unfold GenerateRandomIdentifiers.
  pose proof (GenerateRandomMac_format Rng dis dis_range g) as Hmac.
  destruct (GenerateRandomMac Rng dis g) as [mac g1].
  pose proof (GenerateRandomSerial_shape Rng dis dis_range 16 g1 ltac:(lia))
    as Hdisk.
  destruct (GenerateRandomSerial Rng dis 16 g1) as [disk g2].
  pose proof (GenerateRandomSerial_shape Rng dis dis_range 8 g2 ltac:(lia))
    as Hvolume.
  destruct (GenerateRandomSerial Rng dis 8 g2) as [volume g3].
  pose proof (GenerateRandomSerial_shape Rng dis dis_range 12 g3 ltac:(lia))
    as Hgpu.
  destruct (GenerateRandomSerial Rng dis 12 g3) as [gpu g4].
  pose proof (GenerateRandomSerial_shape Rng dis dis_range 10 g4 ltac:(lia))
    as Hbios.
  destruct (GenerateRandomSerial Rng dis 10 g4) as [bios g5].
  pose proof (GenerateRandomSerial_shape Rng dis dis_range 14 g5 ltac:(lia))
    as Hmb.
  destruct (GenerateRandomSerial Rng dis 14 g5) as [mb g6].
  simpl in *. tauto.
Qed.

Lemma Sample_draw_range (lo hi g : Z) :
  lo <= hi -> lo <= fst (Sample.draw lo hi g) <= hi.
Proof.
  intros H. unfold Sample.draw. simpl.
  pose proof (Z.mod_pos_bound (g * 7 + 3) (hi - lo + 1) ltac:(lia)). lia.
Qed.

(** The theorem at work with the sample generator started at 5. *)
Lemma GenerateRandomIdentifiers_shape_witness :
  (forall lo hi g, lo <= hi -> lo <= fst (Sample.draw lo hi g) <= hi)
  /\ fst (GenerateRandomIdentifiers Z Sample.draw 5)
     = mkSpoofed "2D:34:3B:42:49:50" "E5C3A18F6D4B2907" "5C3A18F6"
                 "4B2907E5C3A1" "F6D4B2907E" "C3A18F6D4B2907" false 0
  /\ mac_format (macAddress (fst (GenerateRandomIdentifiers Z Sample.draw 5)))
     = true
  /\ Cxx.length (diskSerial (fst (GenerateRandomIdentifiers Z Sample.draw 5)))
     = 16.
Proof.
  split; [exact Sample_draw_range|]. split; [reflexivity|].
  pose proof (GenerateRandomIdentifiers_shape Z Sample.draw Sample_draw_range 5)
    as (_ & _ & Hmac & (Hdisk & _) & _).
  split; [exact Hmac|exact Hdisk].
Defined.

(* ================================================================== *)
(** * Further properties of the controller, the hooks and the binding *)

(** ** Initialize, again *)

(** X1.  InitializeForProcess is re-entrant: a second call for the same
    process id changes nothing and returns true, whatever the environment
    has become in between; in particular the Original set is not captured
    again. *)
Theorem InitializeForProcess_reentrant :
  forall (w w' : World) (pid : DWORD) (s : WindowsSpoofer),
    InitializeForProcess w' pid (snd (InitializeForProcess w pid s))
    = (true, snd (InitializeForProcess w pid s)).
Proof.
  intros w w' pid s.
  assert (H : m_initialized (snd (InitializeForProcess w pid s)) = true
              /\ m_targetProcessId (snd (InitializeForProcess w pid s)) = pid).
  { unfold InitializeForProcess.
    destruct (m_initialized s && (m_targetProcessId s =? pid)) eqn:E; simpl.
    - reflect_tests. auto.
    - auto. }
  destruct H as [Hi Ht].
  unfold InitializeForProcess at 1. now rewrite Hi, Ht, Z.eqb_refl.
Qed.

(** X2.  InitializeForProcess never touches the current spoof set or the
    hooks flag.  Whenever it does not return early, that is on an
    uninitialized controller (so also after Cleanup) or for a process id
    other than the current target, it overwrites the Original set with
    what the identity queries return at that moment. *)
Theorem InitializeForProcess_recaptures :
  forall (w : World) (pid : DWORD) (s : WindowsSpoofer),
    m_currentSpoofed (snd (InitializeForProcess w pid s)) = m_currentSpoofed s
    /\ m_hooksInstalled (snd (InitializeForProcess w pid s))
       = m_hooksInstalled s
    /\ (m_initialized s = false \/ m_targetProcessId s <> pid ->
        m_originalValues (snd (InitializeForProcess w pid s))
        = GetOriginalIdentifiers w)
    /\ (forall w0 h,
           m_originalValues
             (snd (InitializeForProcess w pid (fst (Cleanup w0 s h))))
           = GetOriginalIdentifiers w).
Proof.
  intros w pid s.
  assert (Hfresh : forall s0,
             m_initialized s0 = false \/ m_targetProcessId s0 <> pid ->
             m_originalValues (snd (InitializeForProcess w pid s0))
             = GetOriginalIdentifiers w).
  { intros s0 H. unfold InitializeForProcess.
    destruct (m_initialized s0 && (m_targetProcessId s0 =? pid)) eqn:E;
      [|reflexivity].
    reflect_tests. destruct H; congruence. }
  repeat split.
  - unfold InitializeForProcess. destruct (_ && _); reflexivity.
  - unfold InitializeForProcess. destruct (_ && _); reflexivity.
  - apply Hfresh.
  - intros w0 h. apply Hfresh. left. apply Cleanup_leaves_uninitialized.
Qed.

(** ** Apply *)

Lemma InstallHooks_reads_flag_only (w : World) (this : ObjId)
      (s s' : WindowsSpoofer) (h : HookState) :
  m_hooksInstalled s = m_hooksInstalled s' ->
  fst (fst (InstallHooks w this s h)) = fst (fst (InstallHooks w this s' h))
  /\ snd (InstallHooks w this s h) = snd (InstallHooks w this s' h).
Proof.
  intros E. unfold InstallHooks. rewrite <- E.
  destruct (m_hooksInstalled s) eqn:Hs; [simpl; auto|].
  destruct (GetModuleHandleA w "kernel32.dll"); [|simpl; auto].
  destruct (g_originalGetVolumeInformationA _); [|simpl; auto].
  destruct (detour_transaction w _ _) as [result h4].
  destruct (result =? NO_ERROR); simpl; auto.
Qed.

(** X3.  The outcome of ApplySpoofing does not depend on the identifiers
    passed: the boolean result, the hook state left behind and the hooks
    flag are the same for any two identifier sets.  No category (MAC,
    volume, disk, GPU, BIOS/motherboard) can make an apply fail; only
    initialization and hook installation decide. *)
Theorem ApplySpoofing_result_ignores_identifiers :
  forall (w : World) (this : ObjId) (identifiers identifiers' : SpoofedIdentifiers)
         (s : WindowsSpoofer) (h : HookState),
    fst (fst (ApplySpoofing w this identifiers s h))
    = fst (fst (ApplySpoofing w this identifiers' s h))
    /\ snd (ApplySpoofing w this identifiers s h)
       = snd (ApplySpoofing w this identifiers' s h)
    /\ m_hooksInstalled (snd (fst (ApplySpoofing w this identifiers s h)))
       = m_hooksInstalled (snd (fst (ApplySpoofing w this identifiers' s h))).
Proof.
  intros w this a b s h.
  destruct (ApplySpoofing w this a s h) as [[ra sa] ha] eqn:Ea.
  destruct (ApplySpoofing w this b s h) as [[rb sb] hb] eqn:Eb.
  simpl.
  pose proof Ea as Ca. apply ApplySpoofing_cases in Ca.
  pose proof Eb as Cb. apply ApplySpoofing_cases in Cb.
  destruct Ca as [(Hi & -> & -> & ->) | (Hi & _ & _ & _ & _ & Hfa)];
    destruct Cb as [(Hi' & -> & -> & ->) | (Hi' & _ & _ & _ & _ & Hfb)];
    try congruence; auto.
  unfold ApplySpoofing in Ea, Eb. rewrite Hi in Ea, Eb. simpl negb in Ea, Eb.
  cbv iota in Ea, Eb.
  match type of Ea with
  | context [InstallHooks w this ?x h] =>
      match type of Eb with
      | context [InstallHooks w this ?y h] =>
          pose proof (InstallHooks_reads_flag_only w this x y h eq_refl)
            as (Hr & Hh)
      end
  end.
  destruct (InstallHooks w this _ h) as [[ia s4a] h1a] in Ea, Hr, Hh.
  destruct (InstallHooks w this _ h) as [[ib s4b] h1b] in Eb, Hr, Hh.
  simpl in Hr, Hh. subst ib h1b.
  assert (ra = ia /\ ha = h1a) as [-> ->].
  { destruct ia; simpl negb in Ea; cbv iota in Ea.
    - unfold CanSafeMacSpoof, ApplyMacSpoofing, SpoofVolumeSerial,
        SpoofDiskSerial, SpoofGpuId, SpoofWmiData in Ea.
      repeat match type of Ea with
             | context [if ?c then _ else _] => destruct c
             end; simpl in Ea; inversion Ea; auto.
    - inversion Ea; auto. }
  assert (rb = ia /\ hb = h1a) as [-> ->].
  { destruct ia; simpl negb in Eb; cbv iota in Eb.
    - unfold CanSafeMacSpoof, ApplyMacSpoofing, SpoofVolumeSerial,
        SpoofDiskSerial, SpoofGpuId, SpoofWmiData in Eb.
      repeat match type of Eb with
             | context [if ?c then _ else _] => destruct c
             end; simpl in Eb; inversion Eb; auto.
    - inversion Eb; auto. }
  repeat split. congruence.
Qed.

Lemma InstallHooks_failure (w : World) (this : ObjId) (s s' : WindowsSpoofer)
      (h h' : HookState) :
  InstallHooks w this s h = (false, s', h') ->
  s' = s /\ m_hooksInstalled s = false /\ attached h' = attached h
  /\ g_spooferInstance h' = Some this.
Proof.
  unfold InstallHooks.
  destruct (m_hooksInstalled s) eqn:Hs; [discriminate|].
  destruct (GetModuleHandleA w "kernel32.dll") as [k|].
  2:{ intros [= <- <-]. auto. }
  destruct (g_originalGetVolumeInformationA _) as [f|].
  2:{ intros [= <- <-]. destruct (GetModuleHandleA w "iphlpapi.dll"); auto. }
  unfold detour_transaction.
  destruct (DetourTransactionCommit w _ =? NO_ERROR) eqn:E; rewrite ?E.
  - discriminate.
  - intros [= <- <-]. destruct (GetModuleHandleA w "iphlpapi.dll"); auto.
Qed.

(** X4.  An ApplySpoofing that fails on an initialized controller (the
    hooks could not be installed) attaches no redirection and leaves the
    hooks flag false, but it is not without effect: the previously stored
    spoof set is gone, replaced by the new identifiers stamped with the
    target process id and marked inactive, and [g_spooferInstance] already
    points to the controller. *)
Theorem ApplySpoofing_failure
        (w : World) (this : ObjId) (identifiers : SpoofedIdentifiers)
        (s s' : WindowsSpoofer) (h h' : HookState)
        (Hinit : m_initialized s = true)
        (Hfail : ApplySpoofing w this identifiers s h = (false, s', h')) :
  attached h' = attached h
  /\ m_hooksInstalled s = false
  /\ m_hooksInstalled s' = false
  /\ g_spooferInstance h' = Some this
  /\ m_currentSpoofed s'
     = set_active false (set_processId (m_targetProcessId s) identifiers)
  /\ m_originalValues s' = m_originalValues s
  /\ m_initialized s' = true
  /\ m_targetProcessId s' = m_targetProcessId s.
Proof.
  pose proof Hfail as C. apply ApplySpoofing_cases in C.
  destruct C as [(Hi & _) | (_ & Hi' & Ht & Ho & Hc & Hf)]; [congruence|].
  unfold ApplySpoofing in Hfail. rewrite Hinit in Hfail.
  simpl negb in Hfail. cbv iota in Hfail.
  destruct (InstallHooks w this _ h) as [[installed s4] h1] eqn:E.
  destruct installed; simpl negb in Hfail; cbv iota in Hfail.
  - exfalso.
    unfold CanSafeMacSpoof, ApplyMacSpoofing, SpoofVolumeSerial,
      SpoofDiskSerial, SpoofGpuId, SpoofWmiData in Hfail.
    repeat match type of Hfail with
           | context [if ?c then _ else _] => destruct c
           end; simpl in Hfail; discriminate.
  - apply InstallHooks_failure in E. destruct E as (-> & Hs & Ha & Hg).
    simpl in Hs. inversion Hfail; subst. simpl. repeat split; auto.
Qed.

Lemma ApplySpoofing_failure_witness :
  attached
    (snd (ApplySpoofing Sample.world_commit_fails 7%nat
                        (Sample.with_volume "DEADBEEF")
                        (snd (InitializeForProcess Sample.world 1 WindowsSpoofer_new))
                        HookState_init))
  = []
  /\ m_currentSpoofed
       (snd (fst (ApplySpoofing Sample.world_commit_fails 7%nat
                        (Sample.with_volume "DEADBEEF")
                        (snd (InitializeForProcess Sample.world 1 WindowsSpoofer_new))
                        HookState_init)))
     = set_active false (set_processId 1 (Sample.with_volume "DEADBEEF")).
Proof.
  pose proof (ApplySpoofing_failure
                Sample.world_commit_fails 7%nat (Sample.with_volume "DEADBEEF")
                (snd (InitializeForProcess Sample.world 1 WindowsSpoofer_new))
                (snd (fst (ApplySpoofing Sample.world_commit_fails 7%nat
                        (Sample.with_volume "DEADBEEF")
                        (snd (InitializeForProcess Sample.world 1 WindowsSpoofer_new))
                        HookState_init)))
                HookState_init
                (snd (ApplySpoofing Sample.world_commit_fails 7%nat
                        (Sample.with_volume "DEADBEEF")
                        (snd (InitializeForProcess Sample.world 1 WindowsSpoofer_new))
                        HookState_init))
                eq_refl eq_refl) as (Ha & _ & _ & _ & Hc & _).
  split; [exact Ha|exact Hc].
Defined.

(** X5.  Applying again while the hooks are installed always succeeds, in
    any environment, without a single Detours call: the hook state is left
    exactly as it was and only the stored identifiers are replaced
    (stamped with the target process id, active). *)
Theorem ApplySpoofing_again
        (w1 w2 : World) (this : ObjId) (first second : SpoofedIdentifiers)
        (s s1 : WindowsSpoofer) (h h1 : HookState)
        (Hfirst : ApplySpoofing w1 this first s h = (true, s1, h1)) :
  ApplySpoofing w2 this second s1 h1
  = (true,
     set_currentSpoofed
       (set_active true (set_processId (m_targetProcessId s1) second)) s1,
     h1).
Proof.
  apply ApplySpoofing_cases in Hfirst.
  destruct Hfirst as [(_ & Hr & _) | (_ & Hi & _ & _ & _ & Hf)];
    [discriminate|].
  unfold ApplySpoofing, InstallHooks. rewrite Hi. simpl. rewrite Hf. simpl.
  unfold CanSafeMacSpoof, ApplyMacSpoofing, SpoofVolumeSerial,
    SpoofDiskSerial, SpoofGpuId, SpoofWmiData.
  repeat match goal with
         | |- context [if ?c then _ else _] => destruct c
         end; reflexivity.
Qed.

Lemma ApplySpoofing_again_witness :
  ApplySpoofing Sample.world_all_fail 7%nat (Sample.with_mac "AABBCCDDEEFF")
                (spoofer (Sample.applied 1 (Sample.with_volume "DEADBEEF")))
                (hooked (Sample.applied 1 (Sample.with_volume "DEADBEEF")))
  = (true,
     set_currentSpoofed
       (set_active true (set_processId 1 (Sample.with_mac "AABBCCDDEEFF")))
       (spoofer (Sample.applied 1 (Sample.with_volume "DEADBEEF"))),
     hooked (Sample.applied 1 (Sample.with_volume "DEADBEEF"))).
Proof.
  apply (ApplySpoofing_again
           Sample.world Sample.world_all_fail 7%nat
           (Sample.with_volume "DEADBEEF") (Sample.with_mac "AABBCCDDEEFF")
           (snd (InitializeForProcess Sample.world 1 WindowsSpoofer_new))
           (spoofer (Sample.applied 1 (Sample.with_volume "DEADBEEF")))
           HookState_init
           (hooked (Sample.applied 1 (Sample.with_volume "DEADBEEF")))
           eq_refl).
Defined.

(** ** Restore *)

(** X6.  RestoreOriginalValues always returns true, and restoring twice is
    restoring once: after any restore, a further restore in any
    environment changes neither the controller nor the hook state and
    makes no Detours call, even if the first one failed to detach. *)
Theorem RestoreOriginalValues_idempotent :
  forall (w w' : World) (s : WindowsSpoofer) (h : HookState),
    fst (fst (RestoreOriginalValues w s h)) = true
    /\ RestoreOriginalValues w' (snd (fst (RestoreOriginalValues w s h)))
                             (snd (RestoreOriginalValues w s h))
       = (true, snd (fst (RestoreOriginalValues w s h)),
          snd (RestoreOriginalValues w s h)).
Proof.
  intros w w' s h.
  destruct (RestoreOriginalValues w s h) as [[r s1] h1] eqn:E. simpl.
  apply RestoreOriginalValues_fields in E.
  destruct E as (-> & _ & Hi & _ & Hc).
  split; [reflexivity|].
  unfold RestoreOriginalValues.
  destruct (m_initialized s) eqn:Hs.
  - rewrite Hi, (Hc eq_refl). reflexivity.
  - now rewrite Hi.
Qed.

(** ** Installing and removing, together *)

(** What a successful installation that really ran leaves behind. *)
Lemma InstallHooks_success (w : World) (this : ObjId) (s s1 : WindowsSpoofer)
      (h h1 : HookState) :
  m_hooksInstalled s = false ->
  InstallHooks w this s h = (true, s1, h1) ->
  s1 = set_hooksInstalled true s
  /\ g_spooferInstance h1 = Some this
  /\ g_originalGetVolumeInformationA h1 <> None
  /\ attached h1 = fold_left apply_op (attach_ops h1) (attached h)
  /\ detours_trace h1
     = (detours_trace h
        ++ [CallTransactionBegin; CallUpdateProcessModules]
        ++ map op_call (attach_ops h1)
        ++ [CallTransactionCommit NO_ERROR])%list.
Proof.
  intros Hs. unfold InstallHooks. rewrite Hs.
  destruct (GetModuleHandleA w "kernel32.dll") as [k|]; [|discriminate].
  match goal with
  | |- context [g_originalGetVolumeInformationA ?h3] => set (h3' := h3)
  end.
  destruct (g_originalGetVolumeInformationA h3') as [f|] eqn:Ef;
    [|discriminate].
  unfold detour_transaction.
  destruct (DetourTransactionCommit w (attach_ops h3') =? NO_ERROR) eqn:E;
    rewrite ?E; [|discriminate].
  apply Z.eqb_eq in E. rewrite E.
  intros [= <- <-].
  assert (Hat : attached h3' = attached h)
    by (unfold h3'; destruct (GetModuleHandleA w "iphlpapi.dll"); reflexivity).
  assert (Htr : detours_trace h3' = detours_trace h)
    by (unfold h3'; destruct (GetModuleHandleA w "iphlpapi.dll"); reflexivity).
  assert (Hin : g_spooferInstance h3' = Some this)
    by (unfold h3'; destruct (GetModuleHandleA w "iphlpapi.dll"); reflexivity).
  unfold attach_ops at 2 4. simpl.
  fold (attach_ops h3'). rewrite Hat, Htr, Hin, Ef.
  repeat split; auto. discriminate.
Qed.

Lemma is_attached_after_attach (t : HookTarget) (l : list HookTarget) :
  is_attached t (apply_op l (Attach t)) = true.
Proof.
  simpl. destruct (is_attached t l) eqn:E; [exact E|].
  unfold is_attached. rewrite existsb_app. simpl.
  destruct t; simpl; now rewrite orb_true_r.
Qed.

Lemma is_attached_attach_other (t u : HookTarget) (l : list HookTarget) :
  is_attached t l = true -> is_attached t (apply_op l (Attach u)) = true.
Proof.
  intros H. simpl. destruct (is_attached u l); [exact H|].
  unfold is_attached in *. rewrite existsb_app, H. reflexivity.
Qed.

(** X7.  Installing and then removing is a round trip.  If InstallHooks
    ran and succeeded on a controller whose hooks were not installed, and
    the detach transaction then commits, RemoveHooks returns true, gives
    back the controller as it was, clears [g_spooferInstance] and detaches
    what was attached: the volume redirection is gone, and a table that
    was empty before the installation is empty again.  The resolved
    [g_original...] pointers, however, are kept. *)
Theorem InstallHooks_RemoveHooks_round_trip
        (w1 w2 : World) (this : ObjId) (s s1 : WindowsSpoofer)
        (h h1 : HookState)
        (Hoff : m_hooksInstalled s = false)
        (Hin : InstallHooks w1 this s h = (true, s1, h1))
        (Hcommit : DetourTransactionCommit w2 (detach_ops h1) = NO_ERROR) :
  exists h2,
    RemoveHooks w2 s1 h1 = (true, s, h2)
    /\ g_spooferInstance h2 = None
    /\ is_attached VolumeInformation (attached h2) = false
    /\ (attached h = [] -> attached h2 = [])
    /\ g_originalGetVolumeInformationA h2 = g_originalGetVolumeInformationA h1
    /\ g_originalGetAdaptersInfo h2 = g_originalGetAdaptersInfo h1
    /\ g_originalGetVolumeInformationA h1 <> None.
Proof.
  destruct (InstallHooks_success w1 this s s1 h h1 Hoff Hin)
    as (-> & _ & Hvol & Hat & _).
  unfold RemoveHooks, detour_transaction. simpl m_hooksInstalled. simpl negb.
  cbv iota. rewrite Hcommit. simpl (NO_ERROR =? NO_ERROR). cbv iota.
  eexists. split.
  { f_equal. f_equal. destruct s; simpl in *. now subst. }
  simpl. repeat split; auto.
  - apply detach_ops_remove. exact Hvol.
  - intros Hempty. rewrite Hat, Hempty.
    unfold attach_ops, detach_ops.
    destruct (g_originalGetVolumeInformationA h1); [|congruence].
    destruct (g_originalGetAdaptersInfo h1); reflexivity.
Qed.

Lemma InstallHooks_RemoveHooks_round_trip_witness :
  exists h2,
    RemoveHooks Sample.world
                (set_hooksInstalled
                   true (snd (InitializeForProcess Sample.world 1 WindowsSpoofer_new)))
                (snd (InstallHooks
                        Sample.world 7%nat
                        (snd (InitializeForProcess Sample.world 1 WindowsSpoofer_new))
                        HookState_init))
    = (true, snd (InitializeForProcess Sample.world 1 WindowsSpoofer_new), h2)
    /\ attached h2 = [].
Proof.
  destruct (InstallHooks_RemoveHooks_round_trip
              Sample.world Sample.world 7%nat
              (snd (InitializeForProcess Sample.world 1 WindowsSpoofer_new))
              (set_hooksInstalled
                 true (snd (InitializeForProcess Sample.world 1 WindowsSpoofer_new)))
              HookState_init
              (snd (InstallHooks
                      Sample.world 7%nat
                      (snd (InitializeForProcess Sample.world 1 WindowsSpoofer_new))
                      HookState_init))
              eq_refl eq_refl eq_refl)
    as (h2 & Hrm & _ & _ & Hempty & _).
  exists h2. split; [exact Hrm|exact (Hempty eq_refl)].
Defined.

(** ** The hooks around restore, failures and buffers *)

Lemma hooks_pass_through_when_inactive
      (gv : GetVolumeInformationAFunc) (ga : GetAdaptersInfoFunc)
      (s : WindowsSpoofer) (w : World) (cv : VolumeCall) (ca : AdaptersCall) :
  IsSpoofingActive w s = false ->
  HookedGetVolumeInformationA gv (Some s) w cv = gv cv
  /\ HookedGetAdaptersInfo ga (Some s) w ca = ga ca.
Proof.
  intros H. unfold HookedGetVolumeInformationA, HookedGetAdaptersInfo.
  rewrite H. simpl.
  destruct (gv cv), (ga ca) as [r out].
  destruct (lpVolumeSerialNumber cv), (AdapterInfo ca), (AdapterInfo out);
    auto.
Qed.

(** X8.  Once RestoreOriginalValues has run on the controller the hooks
    refer to, the two hooked queries hand on exactly what the real queries
    return, for every call and in every environment, whether or not the
    redirections could be detached: interceptions left in place after a
    failed removal are pure pass-throughs for as long as that controller
    lives. *)
Theorem hooks_transparent_after_restore :
  forall (w w' : World) (s : WindowsSpoofer) (h : HookState)
         (gv : GetVolumeInformationAFunc) (ga : GetAdaptersInfoFunc)
         (cv : VolumeCall) (ca : AdaptersCall),
    HookedGetVolumeInformationA
      gv (Some (snd (fst (RestoreOriginalValues w s h)))) w' cv = gv cv
    /\ HookedGetAdaptersInfo
         ga (Some (snd (fst (RestoreOriginalValues w s h)))) w' ca = ga ca.
Proof.
  intros w w' s h gv ga cv ca.
  apply hooks_pass_through_when_inactive.
  destruct (RestoreOriginalValues w s h) as [[r s1] h1] eqn:E. simpl.
  apply RestoreOriginalValues_fields in E.
  destruct E as (_ & _ & Hi & _ & Hc).
  unfold IsSpoofingActive. rewrite Hi.
  destruct (m_initialized s) eqn:Hs; [|reflexivity].
  now rewrite (Hc eq_refl).
Qed.

(** X9.  The adapter hook never touches a failed enumeration: when the
    real query returns anything but NO_ERROR, or when the caller passed a
    null buffer, the hook returns the real result code and the real
    memory, whatever the spoof state. *)
Theorem HookedGetAdaptersInfo_keeps_failures :
  forall (g_original : GetAdaptersInfoFunc) (instance : option WindowsSpoofer)
         (w : World) (c : AdaptersCall),
    fst (g_original c) <> NO_ERROR \/ AdapterInfo c = None ->
    HookedGetAdaptersInfo g_original instance w c = g_original c.
Proof.
  intros g instance w c H. unfold HookedGetAdaptersInfo.
  destruct (g c) as [result out]. simpl in H.
  destruct instance as [sp|]; [|reflexivity].
  destruct (AdapterInfo c); [|reflexivity].
  destruct (AdapterInfo out); [|reflexivity].
  destruct H as [H|H]; [|discriminate].
  apply Z.eqb_neq in H. now rewrite H, andb_false_r.
Qed.

Lemma HookedGetAdaptersInfo_keeps_failures_witness :
  HookedGetAdaptersInfo
    Scenario.failing_adapters
    (Some (spoofer (Sample.applied 1 (Sample.with_mac "AABBCCDDEEFF"))))
    Sample.world
    (mkAdaptersCall (Some [Sample.adapter]) 640)
  = (111, mkAdaptersCall (Some [Sample.adapter]) 640).
Proof.
  apply (HookedGetAdaptersInfo_keeps_failures
           Scenario.failing_adapters
           (Some (spoofer (Sample.applied 1 (Sample.with_mac "AABBCCDDEEFF"))))
           Sample.world (mkAdaptersCall (Some [Sample.adapter]) 640)).
  left. vm_compute. discriminate.
Defined.

Lemma nth_store_byte_other (l : list BYTE) :
  forall i k b, k <> i -> nth k (store_byte i b l) 0 = nth k l 0.
Proof.
  induction l as [|x r IH]; intros i k b H; [destruct i; reflexivity|].
  destruct i as [|i], k as [|k]; simpl; try reflexivity; try congruence.
  apply IH. congruence.
Qed.

Lemma store_byte_valid (l : list BYTE) :
  forall i v, valid_bytes l = true ->
              valid_bytes (store_byte i (to_BYTE v) l) = true.
Proof.
  unfold valid_bytes, to_BYTE.
  induction l as [|x r IH]; intros i v H; [destruct i; reflexivity|].
  simpl in H. apply andb_true_iff in H. destruct H as [Hx Hr].
  destruct i as [|i]; simpl.
  - rewrite Hr, andb_true_r.
    pose proof (Z.mod_pos_bound v 256 ltac:(lia)).
    apply andb_true_iff. split; [apply Z.leb_le|apply Z.leb_le]; lia.
  - rewrite Hx. simpl. now apply IH.
Qed.

(** The byte loop leaves alone every byte in front of its entry index,
    every byte from index [i + n] on, and every byte at or beyond the
    reported address length. *)
Lemma spoof_address_frame (mac : string) :
  forall n i a k,
    (k < i)%nat \/ (i + n <= k)%nat \/ AddressLength a <= Z.of_nat k ->
    nth k (Address (spoof_address n i mac a)) 0 = nth k (Address a) 0.
Proof.
  induction n as [|n IH]; intros i a k H; simpl; [reflexivity|].
  destruct ((Z.of_nat i <? 6) && (Z.of_nat i <? AddressLength a)) eqn:T;
    [|reflexivity].
  destruct (Cxx.stoul _ 16) as [v| |]; try reflexivity.
  reflect_tests.
  rewrite IH by (simpl; lia). simpl.
  apply nth_store_byte_other. lia.
Qed.

Lemma spoof_address_valid (mac : string) :
  forall n i a,
    valid_bytes (Address a) = true ->
    valid_bytes (Address (spoof_address n i mac a)) = true.
Proof.
  induction n as [|n IH]; intros i a H; simpl; [exact H|].
  destruct (_ && _); [|exact H].
  destruct (Cxx.stoul _ 16) as [v| |]; try exact H.
  apply IH. simpl. now apply store_byte_valid.
Qed.

Lemma same_shape_refl (a : IP_ADAPTER_INFO) : same_shape a a.
Proof. repeat split; auto. Qed.

Lemma same_shape_spoof_address (mac : string) (a : IP_ADAPTER_INFO) :
  same_shape a (spoof_address 6 0 mac a).
Proof.
  repeat split.
  - apply spoof_address_AddressLength.
  - apply spoof_address_buffer.
  - intros k H. apply spoof_address_frame. lia.
  - apply spoof_address_valid.
Qed.

Lemma same_shape_spoof_adapters (mac : string) (chain : list IP_ADAPTER_INFO) :
  Forall2 same_shape chain (spoof_adapters mac chain).
Proof.
  induction chain as [|a r IH]; simpl; constructor; [|exact IH].
  destruct (12 <=? Cxx.length mac);
    [apply same_shape_spoof_address|apply same_shape_refl].
Qed.

(** X10.  Whatever the spoof string holds, the adapter hook keeps the
    shape of what the real query returned: the same result code and size,
    a chain of the same length whose records keep their address length and
    buffer size; no byte at index 6 or above, and no byte at or beyond a
    record's reported address length, is ever written; and buffers holding
    bytes before still hold bytes after. *)
Theorem HookedGetAdaptersInfo_shape :
  forall (g_original : GetAdaptersInfoFunc) (instance : option WindowsSpoofer)
         (w : World) (c : AdaptersCall) (chain : list IP_ADAPTER_INFO),
    AdapterInfo (snd (g_original c)) = Some chain ->
    fst (HookedGetAdaptersInfo g_original instance w c) = fst (g_original c)
    /\ SizePointer (snd (HookedGetAdaptersInfo g_original instance w c))
       = SizePointer (snd (g_original c))
    /\ exists chain',
        AdapterInfo (snd (HookedGetAdaptersInfo g_original instance w c))
        = Some chain'
        /\ List.length chain' = List.length chain
        /\ Forall2 same_shape chain chain'.
Proof.
  intros g instance w c chain Hc.
  split; [apply HookedGetAdaptersInfo_result|].
  assert (Hrefl : Forall2 same_shape chain chain).
  { clear. induction chain; constructor; auto using same_shape_refl. }
  unfold HookedGetAdaptersInfo.
  destruct (g c) as [result out]. simpl in Hc.
  destruct instance as [sp|]; [|simpl; eauto].
  destruct (AdapterInfo c); [|simpl; eauto].
  rewrite Hc.
  destruct (_ && _); [|simpl; eauto].
  destruct (negb _); [|simpl; eauto].
  simpl. split; [reflexivity|].
  exists (spoof_adapters (macAddress (GetCurrentSpoofedValues sp)) chain).
  split; [reflexivity|]. split.
  - symmetry. eapply Forall2_length. apply same_shape_spoof_adapters.
  - apply same_shape_spoof_adapters.
Qed.

Lemma HookedGetAdaptersInfo_shape_witness :
  exists chain',
    AdapterInfo
      (snd (HookedGetAdaptersInfo
              Sample.real_adapters
              (Some (spoofer (Sample.applied 1 (Sample.with_mac "AABBCCDDEEFF"))))
              Sample.world Sample.adapters_call))
    = Some chain'
    /\ List.length chain' = 2%nat.
Proof.
  destruct (HookedGetAdaptersInfo_shape
              Sample.real_adapters
              (Some (spoofer (Sample.applied 1 (Sample.with_mac "AABBCCDDEEFF"))))
              Sample.world Sample.adapters_call
              [Sample.adapter; Sample.short_adapter] eq_refl)
    as (_ & _ & chain' & H & Hlen & _).
  exists chain'. split; [exact H|exact Hlen].
Defined.

(** ** Hexadecimal text, printed and read back *)

Lemma hex_digit_reads_back (upper : bool) (d : Z) :
  0 <= d < 16 ->
  Cxx.digit_in 16 (Cxx.hex_digit upper d) = Some d
  /\ (upper = true -> is_upper_hex (Cxx.hex_digit upper d) = true).
Proof.
  intros Hd.
  assert (H : forallb
                (fun n =>
                   match Cxx.digit_in 16 (Cxx.hex_digit upper (Z.of_nat n)) with
                   | Some d' => d' =? Z.of_nat n
                   | None => false
                   end
                   && (negb upper
                       || is_upper_hex (Cxx.hex_digit upper (Z.of_nat n))))
                (seq 0 16) = true)
    by (destruct upper; vm_compute; reflexivity).
  rewrite forallb_forall in H.
  specialize (H (Z.to_nat d)). rewrite Z2Nat.id in H by lia.
  specialize (H ltac:(apply in_seq; lia)).
  apply andb_true_iff in H. destruct H as [H1 H2].
  destruct (Cxx.digit_in 16 (Cxx.hex_digit upper d)) as [d'|];
    [|discriminate].
  apply Z.eqb_eq in H1. subst d'. split; [reflexivity|].
  intros ->. exact H2.
Qed.

Lemma all_hex_digits_app (a b : string) :
  all_hex_digits (a ++ b) = all_hex_digits a && all_hex_digits b.
Proof.
  induction a as [|c r IH]; simpl; [reflexivity|].
  destruct (Cxx.digit_in 16 c); [exact IH|reflexivity].
Qed.

Lemma all_upper_hex_app (a b : string) :
  all_upper_hex (a ++ b) = all_upper_hex a && all_upper_hex b.
Proof.
  induction a as [|c r IH]; simpl; [reflexivity|].
  now rewrite IH, andb_assoc.
Qed.

Lemma base16_value_app (a b : string) :
  forall acc,
    all_hex_digits a = true ->
    base16_value (a ++ b) acc = base16_value b (base16_value a acc).
Proof.
  induction a as [|c r IH]; intros acc H; simpl in *; [reflexivity|].
  destruct (Cxx.digit_in 16 c); [|discriminate]. now apply IH.
Qed.

Lemma append_cons_assoc (a : string) (c : ascii) (b : string) :
  ((a ++ String c EmptyString) ++ b)%string = (a ++ String c b)%string.
Proof.
  induction a as [|x r IH]; simpl; [reflexivity|]. now rewrite IH.
Qed.

Lemma string_length_app (a b : string) :
  String.length (a ++ b) = (String.length a + String.length b)%nat.
Proof.
  induction a as [|x r IH]; simpl; [reflexivity|]. now rewrite IH.
Qed.

(** What [hex_digits] prepends to the accumulator: the digits of [v],
    most significant first, at least one and at most [fuel]. *)
Lemma hex_digits_text (upper : bool) :
  forall fuel v acc,
    (1 <= fuel)%nat -> 0 <= v < 16 ^ Z.of_nat fuel ->
    exists text,
      Cxx.hex_digits fuel upper v acc = (text ++ acc)%string
      /\ all_hex_digits text = true
      /\ (upper = true -> all_upper_hex text = true)
      /\ (1 <= String.length text <= fuel)%nat
      /\ base16_value text 0 = v.
Proof.
  induction fuel as [|fuel IH]; intros v acc Hf Hv; [lia|].
  cbn [Cxx.hex_digits].
  assert (Hm : 0 <= v mod 16 < 16) by (apply Z.mod_pos_bound; lia).
  destruct (hex_digit_reads_back upper (v mod 16) Hm) as [Hd Hu].
  destruct (v / 16 =? 0) eqn:E.
  - apply Z.eqb_eq in E.
    exists (String (Cxx.hex_digit upper (v mod 16)) EmptyString).
    simpl. rewrite Hd. repeat split; try lia.
    + intros Hup. now rewrite (Hu Hup).
    + pose proof (Z.div_mod v 16 ltac:(lia)). lia.
  - apply Z.eqb_neq in E.
    assert (Hq : 0 < v / 16).
    { pose proof (Z.div_pos v 16 ltac:(lia) ltac:(lia)). lia. }
    assert (Hfuel : (1 <= fuel)%nat).
    { destruct fuel; [|lia]. simpl in Hv.
      assert (v / 16 = 0) by (apply Z.div_small; lia). lia. }
    assert (Hbound : 0 <= v / 16 < 16 ^ Z.of_nat fuel).
    { split; [lia|].
      apply Z.div_lt_upper_bound; [lia|].
      rewrite Nat2Z.inj_succ, Z.pow_succ_r in Hv by lia. lia. }
    destruct (IH (v / 16)
                 (String (Cxx.hex_digit upper (v mod 16)) acc) Hfuel Hbound)
      as (text & Ht & Hall & Hup & Hlen & Hval).
    exists (text ++ String (Cxx.hex_digit upper (v mod 16)) EmptyString)%string.
    rewrite append_cons_assoc. split; [exact Ht|].
    rewrite all_hex_digits_app, all_upper_hex_app, string_length_app,
      base16_value_app by exact Hall.
    simpl. rewrite Hall, Hd, Hval. repeat split; try lia.
    + intros U. now rewrite (Hup U), (Hu U).
    + pose proof (Z.div_mod v 16 ltac:(lia)). lia.
Qed.

Lemma append_empty (a : string) : (a ++ EmptyString)%string = a.
Proof. induction a as [|x r IH]; simpl; [reflexivity|]. now rewrite IH. Qed.

Lemma put_hex_text (upper : bool) (v : Z) :
  all_hex_digits (Cxx.put_hex upper v) = true
  /\ (upper = true -> all_upper_hex (Cxx.put_hex upper v) = true)
  /\ (1 <= String.length (Cxx.put_hex upper v) <= 8)%nat
  /\ base16_value (Cxx.put_hex upper v) 0 = v mod 2 ^ 32.
Proof.
  unfold Cxx.put_hex.
  assert (Hv : 0 <= v mod 2 ^ 32 < 16 ^ Z.of_nat 8).
  { change (16 ^ Z.of_nat 8) with (2 ^ 32). apply Z.mod_pos_bound. lia. }
  destruct (hex_digits_text upper 8 (v mod 2 ^ 32) EmptyString
                            ltac:(lia) Hv)
    as (text & Ht & Hall & Hup & Hlen & Hval).
  rewrite Ht, append_empty. auto.
Qed.

(** X11.  Printing a 32-bit value with [std::hex] and reading the text
    back with [std::stoul(..., 16)] gives the value again, in either
    letter case.  Hence the volume serial captured as an original value
    (or its fallback ["00000000"]) converts without error when it is used
    as a spoof value, and to the very serial the volume query returned. *)
Theorem stoul_put_hex :
  forall (upper : bool) (v : Z),
    0 <= v <= ULONG_MAX ->
    Cxx.stoul (Cxx.put_hex upper v) 16 = Cxx.Converted v
    /\ forall w,
        Cxx.stoul (GetCurrentVolumeSerial w) 16
        = Cxx.Converted (match GetVolumeInformationA_C w with
                         | Some serial => serial mod 2 ^ 32
                         | None => 0
                         end).
Proof.
  intros upper v Hv.
  assert (Hany : forall u x,
             Cxx.stoul (Cxx.put_hex u x) 16 = Cxx.Converted (x mod 2 ^ 32)).
  { intros u x.
    destruct (put_hex_text u x) as (Hall & _ & Hlen & Hval).
    rewrite stoul_valid_hex; [now rewrite Hval| |lia].
    unfold valid_hex. rewrite Hall, andb_true_r.
    destruct (Cxx.put_hex u x); [simpl in Hlen; lia|reflexivity]. }
  split.
  - rewrite Hany. f_equal. apply Z.mod_small. unfold ULONG_MAX in Hv. lia.
  - intros w. unfold GetCurrentVolumeSerial.
    destruct (GetVolumeInformationA_C w); [apply Hany|reflexivity].
Qed.

Lemma stoul_put_hex_witness :
  Cxx.stoul (Cxx.put_hex true 3405691582) 16 = Cxx.Converted 3405691582
  /\ Cxx.stoul (GetCurrentVolumeSerial Sample.world) 16
     = Cxx.Converted 3405691582.
Proof.
  destruct (stoul_put_hex true 3405691582 ltac:(vm_compute; split; discriminate))
    as [H1 H2].
  split; [exact H1|exact (H2 Sample.world)].
Defined.

(** ** The textual form of the captured and generated identifiers *)

(** X12.  The Original set always has well-formed entries.  Its macAddress
    has the form [XX:XX:XX:XX:XX:XX] in upper-case hex, be it the fallback
    or the rendering of the first adapter (whose buffer holds at least six
    bytes).  Its volumeSerial consists of upper-case hex digits only,
    between one and eight of them: a real serial is printed without
    leading zeros, so unlike the fallback ["00000000"] and the generated
    serials it is not of fixed width. *)
Theorem GetOriginalIdentifiers_format
        (w : World)
        (Hbuffer : (6 <= List.length (Address (probe_first (GetAdaptersInfo_probe w))))%nat)
        (Hbytes : valid_bytes (Address (probe_first (GetAdaptersInfo_probe w))) = true) :
  mac_format (Original.macAddress (GetOriginalIdentifiers w)) = true
  /\ all_upper_hex (Original.volumeSerial (GetOriginalIdentifiers w)) = true
  /\ (1 <= String.length (Original.volumeSerial (GetOriginalIdentifiers w)) <= 8)%nat
  /\ (forall serial,
         GetVolumeInformationA_C w = Some serial ->
         base16_value (Original.volumeSerial (GetOriginalIdentifiers w)) 0
         = serial mod 2 ^ 32).
Proof.
  simpl. split; [|].
  - unfold GetCurrentMacAddress.
    destruct (_ && _); [|reflexivity].
    destruct (Address (probe_first (GetAdaptersInfo_probe w)))
      as [|v0 [|v1 [|v2 [|v3 [|v4 [|v5 rest]]]]]]; simpl in Hbuffer; try lia.
    unfold valid_bytes in Hbytes. cbn [forallb] in Hbytes.
    reflect_tests.
    destruct (byte_text_shape v0 ltac:(lia)) as (a0 & b0 & E0 & A0 & B0).
    destruct (byte_text_shape v1 ltac:(lia)) as (a1 & b1 & E1 & A1 & B1).
    destruct (byte_text_shape v2 ltac:(lia)) as (a2 & b2 & E2 & A2 & B2).
    destruct (byte_text_shape v3 ltac:(lia)) as (a3 & b3 & E3 & A3 & B3).
    destruct (byte_text_shape v4 ltac:(lia)) as (a4 & b4 & E4 & A4 & B4).
    destruct (byte_text_shape v5 ltac:(lia)) as (a5 & b5 & E5 & A5 & B5).
    cbn [firstn mac_text].
    repeat (rewrite transform_toupper_app
            || rewrite E0 || rewrite E1 || rewrite E2
            || rewrite E3 || rewrite E4 || rewrite E5).
    cbn [Cxx.transform_toupper String.append].
    change (Cxx.toupper ":"%char) with ":"%char.
    cbn [mac_format forallb].
    rewrite A0, B0, A1, B1, A2, B2, A3, B3, A4, B4, A5, B5.
    reflexivity.
  - unfold GetCurrentVolumeSerial.
    destruct (GetVolumeInformationA_C w) as [serial|].
    + destruct (put_hex_text true serial) as (_ & Hup & Hlen & Hval).
      repeat split; try lia; [now apply Hup|].
      intros x [= <-]. exact Hval.
    + repeat split; simpl; try lia. discriminate.
Qed.

Lemma GetOriginalIdentifiers_format_witness :
  mac_format (Original.macAddress (GetOriginalIdentifiers Scenario.world_other_machine))
  = true
  /\ Original.volumeSerial (GetOriginalIdentifiers Scenario.world_other_machine)
     = "12345678".
Proof.
  destruct (GetOriginalIdentifiers_format
              Scenario.world_other_machine
              ltac:(vm_compute; lia) eq_refl) as (H & _).
  split; [exact H|reflexivity].
Defined.

Lemma is_upper_hex_digit (c : ascii) :
  is_upper_hex c = true -> exists d, Cxx.digit_in 16 c = Some d.
Proof.
  unfold is_upper_hex, Cxx.digit_in, Cxx.digit_value. cbv zeta.
  intros H. apply orb_true_iff in H.
  destruct ((48 <=? Cxx.code c) && (Cxx.code c <=? 57)) eqn:E1.
  - reflect_tests.
    replace (Cxx.code c - 48 <? 16) with true
      by (symmetry; apply Z.ltb_lt; lia).
    eauto.
  - destruct H as [H|H]; [discriminate|]. reflect_tests.
    replace ((97 <=? Cxx.code c) && (Cxx.code c <=? 122)) with false
      by (symmetry; apply andb_false_iff; left; apply Z.leb_gt; lia).
    replace ((65 <=? Cxx.code c) && (Cxx.code c <=? 90)) with true
      by (symmetry; apply andb_true_iff; split; apply Z.leb_le; lia).
    replace (Cxx.code c - 65 + 10 <? 16) with true
      by (symmetry; apply Z.ltb_lt; lia).
    eauto.
Qed.

(** X13.  A hardware address in the textual form [XX:XX:XX:XX:XX:XX],
    which is the form GenerateRandomMac produces and the Original set
    holds, does not spoof a whole address: the adapter hook reads
    characters 2 and 3 (a colon and a digit) for byte 1, which does not
    decode, so it overwrites byte 0 of each record with the first two hex
    digits and leaves every other byte at its real value. *)
Theorem colon_separated_mac_spoofs_one_byte
        (mac : string) (a : IP_ADAPTER_INFO)
        (Hmac : mac_format mac = true)
        (Hlen : 1 <= AddressLength a) :
  12 <= Cxx.length mac
  /\ 0 <= base16_value (Cxx.substr mac 0 2) 0 <= 255
  /\ spoof_adapters mac [a]
     = [store_Address 0 (base16_value (Cxx.substr mac 0 2) 0) a].
Proof.
  unfold mac_format in Hmac.
  destruct mac as [|a1 [|a2 [|c1 [|b1 [|b2 [|c2 [|d1 [|d2 [|c3
                  [|e1 [|e2 [|c4 [|f1 [|f2 [|c5 [|g1 [|g2 [|x r]]]]]]]]]]]]]]]]]];
    try discriminate.
  apply andb_true_iff in Hmac. destruct Hmac as [Hhex Hcolons].
  cbn [forallb] in Hhex, Hcolons.
  apply andb_true_iff in Hhex. destruct Hhex as [Ha1 Hhex].
  apply andb_true_iff in Hhex. destruct Hhex as [Ha2 _].
  apply andb_true_iff in Hcolons. destruct Hcolons as [Hc1 _].
  apply Ascii.eqb_eq in Hc1. subst c1.
  destruct (is_upper_hex_digit a1 Ha1) as [x1 D1].
  destruct (is_upper_hex_digit a2 Ha2) as [x2 D2].
  pose proof (digit_in_bounds 16 a1 x1 D1) as B1.
  pose proof (digit_in_bounds 16 a2 x2 D2) as B2.
  assert (Hsub : Cxx.substr (String a1 (String a2 (String ":" (String b1
                   (String b2 (String c2 (String d1 (String d2 (String c3
                   (String e1 (String e2 (String c4 (String f1 (String f2
                   (String c5 (String g1 (String g2 EmptyString)))))))))))))))))
                   0 2 = String a1 (String a2 EmptyString)) by reflexivity.
  rewrite Hsub.
  assert (Hval : base16_value (String a1 (String a2 EmptyString)) 0
                 = x1 * 16 + x2) by (simpl; now rewrite D1, D2).
  rewrite Hval.
  split; [vm_compute; discriminate|]. split; [lia|].
  cbn [spoof_adapters]. change (12 <=? Cxx.length _) with true. cbv iota.
  cbn [spoof_address].
  replace ((Z.of_nat 0 <? 6) && (Z.of_nat 0 <? AddressLength a)) with true
    by (symmetry; apply andb_true_iff; split; apply Z.ltb_lt; simpl; lia).
  change (Cxx.substr _ (0 * 2) 2) with (String a1 (String a2 EmptyString)).
  rewrite (stoul_valid_hex (String a1 (String a2 EmptyString)));
    [|unfold valid_hex; simpl; now rewrite D1, D2|simpl; lia].
  rewrite Hval.
  replace (to_BYTE (x1 * 16 + x2)) with (x1 * 16 + x2)
    by (unfold to_BYTE; symmetry; apply Z.mod_small; lia).
  cbn [AddressLength store_Address].
  destruct ((Z.of_nat 1 <? 6) && (Z.of_nat 1 <? AddressLength a));
    reflexivity.
Qed.

Lemma colon_separated_mac_spoofs_one_byte_witness :
  spoof_adapters (macAddress (fst (GenerateRandomIdentifiers Z Sample.draw 5)))
                 [Sample.adapter]
  = [mkAdapter 6 [45; 26; 43; 60; 77; 94; 0; 0]].
Proof.
  destruct (colon_separated_mac_spoofs_one_byte
              (macAddress (fst (GenerateRandomIdentifiers Z Sample.draw 5)))
              Sample.adapter eq_refl ltac:(vm_compute; discriminate))
    as (_ & _ & H).
  rewrite H. reflexivity.
Defined.

(** ** From apply to the intercepted queries *)

Lemma ApplySpoofing_success_active (w w' : World) (this : ObjId)
      (identifiers : SpoofedIdentifiers) (s s' : WindowsSpoofer)
      (h h' : HookState) :
  ApplySpoofing w this identifiers s h = (true, s', h') ->
  IsProcessAlive w' (m_targetProcessId s) = true ->
  IsSpoofingActive w' s' = true
  /\ volumeSerial (m_currentSpoofed s') = volumeSerial identifiers
  /\ macAddress (m_currentSpoofed s') = macAddress identifiers.
Proof.
  intros Ha Hl. apply ApplySpoofing_cases in Ha.
  destruct Ha as [(_ & Hr & _) | (_ & Hi & Ht & _ & Hc & _)];
    [discriminate|].
  unfold IsSpoofingActive. rewrite Hi, Hc, Ht, Hl. auto.
Qed.

(** X14.  After a successful ApplySpoofing with a volumeSerial of one to
    eight hex digits, and as long as the target process is alive, every
    intercepted volume-information query that passes a serial
    out-parameter reports the number those digits denote; the result code
    and all other out-parameters are those of the real query. *)
Theorem applied_volume_serial_is_reported
        (w w' : World) (this : ObjId) (identifiers : SpoofedIdentifiers)
        (s s' : WindowsSpoofer) (h h' : HookState)
        (g_original : GetVolumeInformationAFunc) (c : VolumeCall) (p : DWORD)
        (Happly : ApplySpoofing w this identifiers s h = (true, s', h'))
        (Hhex : valid_hex (volumeSerial identifiers) = true)
        (Hlen : (String.length (volumeSerial identifiers) <= 8)%nat)
        (Halive : IsProcessAlive w' (m_targetProcessId s) = true)
        (Hptr : lpVolumeSerialNumber c = Some p) :
  HookedGetVolumeInformationA g_original (Some s') w' c
  = (fst (g_original c),
     store_VolumeSerialNumber (base16_value (volumeSerial identifiers) 0)
                              (snd (g_original c))).
Proof.
  destruct (ApplySpoofing_success_active w w' this identifiers s s' h h'
                                         Happly Halive) as (Hact & Hv & _).
  unfold HookedGetVolumeInformationA, GetCurrentSpoofedValues.
  destruct (g_original c) as [result out].
  rewrite Hptr, Hact, Hv.
  assert (Hne : Cxx.empty (volumeSerial identifiers) = false).
  { unfold valid_hex in Hhex. apply andb_true_iff in Hhex.
    destruct Hhex as [Hne _]. now apply negb_true_iff in Hne. }
  rewrite Hne. simpl negb. cbv iota.
  pose proof (stoul_valid_hex _ Hhex Hlen) as Hs. rewrite Hs.
  now rewrite (to_DWORD_stoul _ _ Hs).
Qed.

Lemma applied_volume_serial_is_reported_witness :
  HookedGetVolumeInformationA
    Sample.real_volume
    (Some (spoofer (Sample.applied 1 (Sample.with_volume "DEADBEEF"))))
    Sample.world Sample.volume_call
  = (true, store_VolumeSerialNumber 3735928559 Sample.volume_call).
Proof.
  apply (applied_volume_serial_is_reported
           Sample.world Sample.world 7%nat (Sample.with_volume "DEADBEEF")
           (snd (InitializeForProcess Sample.world 1 WindowsSpoofer_new))
           (spoofer (Sample.applied 1 (Sample.with_volume "DEADBEEF")))
           HookState_init
           (hooked (Sample.applied 1 (Sample.with_volume "DEADBEEF")))
           Sample.real_volume Sample.volume_call 0
           eq_refl eq_refl ltac:(vm_compute; lia) eq_refl eq_refl).
Defined.

Lemma two_digits_decode (c d : ascii) (x y : Z) :
  Cxx.digit_in 16 c = Some x -> Cxx.digit_in 16 d = Some y ->
  Cxx.stoul (String c (String d EmptyString)) 16 = Cxx.Converted (x * 16 + y)
  /\ 0 <= x * 16 + y <= 255.
Proof.
  intros Hc Hd.
  rewrite stoul_valid_hex;
    [|unfold valid_hex; simpl; now rewrite Hc, Hd|simpl; lia].
  simpl. rewrite Hc, Hd. split; [reflexivity|].
  apply digit_in_bounds in Hc, Hd. lia.
Qed.

(** X15.  A macAddress made of exactly twelve hex digits and nothing else
    spoofs a whole address: for every record with an address length of at
    least 6 (and the 8-byte buffer of the structure), byte [i] of the
    address, for i from 0 to 5, becomes the number denoted by the two
    digits at positions [2i] and [2i+1]. *)
Theorem twelve_hex_digits_spoof_six_bytes
        (mac : string) (a : IP_ADAPTER_INFO)
        (Hdigits : all_hex_digits mac = true)
        (Htwelve : String.length mac = 12%nat)
        (Hbuffer : List.length (Address a) = 8%nat)
        (Hlen : 6 <= AddressLength a) :
  spoof_adapters mac [a] = [spoof_address 6 0 mac a]
  /\ forall i,
      (i < 6)%nat ->
      nth i (Address (spoof_address 6 0 mac a)) 0
      = base16_value (Cxx.substr mac (2 * i) 2) 0
      /\ 0 <= base16_value (Cxx.substr mac (2 * i) 2) 0 <= 255.
Proof.
  destruct mac as [|c0 [|c1 [|c2 [|c3 [|c4 [|c5 [|c6 [|c7 [|c8 [|c9
                  [|c10 [|c11 [|x r]]]]]]]]]]]]]; try discriminate.
  cbn [all_hex_digits] in Hdigits.
  destruct (Cxx.digit_in 16 c0) as [x0|] eqn:D0; [|discriminate].
  destruct (Cxx.digit_in 16 c1) as [x1|] eqn:D1; [|discriminate].
  destruct (Cxx.digit_in 16 c2) as [x2|] eqn:D2; [|discriminate].
  destruct (Cxx.digit_in 16 c3) as [x3|] eqn:D3; [|discriminate].
  destruct (Cxx.digit_in 16 c4) as [x4|] eqn:D4; [|discriminate].
  destruct (Cxx.digit_in 16 c5) as [x5|] eqn:D5; [|discriminate].
  destruct (Cxx.digit_in 16 c6) as [x6|] eqn:D6; [|discriminate].
  destruct (Cxx.digit_in 16 c7) as [x7|] eqn:D7; [|discriminate].
  destruct (Cxx.digit_in 16 c8) as [x8|] eqn:D8; [|discriminate].
  destruct (Cxx.digit_in 16 c9) as [x9|] eqn:D9; [|discriminate].
  destruct (Cxx.digit_in 16 c10) as [x10|] eqn:D10; [|discriminate].
  destruct (Cxx.digit_in 16 c11) as [x11|] eqn:D11; [|discriminate].
  split; [reflexivity|].
  intros i Hi. rewrite spoof_address_expected by exact Hbuffer.
  unfold expected_byte.
  replace (Z.of_nat i <? Z.min 6 (AddressLength a)) with true
    by (symmetry; apply Z.ltb_lt; lia).
  destruct (two_digits_decode c0 c1 x0 x1 D0 D1) as [E0 B0].
  destruct (two_digits_decode c2 c3 x2 x3 D2 D3) as [E1 B1].
  destruct (two_digits_decode c4 c5 x4 x5 D4 D5) as [E2 B2].
  destruct (two_digits_decode c6 c7 x6 x7 D6 D7) as [E3 B3].
  destruct (two_digits_decode c8 c9 x8 x9 D8 D9) as [E4 B4].
  destruct (two_digits_decode c10 c11 x10 x11 D10 D11) as [E5 B5].
  unfold decodes, decoded, decode_byte, to_BYTE.
  do 6 (destruct i as [|i];
        [cbn [seq forallb Nat.mul Nat.add Cxx.substr String.substring
                  base16_value];
         rewrite ?E0, ?E1, ?E2, ?E3, ?E4, ?E5,
           ?D0, ?D1, ?D2, ?D3, ?D4, ?D5, ?D6, ?D7, ?D8, ?D9, ?D10, ?D11;
         cbn [andb];
         split; [rewrite Z.mod_small by lia; lia|lia]|]).
  lia.
Qed.

Lemma twelve_hex_digits_spoof_six_bytes_witness :
  nth 3 (Address (spoof_address 6 0 "00a1b2C3d4E5" Sample.adapter)) 0 = 195.
Proof.
  destruct (twelve_hex_digits_spoof_six_bytes
              "00a1b2C3d4E5" Sample.adapter eq_refl eq_refl eq_refl
              ltac:(vm_compute; discriminate)) as [_ H].
  destruct (H 3%nat ltac:(lia)) as [-> _]. reflexivity.
Defined.

(** ** The exported methods, one after another *)

Lemma nan_Cleanup_destroys (w : World) (p : Process) :
  fst (nan_Cleanup w p) = Return (JsBoolean true)
  /\ g_spoofer (snd (nan_Cleanup w p)) = None.
Proof.
  unfold nan_Cleanup. destruct (g_spoofer p) as [[this s]|] eqn:E.
  - destruct (Cleanup w s (hooks p)) as [s1 h1]. unfold reset. simpl.
    destruct (Cleanup w s1 h1). auto.
  - auto.
Qed.

(** X16.  After cleanup, in whatever state it was called, the add-on is
    back where it started as far as the host can tell: getSpoofingStatus
    reports [{active: false}] without identifiers, canSafeMacSpoof returns
    false, applySpoofing and restoreOriginalIdentifiers throw "Spoofer not
    initialized", and a further cleanup returns true; none of these calls
    changes anything, in any environment. *)
Theorem after_cleanup :
  forall (w w' : World) (p : Process) (info : list JsValue),
    nan_GetSpoofingStatus w' (snd (nan_Cleanup w p))
    = (Return (JsObject [("active", JsBoolean false)]), snd (nan_Cleanup w p))
    /\ nan_CanSafeMacSpoof (snd (nan_Cleanup w p))
       = (Return (JsBoolean false), snd (nan_Cleanup w p))
    /\ nan_ApplySpoofing w' info (snd (nan_Cleanup w p))
       = (Throw Error "Spoofer not initialized", snd (nan_Cleanup w p))
    /\ nan_RestoreOriginalIdentifiers w' (snd (nan_Cleanup w p))
       = (Throw Error "Spoofer not initialized", snd (nan_Cleanup w p))
    /\ nan_Cleanup w' (snd (nan_Cleanup w p))
       = (Return (JsBoolean true), snd (nan_Cleanup w p)).
Proof.
  intros w w' p info.
  destruct (nan_Cleanup_destroys w p) as [_ H].
  set (p' := snd (nan_Cleanup w p)) in *.
  unfold nan_GetSpoofingStatus, nan_CanSafeMacSpoof, nan_ApplySpoofing,
    nan_RestoreOriginalIdentifiers, nan_Cleanup.
  rewrite H. repeat split.
Qed.

(** X17.  initializeForProcess never makes the status active by itself:
    if no controller exists yet, or the existing one holds no active
    spoof, then after initializeForProcess(pid), for any pid and in any
    environment, getSpoofingStatus reports [{active: false}]. *)
Theorem status_after_initialize
        (w w' : World) (n : Z) (rest : list JsValue) (p : Process)
        (Hidle : match g_spoofer p with
                 | Some (_, s) => active (m_currentSpoofed s) = false
                 | None => True
                 end) :
  fst (nan_InitializeForProcess w (JsNumber n :: rest) p)
  = Return (JsBoolean true)
  /\ fst (nan_GetSpoofingStatus
            w' (snd (nan_InitializeForProcess w (JsNumber n :: rest) p)))
     = Return (JsObject [("active", JsBoolean false)]).
Proof.
  unfold nan_InitializeForProcess, ensure_spoofer.
  destruct (g_spoofer p) as [[this s]|].
  - assert (Hc : m_currentSpoofed
                   (snd (InitializeForProcess w (ToUint32 (JsNumber n)) s))
                 = m_currentSpoofed s)
      by (unfold InitializeForProcess; destruct (_ && _); reflexivity).
    assert (Hr : fst (InitializeForProcess w (ToUint32 (JsNumber n)) s) = true)
      by (unfold InitializeForProcess; destruct (_ && _); reflexivity).
    destruct (InitializeForProcess w (ToUint32 (JsNumber n)) s) as [r s1].
    simpl in *. subst r. split; [reflexivity|].
    unfold nan_GetSpoofingStatus, IsSpoofingActive. simpl.
    now rewrite Hc, Hidle, andb_false_r.
  - simpl. split; reflexivity.
Qed.

Lemma status_after_initialize_witness :
  fst (nan_GetSpoofingStatus
         Sample.world
         (snd (nan_InitializeForProcess Sample.world [JsNumber 4242]
                                        Process_start)))
  = Return (JsObject [("active", JsBoolean false)]).
Proof.
  apply (status_after_initialize Sample.world Sample.world 4242 []
                                 Process_start I).
Defined.

Lemma is_upper_hex_not_nul (c : ascii) :
  is_upper_hex c = true -> Ascii.eqb c Ascii.zero = false.
Proof.
  destruct c as [[] [] [] [] [] [] [] []]; vm_compute; congruence.
Qed.

Lemma c_str_no_nul (s : string) : no_nul s = true -> c_str s = s.
Proof.
  induction s as [|c r IH]; simpl; [reflexivity|].
  intros H. apply andb_true_iff in H. destruct H as [Hc Hr].
  apply negb_true_iff in Hc. rewrite Hc, (IH Hr). reflexivity.
Qed.

Lemma all_upper_hex_no_nul (s : string) :
  all_upper_hex s = true -> no_nul s = true.
Proof.
  induction s as [|c r IH]; simpl; [reflexivity|].
  intros H. apply andb_true_iff in H. destruct H as [Hc Hr].
  now rewrite (is_upper_hex_not_nul c Hc), (IH Hr).
Qed.

Lemma mac_format_no_nul (s : string) :
  mac_format s = true -> no_nul s = true.
Proof.
  unfold mac_format.
  do 18 (destruct s as [|? s]; try discriminate).
  cbn [forallb]. intros H.
  repeat match goal with
         | H : _ && _ = true |- _ => apply andb_true_iff in H; destruct H
         | H : Ascii.eqb ":"%char _ = true |- _ =>
             apply Ascii.eqb_eq in H; subst
         | H : is_upper_hex _ = true |- _ =>
             apply is_upper_hex_not_nul in H
         end.
  cbn [no_nul].
  repeat match goal with
         | H : Ascii.eqb _ Ascii.zero = false |- _ => rewrite H; clear H
         end.
  reflexivity.
Qed.

(** The characters of a generated set: an address of the colon form and
    five strings of upper-case hex digits. *)
Lemma GenerateRandomIdentifiers_fields
      (Rng : Type) (dis : Z -> Z -> Rng -> Z * Rng)
      (dis_range : forall lo hi g, lo <= hi -> lo <= fst (dis lo hi g) <= hi)
      (g : Rng) :
  active (fst (GenerateRandomIdentifiers Rng dis g)) = false
  /\ processId (fst (GenerateRandomIdentifiers Rng dis g)) = 0
  /\ mac_format (macAddress (fst (GenerateRandomIdentifiers Rng dis g))) = true
  /\ all_upper_hex (diskSerial (fst (GenerateRandomIdentifiers Rng dis g)))
     = true
  /\ all_upper_hex (volumeSerial (fst (GenerateRandomIdentifiers Rng dis g)))
     = true
  /\ all_upper_hex (gpuId (fst (GenerateRandomIdentifiers Rng dis g))) = true
  /\ all_upper_hex (biosSerial (fst (GenerateRandomIdentifiers Rng dis g)))
     = true
  /\ all_upper_hex
       (motherboardSerial (fst (GenerateRandomIdentifiers Rng dis g))) = true.
Proof.
  unfold GenerateRandomIdentifiers.
  pose proof (GenerateRandomMac_format Rng dis dis_range g) as Hmac.
  destruct (GenerateRandomMac Rng dis g) as [mac g1].
  pose proof (GenerateRandomSerial_shape Rng dis dis_range 16 g1 ltac:(lia))
    as [_ Hdisk].
  destruct (GenerateRandomSerial Rng dis 16 g1) as [disk g2].
  pose proof (GenerateRandomSerial_shape Rng dis dis_range 8 g2 ltac:(lia))
    as [_ Hvolume].
  destruct (GenerateRandomSerial Rng dis 8 g2) as [volume g3].
  pose proof (GenerateRandomSerial_shape Rng dis dis_range 12 g3 ltac:(lia))
    as [_ Hgpu].
  destruct (GenerateRandomSerial Rng dis 12 g3) as [gpu g4].
  pose proof (GenerateRandomSerial_shape Rng dis dis_range 10 g4 ltac:(lia))
    as [_ Hbios].
  destruct (GenerateRandomSerial Rng dis 10 g4) as [bios g5].
  pose proof (GenerateRandomSerial_shape Rng dis dis_range 14 g5 ltac:(lia))
    as [_ Hmb].
  destruct (GenerateRandomSerial Rng dis 14 g5) as [mb g6].
  simpl in *. tauto.
Qed.

(** X18.  What generateRandomIdentifiers returns can be handed to
    applySpoofing as it is: whatever the draws (each in the range of its
    distribution), the method returns an object, and reading that object
    the way applySpoofing reads its argument yields the six generated
    strings unchanged, none of them cut short, with active = true. *)
Theorem identifiers_round_trip
        (Rng : Type) (dis : Z -> Z -> Rng -> Z * Rng)
        (dis_range : forall lo hi g, lo <= hi -> lo <= fst (dis lo hi g) <= hi)
        (p : Process) (g : Rng) :
  exists props,
    fst (fst (nan_GenerateRandomIdentifiers Rng dis p g))
    = Return (JsObject props)
    /\ identifiers_of_object props
       = set_active true (fst (GenerateRandomIdentifiers Rng dis g)).
Proof.
  unfold nan_GenerateRandomIdentifiers.
  destruct (ensure_spoofer p) as [[this s] p1].
  pose proof (GenerateRandomIdentifiers_fields Rng dis dis_range g)
    as (Ha & Hp & Hmac & Hdisk & Hvolume & Hgpu & Hbios & Hmb).
  destruct (GenerateRandomIdentifiers Rng dis g)
    as [[mac disk volume gpu bios mb act pid] g1].
  simpl in *. subst act pid.
  eexists. split; [reflexivity|].
  unfold identifiers_of_object, read_field, Utf8Value. simpl.
  rewrite (c_str_no_nul mac (mac_format_no_nul mac Hmac)).
  rewrite (c_str_no_nul disk (all_upper_hex_no_nul disk Hdisk)).
  rewrite (c_str_no_nul volume (all_upper_hex_no_nul volume Hvolume)).
  rewrite (c_str_no_nul gpu (all_upper_hex_no_nul gpu Hgpu)).
  rewrite (c_str_no_nul bios (all_upper_hex_no_nul bios Hbios)).
  rewrite (c_str_no_nul mb (all_upper_hex_no_nul mb Hmb)).
  reflexivity.
Qed.

Lemma identifiers_round_trip_witness :
  identifiers_of_object
    [("macAddress", JsString "2D:34:3B:42:49:50");
     ("diskSerial", JsString "E5C3A18F6D4B2907");
     ("volumeSerial", JsString "5C3A18F6");
     ("gpuId", JsString "4B2907E5C3A1");
     ("biosSerial", JsString "F6D4B2907E");
     ("motherboardSerial", JsString "C3A18F6D4B2907")]
  = set_active true (fst (GenerateRandomIdentifiers Z Sample.draw 5)).
Proof.
  destruct (identifiers_round_trip Z Sample.draw Sample_draw_range
                                   Process_start 5) as (props & Hobj & Hread).
  injection Hobj as <-. exact Hread.
Defined.

(** X19.  A call that ends by throwing has changed nothing: for each of
    the exported methods, on any arguments and in any state, if the call
    raises a JavaScript error then the add-on (controller, hook state,
    entropy) is exactly as before the call. *)
Theorem throwing_call_changes_nothing :
  forall (Rng : Type) (dis : Z -> Z -> Rng -> Z * Rng)
         (w : World) (m : Method) (info : list JsValue) (st st' : Process * Rng)
         (k : ErrorKind) (message : string),
    run_method Rng dis w m info st = (Throw k message, st') -> st' = st.
Proof.
  intros Rng dis w m info [p g] st' k message.
  destruct m; simpl.
  - unfold nan_InitializeForProcess.
    destruct info as [|[|b|n|text|props] rest];
      try (intros H; inversion H; reflexivity).
    destruct (ensure_spoofer p) as [[this s] p1].
    destruct (InitializeForProcess w (ToUint32 (JsNumber n)) s).
    discriminate.
  - unfold nan_ApplySpoofing.
    destruct (g_spoofer p) as [[this s]|]; [|intros H; inversion H; reflexivity].
    destruct info as [|[|b|n|text|props] rest];
      try (intros H; inversion H; reflexivity).
    destruct (ApplySpoofing w this (identifiers_of_object props) s (hooks p))
      as [[r s1] h1].
    discriminate.
  - unfold nan_GenerateRandomIdentifiers.
    destruct (ensure_spoofer p) as [[this s] p1].
    destruct (GenerateRandomIdentifiers Rng dis g). discriminate.
  - unfold nan_GetSpoofingStatus.
    destruct (g_spoofer p) as [[this s]|]; discriminate.
  - unfold nan_RestoreOriginalIdentifiers.
    destruct (g_spoofer p) as [[this s]|]; [|intros H; inversion H; reflexivity].
    destruct (RestoreOriginalValues w s (hooks p)) as [[r s1] h1].
    discriminate.
  - unfold nan_Cleanup.
    destruct (g_spoofer p) as [[this s]|]; [|discriminate].
    destruct (Cleanup w s (hooks p)). discriminate.
  - unfold nan_CanSafeMacSpoof.
    destruct (g_spoofer p); discriminate.
  - intros H. inversion H. reflexivity.
Qed.

Lemma throwing_call_changes_nothing_witness :
  snd (run_method Z Sample.draw Sample.world MApplySpoofing
                  [JsString "not an object"] (Sample.host_applied, 5))
  = (Sample.host_applied, 5).
Proof.
  apply (throwing_call_changes_nothing
           Z Sample.draw Sample.world MApplySpoofing
           [JsString "not an object"] (Sample.host_applied, 5)
           (snd (run_method Z Sample.draw Sample.world MApplySpoofing
                            [JsString "not an object"]
                            (Sample.host_applied, 5)))
           TypeError "Identifiers object required" eq_refl).
Defined.

(** Six string fields, read and handed back. *)
Lemma object_of_identifiers_of_object (props : list (string * JsValue)) :
  forallb (string_or_absent props) identifier_keys = true ->
  object_of_identifiers (identifiers_of_object props)
  = JsObject
      [("macAddress", JsString (field_text props "macAddress"));
       ("diskSerial", JsString (field_text props "diskSerial"));
       ("volumeSerial", JsString (field_text props "volumeSerial"));
       ("gpuId", JsString (field_text props "gpuId"));
       ("biosSerial", JsString (field_text props "biosSerial"));
       ("motherboardSerial",
        JsString (field_text props "motherboardSerial"))].
Proof.
  unfold identifier_keys. cbn [forallb]. intros H.
  repeat match goal with
         | H : _ && _ = true |- _ => apply andb_true_iff in H; destruct H
         end.
  unfold string_or_absent in *.
  unfold identifiers_of_object, read_field, field_text, Utf8Value.
  destruct (Get props "macAddress") as [[| | |? |]|]; try discriminate;
    destruct (Get props "diskSerial") as [[| | |? |]|]; try discriminate;
    destruct (Get props "volumeSerial") as [[| | |? |]|]; try discriminate;
    destruct (Get props "gpuId") as [[| | |? |]|]; try discriminate;
    destruct (Get props "biosSerial") as [[| | |? |]|]; try discriminate;
    destruct (Get props "motherboardSerial") as [[| | |? |]|];
    try discriminate; reflexivity.
Qed.

(** X20.  While the target process is alive, the status after a
    successful applySpoofing echoes what was applied: for an argument
    whose identifier fields are JavaScript strings, getSpoofingStatus
    returns [active: true] together with all six keys, each with the
    string it was given up to that string's first NUL, a key that was
    missing coming back as the empty string. *)
Theorem status_after_apply
        (w w' : World) (p : Process) (this : ObjId) (s : WindowsSpoofer)
        (props : list (string * JsValue)) (rest : list JsValue)
        (Hctl : g_spoofer p = Some (this, s))
        (Hstr : forallb (string_or_absent props) identifier_keys = true)
        (Hok : fst (nan_ApplySpoofing w (JsObject props :: rest) p)
               = Return (JsBoolean true))
        (Halive : IsProcessAlive w' (m_targetProcessId s) = true) :
  nan_GetSpoofingStatus w' (snd (nan_ApplySpoofing w (JsObject props :: rest) p))
  = (Return
       (JsObject
          [("active", JsBoolean true);
           ("identifiers",
            JsObject
              [("macAddress", JsString (field_text props "macAddress"));
               ("diskSerial", JsString (field_text props "diskSerial"));
               ("volumeSerial", JsString (field_text props "volumeSerial"));
               ("gpuId", JsString (field_text props "gpuId"));
               ("biosSerial", JsString (field_text props "biosSerial"));
               ("motherboardSerial",
                JsString (field_text props "motherboardSerial"))])]),
     snd (nan_ApplySpoofing w (JsObject props :: rest) p)).
Proof.
  rewrite <- (object_of_identifiers_of_object props Hstr).
  unfold nan_ApplySpoofing in *. rewrite Hctl in *.
  destruct (ApplySpoofing w this (identifiers_of_object props) s (hooks p))
    as [[r s1] h1] eqn:E.
  simpl in Hok. injection Hok as ->.
  pose proof E as C. apply ApplySpoofing_cases in C.
  destruct C as [(_ & Hr & _) | (_ & Hi & Ht & _ & Hc & _)];
    [discriminate|].
  unfold nan_GetSpoofingStatus, IsSpoofingActive, GetCurrentSpoofedValues.
  simpl. rewrite Hi, Hc, Ht, Halive. reflexivity.
Qed.

Lemma status_after_apply_witness :
  fst (nan_GetSpoofingStatus
         Sample.world
         (snd (nan_ApplySpoofing
                 Sample.world [JsObject Scenario.cut_short]
                 (snd (nan_InitializeForProcess Sample.world [JsNumber 1]
                                                Process_start)))))
  = Return
      (JsObject
         [("active", JsBoolean true);
          ("identifiers",
           JsObject [("macAddress", JsString EmptyString);
                     ("diskSerial", JsString EmptyString);
                     ("volumeSerial", JsString "12");
                     ("gpuId", JsString "GPU-0");
                     ("biosSerial", JsString EmptyString);
                     ("motherboardSerial", JsString EmptyString)])]).
Proof.
  pose proof (status_after_apply
                Sample.world Sample.world
                (snd (nan_InitializeForProcess Sample.world [JsNumber 1]
                                               Process_start))
                0%nat
                (snd (InitializeForProcess Sample.world 1 WindowsSpoofer_new))
                Scenario.cut_short []
                eq_refl eq_refl eq_refl eq_refl) as H.
  rewrite H. reflexivity.
Defined.

(** X21.  GenerateRandomSerial honours any requested length: whatever
    the draws (each in the range of its distribution), a length n >= 0
    gives exactly n upper-case hex digits, and a zero or negative length
    gives the empty string. *)
Theorem GenerateRandomSerial_any_length
        (Rng : Type) (dis : Z -> Z -> Rng -> Z * Rng)
        (dis_range : forall lo hi g, lo <= hi -> lo <= fst (dis lo hi g) <= hi)
        (len : Z) (g : Rng) :
  Cxx.length (fst (GenerateRandomSerial Rng dis len g)) = Z.max 0 len
  /\ all_upper_hex (fst (GenerateRandomSerial Rng dis len g)) = true
  /\ (len <= 0 -> fst (GenerateRandomSerial Rng dis len g) = EmptyString).
Proof.
  unfold GenerateRandomSerial, Cxx.length.
  destruct (random_serial_loop_shape Rng dis dis_range (Z.to_nat len)
                                     (mt19937 Rng dis g))
    as [Hl Hu].
  rewrite Hl, Hu. repeat split; [lia|].
  intros Hneg. replace (Z.to_nat len) with 0%nat by lia. reflexivity.
Qed.

Lemma GenerateRandomSerial_any_length_witness :
  fst (GenerateRandomSerial Z Sample.draw 3 5) = "D4B"
  /\ fst (GenerateRandomSerial Z Sample.draw (-4) 5) = EmptyString
  /\ Cxx.length (fst (GenerateRandomSerial Z Sample.draw 40 5)) = 40.
Proof.
  split; [reflexivity|].
  destruct (GenerateRandomSerial_any_length Z Sample.draw Sample_draw_range
                                            (-4) 5) as (_ & _ & H).
  split; [apply H; lia|].
  destruct (GenerateRandomSerial_any_length Z Sample.draw Sample_draw_range
                                            40 5) as (H40 & _).
  exact H40.
Defined.

(** ** What every sequence of calls maintains *)

(** The five parts of [coherent], each tried with the facts at hand. *)
Ltac coherent_parts :=
  unfold coherent; simpl;
  refine (conj _ (conj _ (conj _ (conj _ _))));
  try solve [assumption | discriminate | lia | intros; congruence
             | unfold ULONG_MAX in *; lia].

Lemma coherent_new (this : ObjId) (h : HookState) :
  coherent this WindowsSpoofer_new h.
Proof. coherent_parts. Qed.

Lemma coherent_InitializeForProcess (w : World) (this : ObjId) (pid : DWORD)
      (s : WindowsSpoofer) (h : HookState) :
  0 <= pid <= ULONG_MAX ->
  coherent this s h ->
  coherent this (snd (InitializeForProcess w pid s)) h.
Proof.
  intros Hp (C1 & C2 & C3 & C4 & C5). unfold InitializeForProcess.
  destruct (_ && _); coherent_parts.
Qed.

Lemma fold_attach_keeps (ops : list DetourOp) :
  forall l,
    (forall op, In op ops -> exists t, op = Attach t) ->
    is_attached VolumeInformation l = true ->
    is_attached VolumeInformation (fold_left apply_op ops l) = true.
Proof.
  induction ops as [|op r IH]; intros l Hops Hl; simpl; [exact Hl|].
  apply IH; [intros o Ho; apply Hops; now right|].
  destruct (Hops op (or_introl eq_refl)) as [t ->].
  now apply is_attached_attach_other.
Qed.

Lemma InstallHooks_hooks_bound (w : World) (this : ObjId)
      (s s' : WindowsSpoofer) (h h' : HookState) (r : bool) :
  InstallHooks w this s h = (r, s', h') ->
  (m_hooksInstalled s = true -> hooks_bound this h) ->
  m_hooksInstalled s' = true -> hooks_bound this h'.
Proof.
  intros E Hbefore Hafter.
  destruct (m_hooksInstalled s) eqn:Hs.
  - unfold InstallHooks in E. rewrite Hs in E. inversion E; subst. auto.
  - destruct r.
    + destruct (InstallHooks_success w this s s' h h' Hs E)
        as (_ & Hi & Hv & Ha & _).
      split; [exact Hi|]. split; [|exact Hv].
      rewrite Ha. unfold attach_ops.
      destruct (g_originalGetVolumeInformationA h'); [|congruence].
      cbn [app fold_left].
      apply fold_attach_keeps.
      * intros op Hop. destruct (g_originalGetAdaptersInfo h');
          simpl in Hop; [destruct Hop as [<-|[]]; eauto|contradiction].
      * apply is_attached_after_attach.
    + apply InstallHooks_failure in E. destruct E as (-> & _). congruence.
Qed.

Lemma coherent_ApplySpoofing (w : World) (this : ObjId)
      (identifiers : SpoofedIdentifiers) (s s' : WindowsSpoofer)
      (h h' : HookState) (r : bool) :
  ApplySpoofing w this identifiers s h = (r, s', h') ->
  coherent this s h -> coherent this s' h'.
Proof.
  intros E (C1 & C2 & C3 & C4 & C5).
  pose proof E as C. apply ApplySpoofing_cases in C.
  destruct C as [(_ & _ & -> & ->) | (Hi & Hi' & Ht & _ & Hc & Hf)];
    [coherent_parts|].
  unfold coherent. rewrite Hi', Ht, Hc, Hf. coherent_parts.
  intros ->.
  unfold ApplySpoofing in E. rewrite Hi in E. simpl negb in E.
  cbv iota in E.
  destruct (InstallHooks w this _ h) as [[installed s4] h1] eqn:EI.
  assert (Hh : h' = h1 /\ m_hooksInstalled s4 = true).
  { pose proof (InstallHooks_fields _ _ _ _ _ _ _ EI)
      as (_ & _ & _ & _ & Hy & _).
    destruct installed; simpl negb in E; cbv iota in E.
    - unfold CanSafeMacSpoof, ApplyMacSpoofing, SpoofVolumeSerial,
        SpoofDiskSerial, SpoofGpuId, SpoofWmiData in E.
      repeat match type of E with
             | context [if ?c then _ else _] => destruct c
             end; simpl in E; inversion E; auto.
    - discriminate. }
  destruct Hh as [-> Hs4].
  eapply InstallHooks_hooks_bound; [exact EI| |exact Hs4].
  simpl. exact C3.
Qed.

Lemma RemoveHooks_hooks_bound (w : World) (this : ObjId)
      (s s' : WindowsSpoofer) (h h' : HookState) (r : bool) :
  RemoveHooks w s h = (r, s', h') ->
  (m_hooksInstalled s = true -> hooks_bound this h) ->
  m_hooksInstalled s' = true -> hooks_bound this h'.
Proof.
  unfold RemoveHooks, detour_transaction.
  destruct (m_hooksInstalled s) eqn:Hs; simpl negb; cbv iota.
  2:{ intros [= <- <- <-] _ H. congruence. }
  destruct (DetourTransactionCommit w (detach_ops h) =? NO_ERROR) eqn:E;
    rewrite ?E.
  - intros [= <- <- <-] _ H. simpl in H. discriminate.
  - intros [= <- <- <-] Hb _. exact (Hb eq_refl).
Qed.

Lemma coherent_RestoreOriginalValues (w : World) (this : ObjId)
      (s s' : WindowsSpoofer) (h h' : HookState) (r : bool) :
  RestoreOriginalValues w s h = (r, s', h') ->
  coherent this s h -> coherent this s' h'.
Proof.
  intros E (C1 & C2 & C3 & C4 & C5).
  unfold RestoreOriginalValues in E.
  destruct (negb (m_initialized s) || negb (active (m_currentSpoofed s))).
  { inversion E; subst. coherent_parts. }
  destruct (RemoveHooks w s h) as [[r0 s1] h1] eqn:ER.
  pose proof (RemoveHooks_hooks_bound w this s s1 h h1 r0 ER C3) as Hb.
  apply RemoveHooks_fields in ER. destruct ER as (Hc & _ & _ & Ht).
  inversion E; subst. unfold coherent. simpl. rewrite Hc, Ht.
  coherent_parts.
Qed.

Lemma coherent_Cleanup (w : World) (this : ObjId) (s : WindowsSpoofer)
      (h : HookState) :
  coherent this s h ->
  coherent this (fst (Cleanup w s h)) (snd (Cleanup w s h)).
Proof.
  intros C. unfold Cleanup.
  destruct (m_initialized s) eqn:Hi; [|exact C].
  destruct (RestoreOriginalValues w s h) as [[r s1] h1] eqn:E.
  pose proof (coherent_RestoreOriginalValues w this s s1 h h1 r E C)
    as (_ & C2 & C3 & _ & C5).
  apply RestoreOriginalValues_fields in E.
  destruct E as (_ & _ & _ & _ & Hc).
  specialize (Hc Hi). rewrite Hc in C2, C5. simpl in C2, C5.
  unfold coherent. simpl. rewrite Hc. coherent_parts.
Qed.

Lemma coherent_ensure_spoofer (p : Process) :
  coherent_process p ->
  coherent (fst (fst (ensure_spoofer p))) (snd (fst (ensure_spoofer p)))
           (hooks (snd (ensure_spoofer p)))
  /\ g_spoofer (snd (ensure_spoofer p))
     = Some (fst (ensure_spoofer p))
  /\ hooks (snd (ensure_spoofer p)) = hooks p.
Proof.
  unfold coherent_process, ensure_spoofer.
  destruct (g_spoofer p) as [[this s]|] eqn:E; simpl.
  - intros C. rewrite E. auto.
  - intros _. split; [apply coherent_new|auto].
Qed.

Lemma coherent_run_method (Rng : Type) (dis : Z -> Z -> Rng -> Z * Rng)
      (w : World) (m : Method) (info : list JsValue) (st : Process * Rng) :
  coherent_process (fst st) ->
  coherent_process (fst (snd (run_method Rng dis w m info st))).
Proof.
  destruct st as [p g]. simpl fst. intros C.
  destruct m; simpl.
  - unfold nan_InitializeForProcess.
    destruct info as [|[|b|n|text|props] rest]; try exact C.
    destruct (coherent_ensure_spoofer p C) as (Cs & _ & Hh).
    destruct (ensure_spoofer p) as [[this s] p1]. simpl in Cs, Hh.
    pose proof (coherent_InitializeForProcess
                  w this (ToUint32 (JsNumber n)) s (hooks p1)) as H.
    destruct (InitializeForProcess w (ToUint32 (JsNumber n)) s) as [r s1].
    simpl in *. unfold coherent_process. simpl. apply H; [|exact Cs].
    unfold ULONG_MAX.
    pose proof (Z.mod_pos_bound n (2 ^ 32) ltac:(lia)). lia.
  - unfold nan_ApplySpoofing. unfold coherent_process in C.
    destruct (g_spoofer p) as [[this s]|] eqn:E;
      [|simpl; unfold coherent_process; now rewrite E].
    destruct info as [|[|b|n|text|props] rest];
      try (simpl; unfold coherent_process; now rewrite E).
    destruct (ApplySpoofing w this (identifiers_of_object props) s (hooks p))
      as [[r s1] h1] eqn:EA.
    simpl. unfold coherent_process. simpl.
    eapply coherent_ApplySpoofing; eauto.
  - unfold nan_GenerateRandomIdentifiers.
    destruct (coherent_ensure_spoofer p C) as (Cs & Hg & _).
    destruct (ensure_spoofer p) as [[this s] p1]. simpl in Cs, Hg.
    destruct (GenerateRandomIdentifiers Rng dis g). simpl.
    unfold coherent_process. now rewrite Hg.
  - unfold nan_GetSpoofingStatus.
    destruct (g_spoofer p) as [[this s]|]; exact C.
  - unfold nan_RestoreOriginalIdentifiers. unfold coherent_process in C.
    destruct (g_spoofer p) as [[this s]|] eqn:E;
      [|simpl; unfold coherent_process; now rewrite E].
    destruct (RestoreOriginalValues w s (hooks p)) as [[r s1] h1] eqn:ER.
    simpl. unfold coherent_process. simpl.
    eapply coherent_RestoreOriginalValues; eauto.
  - destruct (nan_Cleanup_destroys w p) as [_ H].
    destruct (nan_Cleanup w p) as [r p1]. simpl in *.
    unfold coherent_process. now rewrite H.
  - unfold nan_CanSafeMacSpoof. destruct (g_spoofer p); exact C.
  - exact C.
Qed.

(** X22.  Whatever the host calls, in whatever order, with whatever
    arguments and in whatever environments, the add-on stays coherent
    between calls: a controller that is not initialized never holds an
    active spoof; an active spoof always has its hooks marked installed;
    hooks marked installed always mean that the volume redirection is
    attached, that its original entry point is known and that
    [g_spooferInstance] is the live controller; and the process ids kept
    are 32-bit values.  In particular, whenever the status can read
    active, the volume interception is really in place and bound to the
    controller that reports it. *)
Theorem script_keeps_coherent :
  forall (Rng : Type) (dis : Z -> Z -> Rng -> Z * Rng)
         (exports : list (string * Method))
         (calls : list (World * string * list JsValue)) (g : Rng),
    coherent_process (fst (script Rng dis exports calls (Process_start, g)))
    /\ forall w this s,
        g_spoofer (fst (script Rng dis exports calls (Process_start, g)))
        = Some (this, s) ->
        IsSpoofingActive w s = true ->
        hooks_bound
          this (hooks (fst (script Rng dis exports calls (Process_start, g)))).
Proof.
  intros Rng dis exports calls g.
  assert (H : forall st, coherent_process (fst st) ->
                         coherent_process (fst (script Rng dis exports calls st))).
  { induction calls as [|[[w name] info] r IH]; intros st C; [exact C|].
    cbn [script]. unfold call.
    destruct (export exports name) as [m|]; [|now apply IH].
    pose proof (coherent_run_method Rng dis w m info st C) as C1.
    destruct (run_method Rng dis w m info st) as [res st1].
    now apply IH. }
  specialize (H (Process_start, g) I).
  split; [exact H|].
  intros w this s Hs Hact.
  unfold coherent_process in H. rewrite Hs in H.
  destruct H as (_ & C2 & C3 & _).
  unfold IsSpoofingActive in Hact. reflect_tests.
  auto.
Qed.

Lemma script_keeps_coherent_witness :
  exists s,
    g_spoofer (fst (script Z Sample.draw InitModule Scenario.session
                           (Process_start, 5)))
    = Some (0%nat, s)
    /\ IsSpoofingActive Sample.world s = true
    /\ hooks_bound
         0%nat
         (hooks (fst (script Z Sample.draw InitModule Scenario.session
                             (Process_start, 5)))).
Proof.
  destruct (g_spoofer (fst (script Z Sample.draw InitModule Scenario.session
                                   (Process_start, 5))))
    as [[this s]|] eqn:E; [|vm_compute in E; discriminate].
  assert (Hthis : this = 0%nat) by (vm_compute in E; congruence).
  subst this.
  assert (Hact : IsSpoofingActive Sample.world s = true)
    by (vm_compute in E; injection E as <-; reflexivity).
  exists s. split; [reflexivity|]. split; [exact Hact|].
  destruct (script_keeps_coherent Z Sample.draw InitModule Scenario.session 5)
    as [_ H].
  exact (H Sample.world 0%nat s E Hact).
Defined.

(** ** Edges of the binding *)

(** X24.  initializeForProcess converts its argument to an unsigned
    32-bit integer: a number n targets process [n mod 2^32], so that [-1]
    targets 4294967295 and n and [n + 2^32] are the same request. *)
Theorem initializeForProcess_wraps_pid :
  forall (w : World) (n : Z) (rest : list JsValue) (p : Process),
    nan_InitializeForProcess w (JsNumber n :: rest) p
    = nan_InitializeForProcess w [JsNumber (n mod 2 ^ 32)] p
    /\ nan_InitializeForProcess w (JsNumber (n + 2 ^ 32) :: rest) p
       = nan_InitializeForProcess w (JsNumber n :: rest) p
    /\ exists this s,
        g_spoofer (snd (nan_InitializeForProcess w (JsNumber n :: rest) p))
        = Some (this, s)
        /\ m_initialized s = true
        /\ m_targetProcessId s = n mod 2 ^ 32.
Proof.
  intros w n rest p. unfold nan_InitializeForProcess, ToUint32.
  assert (Hw : (n + 2 ^ 32) mod 2 ^ 32 = n mod 2 ^ 32).
  { replace (n + 2 ^ 32) with (n + 1 * 2 ^ 32) by lia.
    apply Z.mod_add. lia. }
  rewrite Z.mod_mod, Hw by lia.
  split; [reflexivity|]. split; [reflexivity|].
  destruct (ensure_spoofer p) as [[this s] p1].
  assert (H : m_initialized (snd (InitializeForProcess w (n mod 2 ^ 32) s)) = true
              /\ m_targetProcessId
                   (snd (InitializeForProcess w (n mod 2 ^ 32) s))
                 = n mod 2 ^ 32).
  { unfold InitializeForProcess.
    destruct (m_initialized s && (m_targetProcessId s =? n mod 2 ^ 32)) eqn:E;
      simpl; [reflect_tests|]; auto. }
  destruct (InitializeForProcess w (n mod 2 ^ 32) s) as [r s1].
  simpl in *. eauto.
Qed.

(** ** Re-targeting an active spoof *)

(** X25.  Liveness follows the controller's target, not the owner stamped
    on the spoof set.  After a successful ApplySpoofing, a call of
    InitializeForProcess for any process id leaves the spoof active, and
    from then on IsSpoofingActive is exactly the liveness of that process:
    the spoof prepared for one process silently becomes the spoof of the
    next one. *)
Theorem IsSpoofingActive_follows_new_target
        (w0 w1 : World) (this : ObjId) (identifiers : SpoofedIdentifiers)
        (s s1 : WindowsSpoofer) (h h1 : HookState) (pid : DWORD)
        (Happly : ApplySpoofing w0 this identifiers s h = (true, s1, h1)) :
  forall w,
    IsSpoofingActive w (snd (InitializeForProcess w1 pid s1))
    = IsProcessAlive w pid
    /\ m_currentSpoofed (snd (InitializeForProcess w1 pid s1))
       = set_active true (set_processId (m_targetProcessId s) identifiers).
Proof.
  intros w. apply ApplySpoofing_cases in Happly.
  destruct Happly as [(_ & Hr & _) | (_ & Hi & _ & _ & Hc & _)];
    [discriminate|].
  unfold InitializeForProcess, IsSpoofingActive.
  destruct (m_initialized s1 && (m_targetProcessId s1 =? pid)) eqn:E; simpl.
  - reflect_tests. subst pid. rewrite Hi, Hc. simpl. auto.
  - rewrite Hc. simpl. auto.
Qed.

Lemma IsSpoofingActive_follows_new_target_witness :
  IsSpoofingActive
    Sample.world
    (snd (InitializeForProcess
            Sample.world_process_gone 99
            (spoofer (Sample.applied 1 (Sample.with_volume "DEADBEEF")))))
  = true
  /\ processId
       (m_currentSpoofed
          (snd (InitializeForProcess
                  Sample.world_process_gone 99
                  (spoofer (Sample.applied 1 (Sample.with_volume "DEADBEEF"))))))
     = 1.
Proof.
  destruct (IsSpoofingActive_follows_new_target
              Sample.world Sample.world_process_gone 7%nat
              (Sample.with_volume "DEADBEEF")
              (snd (InitializeForProcess Sample.world 1 WindowsSpoofer_new))
              (spoofer (Sample.applied 1 (Sample.with_volume "DEADBEEF")))
              HookState_init
              (hooked (Sample.applied 1 (Sample.with_volume "DEADBEEF")))
              99 eq_refl Sample.world) as [H1 H2].
  rewrite H1, H2. split; reflexivity.
Defined.

(** ** Generated identifiers as spoof values *)

Lemma all_upper_hex_digits (s : string) :
  all_upper_hex s = true -> all_hex_digits s = true.
Proof.
  induction s as [|c r IH]; simpl; [reflexivity|].
  intros H. apply andb_true_iff in H. destruct H as [Hc Hr].
  destruct (is_upper_hex_digit c Hc) as [d ->]. auto.
Qed.

(** X26.  Every volumeSerial that GenerateRandomIdentifiers produces is
    accepted by the volume hook: [std::stoul] converts it, to the number
    its eight digits denote, so applying generated identifiers never
    falls back to the real serial. *)
Theorem generated_volume_serial_converts
        (Rng : Type) (dis : Z -> Z -> Rng -> Z * Rng)
        (dis_range : forall lo hi g, lo <= hi -> lo <= fst (dis lo hi g) <= hi)
        (g : Rng) :
  Cxx.stoul (volumeSerial (fst (GenerateRandomIdentifiers Rng dis g))) 16
  = Cxx.Converted
      (base16_value (volumeSerial (fst (GenerateRandomIdentifiers Rng dis g))) 0)
  /\ Cxx.empty (volumeSerial (fst (GenerateRandomIdentifiers Rng dis g)))
     = false.
Proof.
  unfold GenerateRandomIdentifiers.
  destruct (GenerateRandomMac Rng dis g) as [mac g1].
  destruct (GenerateRandomSerial Rng dis 16 g1) as [disk g2].
  pose proof (GenerateRandomSerial_shape Rng dis dis_range 8 g2 ltac:(lia))
    as [Hlen Hup].
  destruct (GenerateRandomSerial Rng dis 8 g2) as [volume g3].
  destruct (GenerateRandomSerial Rng dis 12 g3) as [gpu g4].
  destruct (GenerateRandomSerial Rng dis 10 g4) as [bios g5].
  destruct (GenerateRandomSerial Rng dis 14 g5) as [mb g6].
  simpl in *. unfold Cxx.length in Hlen.
  assert (Hne : Cxx.empty volume = false)
    by (destruct volume; [simpl in Hlen; lia|reflexivity]).
  split; [|exact Hne].
  apply stoul_valid_hex; [|lia].
  unfold valid_hex. rewrite Hne. simpl.
  now apply all_upper_hex_digits.
Qed.

Lemma generated_volume_serial_converts_witness :
  Cxx.stoul (volumeSerial (fst (GenerateRandomIdentifiers Z Sample.draw 5))) 16
  = Cxx.Converted 1547311350.
Proof.
  destruct (generated_volume_serial_converts Z Sample.draw Sample_draw_range 5)
    as [H _].
  rewrite H. reflexivity.
Defined.
